(** * API gateway: error taxonomy, circuit breaker, retry loop, route
      resolver and rate limiter

    A shallow embedding of the request-processing core of the gateway
    ([src/utils/errorHandler.js], [src/layers/forwarding.js],
    [src/layers/auth.js], [src/layers/entry.js]) together with the
    properties its specification states about it.

    Conventions.
    - JavaScript numbers that the code uses as counters, HTTP statuses and
      millisecond clocks are integers of [Z]; [Math.random()] is a rational.
    - An [async] function is a function on a [World]: the world carries the
      clock read by [Date.now()], the behaviour of the upstream services, the
      random source and the trace of the I/O the gateway performed.
    - A thrown exception is the [Rejected] branch of [Outcome]. *)

From Stdlib Require Import ZArith QArith Qround Lqa Lia List Bool Ascii String.
From stdpp Require Import base gmap strings list pretty.
Import ListNotations.
Local Open Scope Z_scope.

(** ** JavaScript values, as far as the gateway inspects them *)

Inductive JsVal : Type :=
  | JUndefined
  | JNull
  | JBool (b : bool)
  | JNum (n : Z)
  | JNaN
  | JStr (s : string)
  | JList (l : list string).

(** [ToBoolean]: the values on which [||], [&&] and [if] take the
    falsy branch are [undefined], [null], [false], [0], [NaN] and the empty
    string. *)
Definition truthy (v : JsVal) : bool :=
  match v with
  | JUndefined | JNull | JNaN => false
  | JBool b => b
  | JNum n => negb (n =? 0)
  | JStr s => negb (String.eqb s "")
  | JList _ => true
  end.

(** [a || b] *)
Definition jsOr (a b : JsVal) : JsVal := if truthy a then a else b.

(** [typeof v === 'number'] *)
Definition isNumber (v : JsVal) : bool :=
  match v with JNum _ | JNaN => true | _ => false end.

(** [Array.isArray(v)] *)
Definition isArray (v : JsVal) : bool :=
  match v with JList _ => true | _ => false end.

(** [xs.includes(x)] on arrays of strings and of numbers. *)
Definition includes (xs : list string) (x : string) : bool :=
  existsb (String.eqb x) xs.

Definition includesZ (xs : list Z) (x : Z) : bool :=
  existsb (Z.eqb x) xs.

(** [o === s] for an optional string property. *)
Definition propIs (o : option string) (s : string) : bool :=
  match o with Some c => String.eqb c s | None => false end.

(** ** Errors *)

(** [error.response] of an HTTP client error: the status and
    [data?.message]. A status of [0] stands for a missing one (both are
    falsy). *)
Record Response : Type := mkResponse {
  status : Z;
  data_message : option string
}.

Definition Details : Type := option (list (string * JsVal)).

(** An exception value.  [GatewayError] is the class of
    [errorHandler.js]; every other exception (an HTTP client error, a
    system error, a [ReferenceError], ...) is an [OtherError] with the
    properties the gateway reads from it. *)
Inductive JsError : Type :=
  | GatewayError (message : string) (statusCode : Z) (errorCode : string)
                 (details : Details) (timestamp : Z)
  | OtherError (name message : string) (code : option string)
               (response : option Response) (statusCode status : option Z).

Definition err_message (e : JsError) : string :=
  match e with
  | GatewayError m _ _ _ _ => m
  | OtherError _ m _ _ _ _ => m
  end.

Definition err_name (e : JsError) : string :=
  match e with
  | GatewayError _ _ _ _ _ => "GatewayError"
  | OtherError n _ _ _ _ _ => n
  end.

(** [error.code]: a [GatewayError] has [errorCode], not [code]. *)
Definition err_code (e : JsError) : option string :=
  match e with
  | GatewayError _ _ _ _ _ => None
  | OtherError _ _ c _ _ _ => c
  end.

Definition err_response (e : JsError) : option Response :=
  match e with
  | GatewayError _ _ _ _ _ => None
  | OtherError _ _ _ r _ _ => r
  end.

Definition err_errorCode (e : JsError) : option string :=
  match e with
  | GatewayError _ _ c _ _ => Some c
  | OtherError _ _ _ _ _ _ => None
  end.

Definition err_statusCode (e : JsError) : option Z :=
  match e with
  | GatewayError _ s _ _ _ => Some s
  | OtherError _ _ _ _ s _ => s
  end.

Definition err_status (e : JsError) : option Z :=
  match e with
  | GatewayError _ _ _ _ _ => None
  | OtherError _ _ _ _ _ s => s
  end.

Definition instanceofGatewayError (e : JsError) : bool :=
  match e with GatewayError _ _ _ _ _ => true | _ => false end.

(** The result of an [async] call or of a [try] block. *)
Inductive Outcome (A : Type) : Type :=
  | Resolved (a : A)
  | Rejected (e : JsError).
Arguments Resolved {A} a.
Arguments Rejected {A} e.

(** The JSON body the error middleware writes. *)
Record Envelope : Type := mkEnvelope {
  env_error : string;
  env_message : string;
  env_details : option Details;
  env_requestId : string;
  env_timestamp : Z;
  env_stack : bool
}.

(** What a middleware does with the response. *)
Inductive Reply : Type :=
  | Sent (httpStatus : Z) (body : Envelope)
  | Delegated (e : JsError).

Module ErrorHandler.

(** [new Date().toISOString()] is the instant [now] of the clock. *)
Definition createError (now : Z) (message : string) (statusCode : Z)
    (errorCode : string) (details : Details) : JsError :=
  GatewayError message statusCode errorCode details now.

Definition mapUpstreamError (now : Z) (error : JsError)
    (serviceName : string) : JsError :=
  if propIs (err_code error) "ECONNREFUSED" then
    GatewayError ("Service " +:+ serviceName +:+ " is unavailable")
      503 "SERVICE_UNAVAILABLE"
      (Some [("service", JStr serviceName);
             ("originalError", JStr (err_message error))]) now
  else if propIs (err_code error) "ETIMEDOUT"
          || String.eqb (err_name error) "TimeoutError" then
    GatewayError ("Service " +:+ serviceName +:+ " request timed out")
      504 "GATEWAY_TIMEOUT"
      (Some [("service", JStr serviceName);
             ("originalError", JStr (err_message error))]) now
  else
    match err_response error with
    | Some resp =>
        let statusCode := if status resp =? 0 then 502 else status resp in
        let mappedStatusCode := if 500 <=? statusCode then 502 else statusCode in
        let msg :=
          match data_message resp with
          | Some m => if String.eqb m "" then
                        "Upstream service error: " +:+ err_message error
                      else m
          | None => "Upstream service error: " +:+ err_message error
          end in
        GatewayError msg mappedStatusCode "UPSTREAM_ERROR"
          (Some [("service", JStr serviceName);
                 ("upstreamStatus", JNum statusCode);
                 ("originalError", JStr (err_message error))]) now
    | None =>
        GatewayError ("Unknown error from service " +:+ serviceName)
          502 "BAD_GATEWAY"
          (Some [("service", JStr serviceName);
                 ("originalError", JStr (err_message error))]) now
    end.

Definition handleRateLimitError (now : Z) (remaining resetTime tier : JsVal)
    : JsError :=
  GatewayError "Rate limit exceeded" 429 "RATE_LIMIT_EXCEEDED"
    (Some [("remaining", remaining); ("resetTime", resetTime);
           ("tier", tier)]) now.

Definition handleCircuitBreakerError (now : Z) (serviceName state : string)
    : JsError :=
  GatewayError ("Service " +:+ serviceName +:+ " is temporarily unavailable")
    503 "CIRCUIT_BREAKER_OPEN"
    (Some [("service", JStr serviceName); ("state", JStr state);
           ("message", JStr "Circuit breaker is open due to repeated failures")])
    now.

(** [ErrorHandler.middleware()]: [headersSent] is [res.headersSent],
    [production] is [process.env.NODE_ENV === 'production']. *)
Definition middleware (headersSent production : bool) (now : Z)
    (requestId : string) (error : JsError) : Reply :=
  if headersSent then Delegated error
  else
    match error with
    | GatewayError message statusCode errorCode details timestamp =>
        Sent statusCode
          {| env_error := errorCode;
             env_message := message;
             env_details := Some details;
             env_requestId := requestId;
             env_timestamp := timestamp;
             env_stack := false |}
    | OtherError _ message _ _ statusCode status =>
        let pick o := match o with Some 0 | None => None | Some s => Some s end in
        let statusCode :=
          match pick statusCode with
          | Some s => s
          | None => match pick status with Some s => s | None => 500 end
          end in
        Sent statusCode
          {| env_error := "INTERNAL_SERVER_ERROR";
             env_message := if production
                            then "An internal server error occurred"
                            else message;
             env_details := None;
             env_requestId := requestId;
             env_timestamp := now;
             env_stack := negb production |}
    end.

(** [handleAuthError]: the library's error is classified by its [name];
    [date] is the [expiredAt] or the [date] that it carries. *)
Definition handleAuthError (now : Z) (error : JsError) (date : JsVal) : JsError :=
  if String.eqb (err_name error) "TokenExpiredError" then
    GatewayError "Token has expired" 401 "TOKEN_EXPIRED"
      (Some [("expiredAt", date)]) now
  else if String.eqb (err_name error) "JsonWebTokenError" then
    GatewayError "Invalid token" 401 "INVALID_TOKEN"
      (Some [("reason", JStr (err_message error))]) now
  else if String.eqb (err_name error) "NotBeforeError" then
    GatewayError "Token not active" 401 "TOKEN_NOT_ACTIVE"
      (Some [("date", date)]) now
  else
    GatewayError "Authentication failed" 401 "AUTH_FAILED"
      (Some [("originalError", JStr (err_message error))]) now.

End ErrorHandler.

(** ** The world an [async] function runs in *)

(** The response object of the HTTP client. *)
Record AxiosResponse : Type := mkAxiosResponse {
  res_status : Z;
  res_headers : list (string * string);
  res_data : option string
}.

(** What an upstream service does with one request. *)
Inductive UpstreamEvent : Type :=
  | HttpResponse (r : AxiosResponse)
  | ConnectionRefused
  | RequestTimeout
  | SocketTimeout
  | NetworkError (code message : string).

Record Step : Type := mkStep {
  elapsed : Z;
  event : UpstreamEvent
}.

(** A value of [req.query], as the query parser builds it: a string, an
    array (a repeated name) or a nested object (a name with brackets). *)
#[local] Unset Elimination Schemes.
Inductive QueryValue : Type :=
  | QString (s : string)
  | QArray (items : list QueryValue)
  | QObject (fields : list (string * QueryValue)).
#[local] Set Elimination Schemes.

(** The I/O the gateway performs, in order.  An upstream call is recorded
    with its URL and with the [params] of its configuration, which the
    client appends to the URL as a query string. *)
Inductive IO : Type :=
  | Dispatch (url : string) (params : list (string * QueryValue))
  | Sleep (ms : Q)
  | Respond (httpStatus : Z).

Record World : Type := mkWorld {
  clock : Z;                (* Date.now() *)
  upstream : nat -> Step;   (* behaviour of the k-th upstream call *)
  dispatched : nat;         (* upstream calls made so far *)
  random : nat -> Q;        (* the k-th value of Math.random() *)
  drawn : nat;              (* values drawn so far *)
  trace : list IO           (* newest first *)
}.

Definition Async (A : Type) : Type := World -> Outcome A * World.

(** [await new Promise(resolve => setTimeout(resolve, ms))]: the timer fires
    at the first millisecond that is not before the requested duration. *)
Definition setTimeout (ms : Q) (w : World) : World :=
  {| clock := clock w + Qceiling ms;
     upstream := upstream w;
     dispatched := dispatched w;
     random := random w;
     drawn := drawn w;
     trace := Sleep ms :: trace w |}.

(** [Math.random()] *)
Definition Math_random (w : World) : Q * World :=
  (random w (drawn w),
   {| clock := clock w;
      upstream := upstream w;
      dispatched := dispatched w;
      random := random w;
      drawn := S (drawn w);
      trace := trace w |}).

(** [res.status(..)], [res.setHeader(..)], [res.send(..)] *)
Definition respond (httpStatus : Z) (w : World) : World :=
  {| clock := clock w;
     upstream := upstream w;
     dispatched := dispatched w;
     random := random w;
     drawn := drawn w;
     trace := Respond httpStatus :: trace w |}.

(** The HTTP client (axios), from its documented contract: a transport
    failure rejects with the failure's [code]; a received response is
    passed to [validateStatus], and a [validateStatus] of [null] resolves
    the promise for every status. *)
Definition settle (validateStatus : option (Z -> bool)) (ev : UpstreamEvent)
    : Outcome AxiosResponse :=
  match ev with
  | HttpResponse r =>
      match validateStatus with
      | None => Resolved r
      | Some ok =>
          if (res_status r =? 0) || ok (res_status r) then Resolved r
          else Rejected
                 (OtherError "AxiosError"
                    ("Request failed with status code " +:+ pretty (res_status r))
                    (Some (if res_status r <? 500 then "ERR_BAD_REQUEST"
                           else "ERR_BAD_RESPONSE"))
                    (Some (mkResponse (res_status r) None)) None None)
      end
  | ConnectionRefused =>
      Rejected (OtherError "Error" "connect ECONNREFUSED"
                  (Some "ECONNREFUSED") None None None)
  | RequestTimeout =>
      Rejected (OtherError "AxiosError" "timeout exceeded"
                  (Some "ECONNABORTED") None None None)
  | SocketTimeout =>
      Rejected (OtherError "Error" "connect ETIMEDOUT"
                  (Some "ETIMEDOUT") None None None)
  | NetworkError c m =>
      Rejected (OtherError "Error" m (Some c) None None None)
  end.

Definition axios (validateStatus : option (Z -> bool)) (url : string)
    (params : list (string * QueryValue)) : Async AxiosResponse :=
  fun w =>
    let s := upstream w (dispatched w) in
    (settle validateStatus (event s),
     {| clock := clock w + elapsed s;
        upstream := upstream w;
        dispatched := S (dispatched w);
        random := random w;
        drawn := drawn w;
        trace := Dispatch url params :: trace w |}).

(** ** The circuit breaker ([forwarding.js], class [CircuitBreaker]) *)

Module CircuitBreaker.

Inductive State : Type := CLOSED | OPEN | HALF_OPEN.

(** [CIRCUIT_STATES] *)
Definition CIRCUIT_STATES (s : State) : string :=
  match s with
  | CLOSED => "closed"
  | OPEN => "open"
  | HALF_OPEN => "half-open"
  end.

(** [config.circuitBreaker], and the constructor's [options]; a field of
    [options] that is [0] or absent is falsy. *)
Record Config : Type := mkConfig {
  cfg_failureThreshold : Z;
  cfg_recoveryTimeout : Z;
  cfg_monitorTimeout : Z
}.

Definition noOptions : Config := mkConfig 0 0 0.

Record t : Type := mk {
  serviceName : string;
  failureThreshold : Z;
  recoveryTimeout : Z;
  monitorTimeout : Z;
  state : State;
  failureCount : Z;
  lastFailureTime : option Z;
  nextAttempt : option Z;
  successCount : Z
}.

Definition orElse (a b : Z) : Z := if a =? 0 then b else a.

Definition new (name : string) (options config : Config) : t :=
  {| serviceName := name;
     failureThreshold :=
       orElse (cfg_failureThreshold options) (cfg_failureThreshold config);
     recoveryTimeout :=
       orElse (cfg_recoveryTimeout options) (cfg_recoveryTimeout config);
     monitorTimeout :=
       orElse (cfg_monitorTimeout options) (cfg_monitorTimeout config);
     state := CLOSED;
     failureCount := 0;
     lastFailureTime := None;
     nextAttempt := None;
     successCount := 0 |}.

Definition set_state (cb : t) (s : State) : t :=
  mk (serviceName cb) (failureThreshold cb) (recoveryTimeout cb)
     (monitorTimeout cb) s (failureCount cb) (lastFailureTime cb)
     (nextAttempt cb) (successCount cb).

Definition set_failureCount (cb : t) (n : Z) : t :=
  mk (serviceName cb) (failureThreshold cb) (recoveryTimeout cb)
     (monitorTimeout cb) (state cb) n (lastFailureTime cb)
     (nextAttempt cb) (successCount cb).

Definition set_lastFailureTime (cb : t) (x : option Z) : t :=
  mk (serviceName cb) (failureThreshold cb) (recoveryTimeout cb)
     (monitorTimeout cb) (state cb) (failureCount cb) x
     (nextAttempt cb) (successCount cb).

Definition set_nextAttempt (cb : t) (x : option Z) : t :=
  mk (serviceName cb) (failureThreshold cb) (recoveryTimeout cb)
     (monitorTimeout cb) (state cb) (failureCount cb) (lastFailureTime cb)
     x (successCount cb).

Definition set_successCount (cb : t) (n : Z) : t :=
  mk (serviceName cb) (failureThreshold cb) (recoveryTimeout cb)
     (monitorTimeout cb) (state cb) (failureCount cb) (lastFailureTime cb)
     (nextAttempt cb) n.

Definition isState (cb : t) (s : State) : bool :=
  match state cb, s with
  | CLOSED, CLOSED | OPEN, OPEN | HALF_OPEN, HALF_OPEN => true
  | _, _ => false
  end.

(** [Date.now() < this.nextAttempt]: [null] compares as [0]. *)
Definition beforeNextAttempt (cb : t) (now : Z) : bool :=
  now <? match nextAttempt cb with Some n => n | None => 0 end.

Definition onSuccess (cb : t) : t :=
  let cb := set_failureCount cb 0 in
  if isState cb HALF_OPEN then
    let cb := set_successCount cb (successCount cb + 1) in
    if 3 <=? successCount cb then set_state cb CLOSED else cb
  else cb.

Definition onFailure (cb : t) (now : Z) : t :=
  let cb := set_failureCount cb (failureCount cb + 1) in
  let cb := set_lastFailureTime cb (Some now) in
  if isState cb HALF_OPEN then
    set_nextAttempt (set_state cb OPEN) (Some (now + recoveryTimeout cb))
  else if failureThreshold cb <=? failureCount cb then
    set_nextAttempt (set_state cb OPEN) (Some (now + recoveryTimeout cb))
  else cb.

(** The first statement of [execute]: an open breaker either throws
    or becomes half-open; any other breaker is left as it is. *)
Definition enter (cb : t) (now : Z) : JsError + t :=
  if isState cb OPEN then
    if beforeNextAttempt cb now then
      inl (ErrorHandler.handleCircuitBreakerError now (serviceName cb)
             (CIRCUIT_STATES (state cb)))
    else inr (set_successCount (set_state cb HALF_OPEN) 0)
  else inr cb.

(** The [try]/[catch] of [execute]. *)
Definition complete {A : Type} (cb : t) (r : Outcome A * World)
    : Outcome A * t * World :=
  match r with
  | (Resolved a, w) => (Resolved a, onSuccess cb, w)
  | (Rejected e, w) => (Rejected e, onFailure cb (clock w), w)
  end.

Definition execute {A : Type} (cb : t) (requestFn : Async A) (w : World)
    : Outcome A * t * World :=
  match enter cb (clock w) with
  | inl e => (Rejected e, cb, w)
  | inr cb => complete cb (requestFn w)
  end.

Definition reset (cb : t) : t :=
  mk (serviceName cb) (failureThreshold cb) (recoveryTimeout cb)
     (monitorTimeout cb) CLOSED 0 None None 0.

End CircuitBreaker.

(** ** Requests and resolved routes *)

(** The inbound request: [req.method], [req.path], [req.query] (the own
    properties of the object in the order of their creation, each name
    once) and [req.requestId]. *)
Record Request : Type := mkRequest {
  req_method : string;
  req_path : string;
  req_query : list (string * QueryValue);
  req_requestId : string
}.

(** [req.context.route], as the forwarding layer reads it. *)
Record RouteContext : Type := mkRouteContext {
  ctx_target : string;
  ctx_targetUrl : string;
  ctx_timeout : Z;
  ctx_retries : Z
}.

(** ** The forwarding layer ([forwarding.js], class [ForwardingLayer]) *)

Module ForwardingLayer.

(** [this.circuitBreakers] *)
Abbreviation Breakers := (gmap string CircuitBreaker.t).

Section Layer.

(** [config.circuitBreaker], and the URL parser behind
    [extractServiceName] (host and port of the target). *)
Variable config : CircuitBreaker.Config.
Variable extractServiceName : string -> string.

Definition getCircuitBreaker (breakers : Breakers) (serviceName : string)
    : CircuitBreaker.t * Breakers :=
  match breakers !! serviceName with
  | Some cb => (cb, breakers)
  | None =>
      let cb := CircuitBreaker.new serviceName CircuitBreaker.noOptions config in
      (cb, <[serviceName := cb]> breakers)
  end.

(** [makeRequest]: the request is sent to [route.targetUrl] with
    [validateStatus: null] and, when [req.query] has a property, with
    [params: req.query]; a client timeout ([ECONNABORTED]) is rethrown as a
    gateway error, every other exception as it is.  The headers of the
    call are those of [ForwardingHeaders.buildUpstreamHeaders]; they and the
    body are not recorded here, and the definition covers the requests for
    which building the headers returns (a route whose target is a URL, as
    [validateRoute] requires, and a user whose roles are an array). *)
Definition makeRequest (req : Request) (route : RouteContext)
    : Async AxiosResponse :=
  fun w =>
    match axios None (ctx_targetUrl route) (req_query req) w with
    | (Resolved r, w) => (Resolved r, w)
    | (Rejected error, w) =>
        if propIs (err_code error) "ECONNABORTED" then
          (Rejected
             (ErrorHandler.createError (clock w) "Request timeout" 504
                "GATEWAY_TIMEOUT"
                (Some [("timeout", JNum (ctx_timeout route));
                       ("service", JStr (extractServiceName (ctx_target route)))])),
           w)
        else (Rejected error, w)
    end.

(** [forwardResponse]: the upstream status, headers and body are
    written to the client response. *)
Definition forwardResponse (upstreamResponse : AxiosResponse) (w : World)
    : Outcome unit * World :=
  (Resolved tt, respond (res_status upstreamResponse) w).

(** [Math.min(1000 * Math.pow(2, attempt - 1), 10000)] *)
Definition delay (attempt : Z) : Z :=
  Z.min (1000 * 2 ^ (attempt - 1)) 10000.

(** [Math.random() * 0.1 * delay] *)
Definition jitter (r : Q) (delay : Z) : Q :=
  r * (1 # 10) * inject_Z delay.

(** The test that ends the retry loop with [break]. *)
Definition terminal (error : JsError) : bool :=
  propIs (err_errorCode error) "CIRCUIT_BREAKER_OPEN"
  || match err_response error with
     | Some resp => includesZ [400; 401; 403; 404; 422] (status resp)
     | None => false
     end.

(** [throw ErrorHandler.mapUpstreamError(lastError, serviceName)];
    reading [null.code] is a [TypeError]. *)
Definition throwMapped (lastError : option JsError) (serviceName : string)
    (w : World) : JsError :=
  match lastError with
  | Some e => ErrorHandler.mapUpstreamError (clock w) e serviceName
  | None =>
      OtherError "TypeError"
        "Cannot read properties of null (reading 'code')" None None None None
  end.

(** The [if (isRetry)] block at the head of the loop body. *)
Definition waitBeforeRetry (attempt : Z) (w : World) : World :=
  let isRetry := 0 <? attempt in
  if isRetry then
    let delay := delay attempt in
    let '(r, w) := Math_random w in
    setTimeout (inject_Z delay + jitter r delay)%Q w
  else w.

(** The [for] loop of [forwardRequest].  [todo] is the number of
    iterations left, [retries - attempt + 1], so that the loop
    condition [attempt <= retries] is [todo > 0].  [circuitBreaker] is
    the breaker object of the service, which [execute] mutates.

    [scope] lists the identifiers that resolve inside the [catch]
    block.  The block reads [startTime] before it tests for the
    terminating conditions, and reading an identifier that does not
    resolve throws a [ReferenceError] out of the loop. *)
Fixpoint attempts (scope : list string) (req : Request)
    (route : RouteContext) (serviceName : string) (todo : nat)
    (attempt : Z) (lastError : option JsError)
    (circuitBreaker : CircuitBreaker.t) (w : World)
    : Outcome unit * CircuitBreaker.t * World :=
  match todo with
  | O => (Rejected (throwMapped lastError serviceName w), circuitBreaker, w)
  | S todo =>
      let w := waitBeforeRetry attempt w in
      match CircuitBreaker.execute circuitBreaker (makeRequest req route) w with
      | (Resolved result, circuitBreaker, w) =>
          let '(r, w) := forwardResponse result w in
          (r, circuitBreaker, w)
      | (Rejected error, circuitBreaker, w) =>
          let lastError := Some error in
          if includes scope "startTime" then
            if terminal error then
              (Rejected (throwMapped lastError serviceName w),
               circuitBreaker, w)
            else
              attempts scope req route serviceName todo (attempt + 1)
                lastError circuitBreaker w
          else
            (Rejected
               (OtherError "ReferenceError" "startTime is not defined"
                  None None None None),
             circuitBreaker, w)
      end
  end.

(** The identifiers that resolve in the [catch] block of
    [forwardRequest]: the [catch] parameter, the block's own
    [duration], the loop's and the function's variables, the module's
    bindings and the globals in use.  [startTime] is declared by [const]
    inside the [try] block; its scope is that block. *)
Definition catch_scope : list string :=
  ["error"; "duration"; "isRetry"; "attempt"; "retries"; "serviceName";
   "circuitBreaker"; "lastError"; "req"; "res"; "route"; "maxRetries";
   "axios"; "config"; "ErrorHandler"; "logger"; "CIRCUIT_STATES";
   "CircuitBreaker"; "ForwardingLayer"; "module"; "require"; "Date";
   "Math"; "Promise"; "setTimeout"].

(** The body of [forwardRequest] for a given [catch] scope. *)
Definition forwardWith (scope : list string) (req : Request)
    (route : RouteContext) (maxRetries : option Z) (breakers : Breakers)
    (w : World) : Outcome unit * Breakers * World :=
  let retries := match maxRetries with Some m => m | None => ctx_retries route end in
  let serviceName := extractServiceName (ctx_target route) in
  let '(circuitBreaker, breakers) := getCircuitBreaker breakers serviceName in
  let '(r, circuitBreaker, w) :=
    attempts scope req route serviceName (Z.to_nat (retries + 1)) 0 None
      circuitBreaker w in
  (r, <[serviceName := circuitBreaker]> breakers, w).

Definition forwardRequest : Request -> RouteContext -> option Z ->
    Breakers -> World -> Outcome unit * Breakers * World :=
  forwardWith catch_scope.

(** [middleware]: the route context of the request, if any, is
    forwarded; an exception goes to [next]. *)
Definition middleware (req : Request) (route : option RouteContext)
    (breakers : Breakers) (w : World) : Outcome unit * Breakers * World :=
  match route with
  | None =>
      (Rejected (ErrorHandler.createError (clock w) "No route context found"
                   500 "MISSING_ROUTE_CONTEXT" None), breakers, w)
  | Some route => forwardRequest req route None breakers w
  end.

Definition resetCircuitBreaker (breakers : Breakers) (serviceName : string)
    : bool * Breakers :=
  match breakers !! serviceName with
  | Some breaker => (true, <[serviceName := CircuitBreaker.reset breaker]> breakers)
  | None => (false, breakers)
  end.

(** [getHealthStatus]; [unhealthyServices] is kept as the set of its
    elements, their order being the one of the table's enumeration. *)
Record HealthStatus : Type := mkHealthStatus {
  healthy : bool;
  totalServices : nat;
  unhealthyServices : gset string;
  states : Breakers
}.

Definition getHealthStatus (breakers : Breakers) : HealthStatus :=
  let unhealthyServices :=
    dom (filter (fun kv => CircuitBreaker.isState kv.2 CircuitBreaker.OPEN = true)
           breakers) in
  {| healthy := Nat.eqb (size unhealthyServices) 0;
     totalServices := size breakers;
     unhealthyServices := unhealthyServices;
     states := breakers |}.

End Layer.

End ForwardingLayer.

(** ** Strings: the operations of [String.prototype] the router uses *)

(** [s.startsWith(p)], returning the rest of [s]. *)
Fixpoint stripPrefix (p s : string) : option string :=
  match p with
  | EmptyString => Some s
  | String c p =>
      match s with
      | String d s => if Ascii.eqb c d then stripPrefix p s else None
      | EmptyString => None
      end
  end.

(** [s.replace(/suf$/, '')] for a literal, non-empty [suf]. *)
Fixpoint removeSuffix (suf s : string) : string :=
  match s with
  | EmptyString => s
  | String c s' => if String.eqb s suf then "" else String c (removeSuffix suf s')
  end.

(** The characters with a meaning of their own in a [RegExp] source. *)
Definition regexMeta (c : ascii) : bool :=
  existsb (Ascii.eqb c)
    (list_ascii_of_string "\^$.|?*+()[]{}").

Definition literalSource (src : string) : bool :=
  forallb (fun c => negb (regexMeta c)) (list_ascii_of_string src).

(** The [application/x-www-form-urlencoded] serializer behind
    [new URLSearchParams(obj).toString()], on the bytes of a string. *)
Definition formSafe (c : ascii) : bool :=
  let n := N_of_ascii c in
  ((n =? 42) || (n =? 45) || (n =? 46) || (n =? 95)
   || ((48 <=? n) && (n <=? 57))
   || ((65 <=? n) && (n <=? 90))
   || ((97 <=? n) && (n <=? 122)))%N.

Definition hexDigit (n : N) : ascii :=
  nth (N.to_nat n) (list_ascii_of_string "0123456789ABCDEF") "0"%char.

Fixpoint formEncode (s : string) : string :=
  match s with
  | EmptyString => ""
  | String c s =>
      (if formSafe c then String c ""
       else if Ascii.eqb c " " then "+"
       else String "%" (String (hexDigit (N_of_ascii c / 16))
                          (String (hexDigit (N_of_ascii c mod 16)) "")))
      +:+ formEncode s
  end.

Fixpoint joinWith (sep : string) (xs : list string) : string :=
  match xs with
  | [] => ""
  | [x] => x
  | x :: xs => x +:+ sep +:+ joinWith sep xs
  end.

(** [String(v)] for a value of the query: the items of an array are
    joined by commas, and an object is [[object Object]] whatever it holds. *)
Fixpoint queryText (v : QueryValue) : string :=
  match v with
  | QString s => s
  | QArray items => joinWith "," (map queryText items)
  | QObject _ => "[object Object]"
  end.

(** The number that a property name denotes when it is an array index: a
    decimal numeral without a leading zero, below [2^32 - 1]. *)
Fixpoint digitsValue (acc : N) (s : string) : option N :=
  match s with
  | EmptyString => Some acc
  | String c s =>
      let n := N_of_ascii c in
      if ((48 <=? n) && (n <=? 57))%N then digitsValue (10 * acc + (n - 48)) s
      else None
  end.

Definition arrayIndex (name : string) : option N :=
  match name with
  | EmptyString => None
  | String c rest =>
      if Ascii.eqb c "0" && negb (String.eqb rest "") then None
      else
        match digitsValue 0 name with
        | Some n => if (n <? 4294967295)%N then Some n else None
        | None => None
        end
  end.

(** The order in which an object enumerates its own properties
    ([Object.keys], and so the constructor of [URLSearchParams]): the array
    indices in ascending order, then the other names in the order of their
    creation. *)
Fixpoint insertIndexed {V : Type} (n : N) (kv : string * V)
    (sorted : list (N * (string * V))) : list (N * (string * V)) :=
  match sorted with
  | [] => [(n, kv)]
  | (m, x) :: rest =>
      if (n <? m)%N then (n, kv) :: sorted else (m, x) :: insertIndexed n kv rest
  end.

Fixpoint indexedProperties {V : Type} (props : list (string * V))
    : list (N * (string * V)) :=
  match props with
  | [] => []
  | kv :: props =>
      match arrayIndex kv.1 with
      | Some n => insertIndexed n kv (indexedProperties props)
      | None => indexedProperties props
      end
  end.

Definition ownProperties {V : Type} (props : list (string * V))
    : list (string * V) :=
  map snd (indexedProperties props)
  ++ List.filter (fun kv => match arrayIndex kv.1 with
                            | Some _ => false
                            | None => true
                            end) props.

(** [new URLSearchParams(obj).toString()] *)
Definition URLSearchParams_toString (q : list (string * QueryValue)) : string :=
  joinWith "&"
    (map (fun kv => formEncode kv.1 +:+ "=" +:+ formEncode (queryText kv.2))
       (ownProperties q)).

(** ** The routing layer ([forwarding.js], class [RoutingLayer]) *)

Module RoutingLayer.

(** An entry of [config.routes]; an absent property is [None]. *)
Record RouteConfig : Type := mkRouteConfig {
  c_path : string;
  c_target : string;
  c_timeout : option Z;
  c_retries : option Z;
  c_authRequired : option bool;
  c_rateLimitTier : option string;
  c_methods : option (list string);
  c_stripPath : option bool;
  c_preserveHost : option bool;
  c_changeOrigin : option bool
}.

Record Route : Type := mkRoute {
  path : string;
  target : string;
  timeout : Z;
  retries : Z;
  authRequired : bool;
  rateLimitTier : string;
  methods : list string;
  stripPath : bool;
  preserveHost : bool;
  changeOrigin : bool
}.

(** [x || d] on an optional number and on an optional string. *)
Definition orNum (x : option Z) (d : Z) : Z :=
  match x with
  | Some n => if n =? 0 then d else n
  | None => d
  end.

Definition orStr (x : option string) (d : string) : string :=
  match x with
  | Some s => if String.eqb s "" then d else s
  | None => d
  end.

(** [x !== false] and [x === true] *)
Definition notFalse (x : option bool) : bool :=
  match x with Some false => false | _ => true end.

Definition isTrue (x : option bool) : bool :=
  match x with Some true => true | _ => false end.

(** The object literal that [initializeRoutes] and [addRoute] both build
    from a configured route. *)
Definition normalize (route : RouteConfig) : Route :=
  {| path := c_path route;
     target := c_target route;
     timeout := orNum (c_timeout route) 5000;
     retries := orNum (c_retries route) 3;
     authRequired := notFalse (c_authRequired route);
     rateLimitTier := orStr (c_rateLimitTier route) "basic";
     methods := match c_methods route with Some m => m | None => ["GET"] end;
     stripPath := notFalse (c_stripPath route);
     preserveHost := isTrue (c_preserveHost route);
     changeOrigin := notFalse (c_changeOrigin route) |}.

(** The result of [regexp.exec(path)]: the matched text and the groups. *)
Definition Match : Type := list string.

Record CompiledRoute : Type := mkCompiledRoute {
  route : Route;
  regexp : string -> option Match;
  originalPath : string
}.

Record State : Type := mkState {
  routes : list Route;
  compiledRoutes : list CompiledRoute
}.

Record RouteMatch : Type := mkRouteMatch {
  rm_route : CompiledRoute;
  rm_match : Match;
  rm_params : list (string * option string)
}.

Section Layer.

(** The libraries the layer calls.  [pathToRegexp(pattern, keys, opts)]
    throws a [TypeError] for a pattern outside its syntax:
    [pathToRegexp_throws pattern] is that exception; for every other pattern
    [pathToRegexp pattern] is the [exec] of the expression it returns and
    [pathKeys pattern] the names it pushes on [keys].  Then the URL parser,
    and [RegExp] for a source with metacharacters ([None]: the source is
    not a valid expression). *)
Variable pathToRegexp : string -> string -> option Match.
Variable pathToRegexp_throws : string -> option JsError.
Variable pathKeys : string -> list string.
Variable isValidUrl : string -> bool.
Variable RegExp_replace : string -> string -> option string.

Definition compile (r : Route) : CompiledRoute :=
  {| route := r; regexp := pathToRegexp (path r); originalPath := path r |}.

(** [routes.map(route => ({...route, regexp: pathToRegexp(...), ...}))]:
    the routes are compiled in order, and the first pattern that is refused
    ends the call with its exception. *)
Fixpoint compileAll (routes : list Route) : Outcome (list CompiledRoute) :=
  match routes with
  | [] => Resolved []
  | r :: rest =>
      match pathToRegexp_throws (path r) with
      | Some error => Rejected error
      | None =>
          match compileAll rest with
          | Resolved compiled => Resolved (compile r :: compiled)
          | Rejected error => Rejected error
          end
      end
  end.

(** [initializeRoutes], which the constructor calls: the tables of the
    layer, or the exception that leaves the caller without a layer. *)
Definition initializeRoutes (configRoutes : list RouteConfig) : Outcome State :=
  let routes := map normalize configRoutes in
  match compileAll routes with
  | Resolved compiled => Resolved {| routes := routes; compiledRoutes := compiled |}
  | Rejected error => Rejected error
  end.

Definition extractParams (pattern path : string)
    : list (string * option string) :=
  match pathToRegexp pattern path with
  | None => []
  | Some m => imap (fun index key => (key, m !! S index)) (pathKeys pattern)
  end.

Fixpoint findRoute (compiledRoutes : list CompiledRoute) (req : Request)
    : option RouteMatch :=
  match compiledRoutes with
  | [] => None
  | route :: rest =>
      if negb (includes (methods (RoutingLayer.route route)) (req_method req)) then
        findRoute rest req
      else
        match regexp route (req_path req) with
        | Some m =>
            Some {| rm_route := route;
                    rm_match := m;
                    rm_params := extractParams (originalPath route) (req_path req) |}
        | None => findRoute rest req
        end
  end.

(** [subject.replace(new RegExp('^' + src), '')]: a source of literal
    characters matches itself, case-sensitively, at the start. *)
Definition replaceAnchored (src subject : string) : option string :=
  if literalSource src then
    Some (match stripPrefix src subject with
          | Some rest => rest
          | None => subject
          end)
  else RegExp_replace ("^" +:+ src) subject.

(** [s.startsWith('/')] *)
Definition startsWithSlash (s : string) : bool :=
  match s with
  | String c _ => Ascii.eqb c "/"
  | EmptyString => false
  end.

(** [buildTargetUrl]; an invalid expression is a [SyntaxError]. *)
Definition buildTargetUrl (route : CompiledRoute) (req : Request)
    : Outcome string :=
  let stripped :=
    if stripPath (RoutingLayer.route route) then
      match replaceAnchored (removeSuffix "/*" (originalPath route))
              (req_path req) with
      | Some p => Resolved (if String.eqb p "" then "/" else p)
      | None =>
          Rejected (OtherError "SyntaxError" "Invalid regular expression"
                      None None None None)
      end
    else Resolved (req_path req) in
  match stripped with
  | Rejected e => Rejected e
  | Resolved targetPath =>
      let targetPath :=
        if startsWithSlash targetPath then targetPath
        else "/" +:+ targetPath in
      let targetBase := removeSuffix "/" (target (RoutingLayer.route route)) in
      let targetUrl := targetBase +:+ targetPath in
      match req_query req with
      | [] => Resolved targetUrl
      | _ :: _ =>
          Resolved (targetUrl +:+ "?" +:+ URLSearchParams_toString (req_query req))
      end
  end.

Definition validMethods : list string :=
  ["GET"; "POST"; "PUT"; "DELETE"; "PATCH"; "HEAD"; "OPTIONS"].

Definition validateRoute (route : RouteConfig) : list string :=
  (if String.eqb (c_path route) "" then ["Route path is required"] else [])
  ++ (if String.eqb (c_target route) "" then ["Route target is required"] else [])
  ++ (if negb (String.eqb (c_target route) "") && negb (isValidUrl (c_target route))
      then ["Route target must be a valid URL"] else [])
  ++ (match c_timeout route with
      | Some n => if negb (n =? 0) && (n <=? 0)
                  then ["Route timeout must be a positive number"] else []
      | None => []
      end)
  ++ (match c_retries route with
      | Some n => if negb (n =? 0) && (n <? 0)
                  then ["Route retries must be a non-negative number"] else []
      | None => []
      end)
  ++ (match c_methods route with
      | Some ms =>
          match filter (fun m => includes validMethods m = false) ms with
          | [] => []
          | invalid => ["Invalid HTTP methods: " +:+ joinWith ", " invalid]
          end
      | None => []
      end).

(** [addRoute]: the route is pushed on [this.routes] before its pattern
    is compiled, so a pattern that is refused leaves it there without a
    compiled entry. *)
Definition addRoute (now : Z) (st : State) (routeConfig : RouteConfig)
    : Outcome Route * State :=
  match validateRoute routeConfig with
  | [] =>
      let route := normalize routeConfig in
      let pushed := routes st ++ [route] in
      match pathToRegexp_throws (path route) with
      | Some error =>
          (Rejected error,
           {| routes := pushed; compiledRoutes := compiledRoutes st |})
      | None =>
          (Resolved route,
           {| routes := pushed;
              compiledRoutes := compiledRoutes st ++ [compile route] |})
      end
  | errors =>
      (Rejected (ErrorHandler.createError now "Invalid route configuration"
                   400 "INVALID_ROUTE_CONFIG"
                   (Some [("errors", JList errors)])), st)
  end.

(** [middleware]: the route context attached to the request, or the
    error passed to [next]. *)
Definition middleware (now : Z) (st : State) (req : Request)
    : Outcome RouteContext :=
  match findRoute (compiledRoutes st) req with
  | None =>
      Rejected
        (ErrorHandler.createError now
           ("No route found for " +:+ req_method req +:+ " " +:+ req_path req)
           404 "ROUTE_NOT_FOUND"
           (Some [("method", JStr (req_method req)); ("path", JStr (req_path req));
                  ("availableRoutes", JList (map path (routes st)))]))
  | Some m =>
      let route := rm_route m in
      match buildTargetUrl route req with
      | Resolved targetUrl =>
          Resolved {| ctx_target := target (RoutingLayer.route route);
                      ctx_targetUrl := targetUrl;
                      ctx_timeout := timeout (RoutingLayer.route route);
                      ctx_retries := retries (RoutingLayer.route route) |}
      | Rejected error =>
          Rejected
            (ErrorHandler.createError now "Route resolution failed" 500
               "ROUTE_RESOLUTION_ERROR"
               (Some [("originalError", JStr (err_message error))]))
      end
  end.

Definition removeRoute (st : State) (path : string) : bool * State :=
  let initialLength := length (routes st) in
  let routes' :=
    List.filter (fun r => negb (String.eqb (RoutingLayer.path r) path)) (routes st) in
  let compiledRoutes' :=
    List.filter (fun r => negb (String.eqb (originalPath r) path))
      (compiledRoutes st) in
  let removed := (initialLength - length routes')%nat in
  (Nat.ltb 0 removed, {| routes := routes'; compiledRoutes := compiledRoutes' |}).

End Layer.

End RoutingLayer.

(** ** The entry layer ([entry.js]) *)

Module EntryLayer.

Definition allowedMethods : list string :=
  ["GET"; "POST"; "PUT"; "DELETE"; "PATCH"; "OPTIONS"; "HEAD"].

(** [validateMethod]: [None] is [next()]. *)
Definition validateMethod (now : Z) (req : Request) : option Reply :=
  if negb (includes allowedMethods (req_method req)) then
    Some (Sent 405
            {| env_error := "Method Not Allowed";
               env_message := "HTTP method " +:+ req_method req +:+ " is not supported";
               env_details := None;
               env_requestId := req_requestId req;
               env_timestamp := now;
               env_stack := false |})
  else None.

(** The inbound request as the entry layer reads it: [req.url], the
    headers in the order of [Object.entries] (names in lower case, a value
    being a string or, for a repeated header, an array) and the remote
    addresses of the connection. *)
Record Inbound : Type := mkInbound {
  url : string;
  headers : list (string * JsVal);
  connection_remoteAddress : option string;
  socket_remoteAddress : option string;
  connection_socket_remoteAddress : option string
}.

(** [req.headers[name]] *)
Fixpoint header (hs : list (string * JsVal)) (name : string) : JsVal :=
  match hs with
  | [] => JUndefined
  | (k, v) :: hs => if String.eqb k name then v else header hs name
  end.

(** A small answer of the entry layer: the status and the [error] text. *)
Inductive Verdict : Type :=
  | Next
  | Refused (httpStatus : Z) (error message : string).

Definition headerTooLarge (kv : string * JsVal) : bool :=
  Nat.ltb 256 (String.length kv.1)
  || match kv.2 with
     | JStr value => Nat.ltb 4096 (String.length value)
     | _ => false
     end.

Definition enforceGlobalLimits (req : Inbound) : Verdict :=
  if Nat.ltb 2048 (String.length (url req)) then
    Refused 414 "URI Too Long"
      "Request URL exceeds maximum length of 2048 characters"
  else if Nat.ltb 100 (length (headers req)) then
    Refused 400 "Too Many Headers" "Request contains too many headers (max: 100)"
  else
    match List.find headerTooLarge (headers req) with
    | Some kv =>
        Refused 400 "Header Too Large" ("Header " +:+ kv.1 +:+ " exceeds size limits")
    | None => Next
    end.

(** [a || b] where [a] is a header or an address and [b] a string. *)
Definition orElse (a : JsVal) (b : string) : string :=
  match a with
  | JStr s => if String.eqb s "" then b else s
  | JList l => joinWith "," l
  | _ => b
  end.

Definition orAddress (a : option string) (b : string) : string :=
  match a with
  | Some s => if String.eqb s "" then b else s
  | None => b
  end.

Definition getClientIp (req : Inbound) : string :=
  orElse (header (headers req) "x-forwarded-for")
    (orElse (header (headers req) "x-real-ip")
       (orAddress (connection_remoteAddress req)
          (orAddress (socket_remoteAddress req)
             (orAddress (connection_socket_remoteAddress req) "0.0.0.0")))).

(** [normalizeRequest]: the request id is the client's, if it sent one,
    else the fresh identifier [uuid]. *)
Definition requestIdOf (req : Inbound) (uuid : string) : string :=
  orElse (header (headers req) "x-request-id") uuid.

End EntryLayer.

(** ** The rate limiter ([auth.js], class [RateLimitLayer]) *)

Module RateLimitLayer.

(** A property of a tier configuration, and a number computed from one:
    a number; [NaN], which [parseInt] returns for a text without digits and
    to which arithmetic on a missing value leads; or [undefined], the value
    of a property that the object lacks. *)
Inductive Numeric : Type :=
  | Finite (n : Z)
  | NaN
  | Undefined.

(** [a + b] and [a - b]: anything but two numbers gives [NaN]. *)
Definition plus (a b : Numeric) : Numeric :=
  match a, b with
  | Finite x, Finite y => Finite (x + y)
  | _, _ => NaN
  end.

Definition minus (a b : Numeric) : Numeric :=
  match a, b with
  | Finite x, Finite y => Finite (x - y)
  | _, _ => NaN
  end.

(** [count >= limit]: a comparison with [NaN] or [undefined] is false. *)
Definition geq (count : Z) (limit : Numeric) : bool :=
  match limit with
  | Finite n => n <=? count
  | _ => false
  end.

(** [Math.max(0, x)] *)
Definition max0 (x : Numeric) : Numeric :=
  match x with
  | Finite n => Finite (Z.max 0 n)
  | _ => NaN
  end.

(** The text of a number in a template literal. *)
Definition numberText (x : Numeric) : string :=
  match x with
  | Finite n => pretty n
  | NaN => "NaN"
  | Undefined => "undefined"
  end.

(** The value as a header or a detail of an error holds it. *)
Definition toJsVal (x : Numeric) : JsVal :=
  match x with
  | Finite n => JNum n
  | NaN => JNaN
  | Undefined => JUndefined
  end.

(** [new Date(t).toISOString()] returns for the time values of a date,
    which lie within 8.64e15 ms of the epoch, and throws a [RangeError] for
    every other number and for [NaN]. *)
Definition validTime (t : Z) : bool :=
  (-8640000000000000 <=? t) && (t <=? 8640000000000000).

Definition validDate (x : Numeric) : bool :=
  match x with
  | Finite t => validTime t
  | _ => false
  end.

Record TierConfig : Type := mkTier {
  requests : Numeric;
  windowMs : Numeric
}.

(** [req.context]: the authenticated user, if any, and the client address. *)
Record User : Type := mkUser {
  id : string;
  tier : option string
}.

Record Context : Type := mkContext {
  user : option User;
  clientIp : string
}.

(** The counter store.  [store] holds the counters, [expiry] the time to
    live in seconds set on a key; the [k]-th pipeline sent to the server
    fails with [faults k] when that is an error. *)
Record Redis : Type := mkRedis {
  store : gmap string Z;
  expiry : gmap string Z;
  faults : nat -> option JsError;
  execs : nat
}.

(** [rateLimitTiers] holds the own properties of [config.rateLimiting.tiers]. *)
Record t : Type := mk {
  redisClient : Redis;
  isConnected : bool;
  rateLimitTiers : gmap string TierConfig;
  defaultTier : TierConfig
}.

Record Decision : Type := mkDecision {
  allowed : bool;
  remaining : Numeric;
  resetTime : Numeric;
  decided_tier : option string
}.

Definition set_redisClient (l : t) (r : Redis) : t :=
  mk r (isConnected l) (rateLimitTiers l) (defaultTier l).

(** [multi().get(key).exec()]: the counter under [key] ([null] when there
    is none), or the exception of a failed round trip. *)
Definition exec_get (r : Redis) (key : string) : Outcome (option Z) * Redis :=
  let r' := mkRedis (store r) (expiry r) (faults r) (S (execs r)) in
  match faults r (execs r) with
  | Some e => (Rejected e, r')
  | None => (Resolved (store r !! key), r')
  end.

(** [multi().incr(key).expire(key, seconds).exec()] *)
Definition exec_incr_expire (r : Redis) (key : string) (seconds : Z)
    : Outcome unit * Redis :=
  match faults r (execs r) with
  | Some e => (Rejected e, mkRedis (store r) (expiry r) (faults r) (S (execs r)))
  | None =>
      let count := match store r !! key with Some n => n | None => 0 end in
      (Resolved tt,
       mkRedis (<[key := count + 1]> (store r)) (<[key := seconds]> (expiry r))
         (faults r) (S (execs r)))
  end.

Definition getRateLimitKey (ctx : Context) (tier : string) : string :=
  let identifier :=
    match user ctx with
    | Some u => "user:" +:+ id u
    | None => "ip:" +:+ clientIp ctx
    end in
  "rate_limit:" +:+ tier +:+ ":" +:+ identifier.

(** The properties that every object inherits from [Object.prototype];
    each is a function or an object, so truthy, and has neither [requests]
    nor [windowMs]. *)
Definition inheritedNames : list string :=
  ["constructor"; "__defineGetter__"; "__defineSetter__"; "hasOwnProperty";
   "__lookupGetter__"; "__lookupSetter__"; "isPrototypeOf";
   "propertyIsEnumerable"; "toString"; "valueOf"; "__proto__";
   "toLocaleString"].

(** [this.rateLimitTiers[tierName] || this.defaultTier]: the property
    access finds an own property of the table or, failing that, an inherited
    one. *)
Definition getTierConfig (l : t) (tierName : string) : TierConfig :=
  match rateLimitTiers l !! tierName with
  | Some c => c
  | None =>
      if includes inheritedNames tierName then mkTier Undefined Undefined
      else defaultTier l
  end.

(** [Math.ceil(a / b)] *)
Definition ceilDiv (a b : Z) : Z := - ((- a) / b).

(** [Math.floor(now / windowMs) * windowMs] for a window length that is
    a number other than [0]. *)
Definition windowStartOf (now windowMs : Z) : Z := now / windowMs * windowMs.

(** [Math.floor(now / windowMs) * windowMs] in general: a window length
    of [0] makes the quotient infinite (or [NaN]) and its product with [0]
    is [NaN], as is every result for a length that is no number. *)
Definition windowStart (now : Z) (windowMs : Numeric) : Numeric :=
  match windowMs with
  | Finite w => if w =? 0 then NaN else Finite (windowStartOf now w)
  | _ => NaN
  end.

(** The key of the window's counter, [`${key}:${windowStart}`]: for a
    window start that is a number, and in general. *)
Definition windowKeyOf (ctx : Context) (tierName : string) (windowStart : Z)
    : string :=
  getRateLimitKey ctx tierName +:+ ":" +:+ pretty windowStart.

Definition windowKey (ctx : Context) (tierName : string) (windowStart : Numeric)
    : string :=
  match windowStart with
  | Finite n => windowKeyOf ctx tierName n
  | _ => getRateLimitKey ctx tierName +:+ ":" +:+ numberText windowStart
  end.

(** [checkRateLimit].  The decision of the [catch] block is [failOpen].
    The arguments of the two log calls are evaluated before the calls:
    [new Date(windowStart).toISOString()] after the counter is read, and
    [new Date(resetTime).toISOString()] when the limit is reached; either
    throws a [RangeError] for a value that is no date. *)
Definition checkRateLimit (l : t) (now : Z) (ctx : Context) (tierName : string)
    : Decision * t :=
  if negb (isConnected l) then
    ({| allowed := true; remaining := Finite (-1);
        resetTime := Finite (now + 60000); decided_tier := None |}, l)
  else
    let tierConfig := getTierConfig l tierName in
    let windowStart := windowStart now (windowMs tierConfig) in
    let windowKey := windowKey ctx tierName windowStart in
    let failOpen :=
      {| allowed := true; remaining := Finite (-1);
         resetTime := plus (Finite now) (windowMs tierConfig);
         decided_tier := None |} in
    match exec_get (redisClient l) windowKey with
    | (Rejected _, r) => (failOpen, set_redisClient l r)
    | (Resolved result, r) =>
        let currentCount := match result with Some n => n | None => 0 end in
        match windowStart, windowMs tierConfig with
        | Finite ws, Finite wms =>
            if negb (validTime ws) then (failOpen, set_redisClient l r)
            else if geq currentCount (requests tierConfig) then
              let resetTime := ws + wms in
              if negb (validTime resetTime) then (failOpen, set_redisClient l r)
              else
                ({| allowed := false; remaining := Finite 0;
                    resetTime := Finite resetTime;
                    decided_tier := Some tierName |}, set_redisClient l r)
            else
              match exec_incr_expire r windowKey (ceilDiv wms 1000) with
              | (Rejected _, r) => (failOpen, set_redisClient l r)
              | (Resolved _, r) =>
                  ({| allowed := true;
                      remaining :=
                        minus (minus (requests tierConfig) (Finite currentCount))
                          (Finite 1);
                      resetTime := Finite (ws + wms);
                      decided_tier := Some tierName |}, set_redisClient l r)
              end
        | _, _ => (failOpen, set_redisClient l r)
        end
    end.

(** What [middleware] does with the response and with [next]: the
    headers it has set, in order, and the error it passes to [next]
    ([None]: the request goes on). *)
Record Passed : Type := mkPassed {
  headers : list (string * JsVal);
  next : option JsError
}.

(** The value of a header that was set, if any. *)
Fixpoint sent (headers : list (string * JsVal)) (name : string) : option JsVal :=
  match headers with
  | [] => None
  | (k, v) :: rest => if String.eqb k name then Some v else sent rest name
  end.

(** [req.context.user?.tier || tierName] *)
Definition userTierOf (ctx : Context) (tierName : string) : string :=
  match user ctx with
  | Some u => RoutingLayer.orStr (tier u) tierName
  | None => tierName
  end.

Section Response.

(** [res.setHeader(name, value)] throws for a value that is [undefined]
    and for a text with a character that a header cannot hold;
    [legalHeaderValue] is that test of the HTTP library on a text.  A number
    is set as it is. *)
Variable legalHeaderValue : string -> bool.

(** [middleware]: the four [setHeader] calls are inside the [try] block,
    and the [catch] block calls [next()] without an error. *)
Definition middleware (l : t) (now : Z) (ctx : Context) (tierName : string)
    : Passed * t :=
  let userTier := userTierOf ctx tierName in
  let '(result, l') := checkRateLimit l now ctx userTier in
  let limit := requests (getTierConfig l userTier) in
  let shownTier := RoutingLayer.orStr (decided_tier result) userTier in
  match limit with
  | Undefined => ({| headers := []; next := None |}, l')
  | _ =>
      let numbers :=
        [("X-RateLimit-Limit", toJsVal limit);
         ("X-RateLimit-Remaining", toJsVal (remaining result));
         ("X-RateLimit-Reset",
          toJsVal match resetTime result with
                  | Finite t => Finite (ceilDiv t 1000)
                  | _ => NaN
                  end)] in
      if negb (legalHeaderValue shownTier) then
        ({| headers := numbers; next := None |}, l')
      else
        ({| headers := numbers ++ [("X-RateLimit-Tier", JStr shownTier)];
            next :=
              if negb (allowed result) then
                Some (ErrorHandler.handleRateLimitError now
                        (toJsVal (remaining result)) (toJsVal (resetTime result))
                        (match decided_tier result with
                         | Some s => JStr s
                         | None => JUndefined
                         end))
              else None |}, l')
  end.

End Response.

(** *** Administration: [getRateLimitStatus] and [resetRateLimit] *)

(** One command sent outside a pipeline: it takes the next slot of
    [faults]. *)
Definition command {A : Type} (r : Redis) (reply : A) (r' : Redis)
    : Outcome A * Redis :=
  match faults r (execs r) with
  | Some e => (Rejected e, mkRedis (store r) (expiry r) (faults r) (S (execs r)))
  | None => (Resolved reply, r')
  end.

(** [redisClient.get(key)] *)
Definition get (r : Redis) (key : string) : Outcome (option Z) * Redis :=
  command r (store r !! key)
    (mkRedis (store r) (expiry r) (faults r) (S (execs r))).

(** The characters with a meaning of their own in a pattern of [KEYS]. *)
Definition globMeta (c : ascii) : bool :=
  existsb (Ascii.eqb c) (list_ascii_of_string "*?[]\").

Definition literalGlob (s : string) : bool :=
  forallb (fun c => negb (globMeta c)) (list_ascii_of_string s).

Definition hasPrefix (p s : string) : bool :=
  match stripPrefix p s with Some _ => true | None => false end.

Section Administration.

(** The pattern matcher of the server, for patterns whose part before the
    final star has metacharacters. *)
Variable globMatch : string -> string -> bool.

(** The keys that [prefix*] selects: a prefix of literal characters
    selects the keys that start with it. *)
Definition selects (prefix key : string) : bool :=
  if literalGlob prefix then hasPrefix prefix key
  else globMatch (prefix +:+ "*") key.

(** [redisClient.keys(prefix + '*')] *)
Definition keys (r : Redis) (prefix : string) : Outcome (gset string) * Redis :=
  command r (dom (filter (fun kv => selects prefix kv.1 = true) (store r)))
    (mkRedis (store r) (expiry r) (faults r) (S (execs r))).

(** [redisClient.del(keys)] *)
Definition del (r : Redis) (ks : gset string) : Outcome unit * Redis :=
  command r tt
    (mkRedis (filter (fun kv => kv.1 ∉ ks) (store r))
       (filter (fun kv => kv.1 ∉ ks) (expiry r)) (faults r) (S (execs r))).

Definition notConnected : JsError :=
  OtherError "Error" "Redis not connected" None None None None.

(** [resetRateLimit]: the number of keys deleted, or the exception. *)
Definition resetRateLimit (l : t) (identifier tier : string)
    : Outcome nat * t :=
  if negb (isConnected l) then (Rejected notConnected, l)
  else
    let prefix := "rate_limit:" +:+ tier +:+ ":" +:+ identifier +:+ ":" in
    match keys (redisClient l) prefix with
    | (Rejected e, r) => (Rejected e, set_redisClient l r)
    | (Resolved ks, r) =>
        if Nat.ltb 0 (size ks) then
          match del r ks with
          | (Rejected e, r) => (Rejected e, set_redisClient l r)
          | (Resolved _, r) => (Resolved (size ks), set_redisClient l r)
          end
        else (Resolved (size ks), set_redisClient l r)
    end.

End Administration.

Inductive Status : Type :=
  | NotConnected
  | Report (tier : string) (limit : Numeric) (used : Z)
           (remaining resetTime windowStart : Numeric).

Definition getRateLimitStatus (l : t) (now : Z) (identifier tier : string)
    : Outcome Status * t :=
  if negb (isConnected l) then (Resolved NotConnected, l)
  else
    let tierConfig := getTierConfig l tier in
    let windowStart := windowStart now (windowMs tierConfig) in
    let key :=
      "rate_limit:" +:+ tier +:+ ":" +:+ identifier +:+ ":"
      +:+ numberText windowStart in
    match get (redisClient l) key with
    | (Rejected e, r) => (Rejected e, set_redisClient l r)
    | (Resolved reply, r) =>
        let currentCount := match reply with Some n => n | None => 0 end in
        let remaining := max0 (minus (requests tierConfig) (Finite currentCount)) in
        let resetTime := plus windowStart (windowMs tierConfig) in
        (Resolved (Report tier (requests tierConfig) currentCount remaining
                     resetTime windowStart),
         set_redisClient l r)
    end.

End RateLimitLayer.

(** ** The authenticator ([auth.js], class [AuthLayer]) *)

Module AuthLayer.

(** The claim set of a verified token; an absent claim is [None]. *)
Record Claims : Type := mkClaims {
  claim_sub : option string;
  claim_userId : option string;
  claim_id : option string;
  claim_username : option string;
  claim_user : option string;
  claim_email : option string;
  claim_roles : option (list string);
  claim_permissions : option (list string);
  claim_tier : option string;
  claim_iat : option Z;
  claim_exp : option Z
}.

Record UserContext : Type := mkUserContext {
  id : option string;
  username : option string;
  email : option string;
  roles : list string;
  permissions : list string;
  tier : string;
  iat : option Z;
  exp : option Z
}.

(** [req.context], as far as the authenticator writes it. *)
Record Context : Type := mkContext {
  user : option UserContext;
  authenticated : option bool
}.

(** [a || b] on optional strings. *)
Definition orOpt (a b : option string) : option string :=
  match a with
  | Some s => if String.eqb s "" then b else a
  | None => b
  end.

Definition extractUserContext (decoded : Claims) : UserContext :=
  {| id := orOpt (claim_sub decoded) (orOpt (claim_userId decoded) (claim_id decoded));
     username := orOpt (claim_username decoded) (orOpt (claim_user decoded) None);
     email := orOpt (claim_email decoded) None;
     roles := match claim_roles decoded with Some l => l | None => [] end;
     permissions := match claim_permissions decoded with Some l => l | None => [] end;
     tier := RoutingLayer.orStr (claim_tier decoded) "basic";
     iat := claim_iat decoded;
     exp := claim_exp decoded |}.

(** [extractToken], from [req.headers.authorization]. *)
Definition extractToken (authorization : option string) : option string :=
  match authorization with
  | None => None
  | Some authHeader =>
      if String.eqb authHeader "" then None
      else
        match stripPrefix "Bearer " authHeader with
        | Some token => Some token
        | None => Some authHeader
        end
  end.

(** [!token]: there is no token, or it is the empty string. *)
Definition noToken (token : option string) : bool :=
  match token with
  | Some t => String.eqb t ""
  | None => true
  end.

(** [isTokenExpired] *)
Definition isTokenExpired (now : Z) (decoded : Claims) : bool :=
  match claim_exp decoded with
  | None => false
  | Some e => if e =? 0 then false else e <? now / 1000
  end.

Section Layer.

(** [jwt.verify(token, secret)]: the claim set, or the library's error
    with the date it carries. *)
Variable jwt_verify : string -> string -> Claims + JsError * JsVal.
Variable jwtSecret : string.

Definition verifyToken (now : Z) (token : string) : Outcome Claims :=
  match jwt_verify token jwtSecret with
  | inl decoded => Resolved decoded
  | inr (error, date) => Rejected (ErrorHandler.handleAuthError now error date)
  end.

(** [optionalAuth] and [requireAuth]: the context after the middleware and
    the argument of [next] ([None]: the request goes on). *)
Definition optionalAuth (now : Z) (authorization : option string) (ctx : Context)
    : Context * option JsError :=
  let token := extractToken authorization in
  if noToken token then (mkContext None (authenticated ctx), None)
  else
    match verifyToken now (default "" token) with
    | Resolved decoded =>
        (mkContext (Some (extractUserContext decoded)) (Some true), None)
    | Rejected _ => (mkContext None (Some false), None)
    end.

Definition requireAuth (now : Z) (authorization : option string) (ctx : Context)
    : Context * option JsError :=
  let token := extractToken authorization in
  if noToken token then
    (ctx, Some (ErrorHandler.createError now "Authorization token is required"
                  401 "MISSING_TOKEN" None))
  else
    match verifyToken now (default "" token) with
    | Resolved decoded =>
        (mkContext (Some (extractUserContext decoded)) (Some true), None)
    | Rejected error => (ctx, Some error)
    end.

End Layer.

(** [requiredRoles.some(role => userRoles.includes(role))] *)
Definition someIncluded (required current : list string) : bool :=
  existsb (fun role => includes current role) required.

(** The argument of [requireRole] and [requirePermission]: one name, or
    an array of names. *)
Definition asArray (required : string + list string) : list string :=
  match required with
  | inl one => [one]
  | inr many => many
  end.

Definition requireRole (now : Z) (requiredRoles : string + list string)
    (ctx : Context) : option JsError :=
  let requiredRoles := asArray requiredRoles in
  match user ctx with
  | None =>
      Some (ErrorHandler.createError now
              "Authentication required for this endpoint" 401
              "AUTHENTICATION_REQUIRED" None)
  | Some u =>
      let userRoles := roles u in
      if negb (someIncluded requiredRoles userRoles) then
        Some (ErrorHandler.createError now "Insufficient permissions" 403
                "INSUFFICIENT_PERMISSIONS"
                (Some [("required", JList requiredRoles);
                       ("current", JList userRoles)]))
      else None
  end.

Definition requirePermission (now : Z)
    (requiredPermissions : string + list string) (ctx : Context)
    : option JsError :=
  let requiredPermissions := asArray requiredPermissions in
  match user ctx with
  | None =>
      Some (ErrorHandler.createError now
              "Authentication required for this endpoint" 401
              "AUTHENTICATION_REQUIRED" None)
  | Some u =>
      let userPermissions := permissions u in
      if negb (someIncluded requiredPermissions userPermissions) then
        Some (ErrorHandler.createError now "Insufficient permissions" 403
                "INSUFFICIENT_PERMISSIONS"
                (Some [("required", JList requiredPermissions);
                       ("current", JList userPermissions)]))
      else None
  end.

End AuthLayer.

(** ** Headers of the upstream request and of the client response
       ([forwarding.js], [buildUpstreamHeaders] and [forwardResponse]) *)

Module ForwardingHeaders.

Definition hopByHopHeaders : list string :=
  ["connection"; "keep-alive"; "proxy-authenticate"; "proxy-authorization";
   "te"; "trailer"; "transfer-encoding"; "upgrade"].

(** [key.toLowerCase()] on a header name, which is made of ASCII characters. *)
Definition lowerChar (c : ascii) : ascii :=
  let n := N_of_ascii c in
  if ((65 <=? n) && (n <=? 90))%N then ascii_of_N (n + 32) else c.

Fixpoint toLowerCase (s : string) : string :=
  match s with
  | EmptyString => EmptyString
  | String c s => String (lowerChar c) (toLowerCase s)
  end.

(** [`${v}`] for an optional string. *)
Definition orUndefined (v : option string) : JsVal :=
  match v with Some s => JStr s | None => JUndefined end.

(** [buildUpstreamHeaders]; [urlHost] is [new URL(target).host], which
    throws a [TypeError] for a target that is not a URL; [target] and
    [preserveHost] are the route's. *)
Definition buildUpstreamHeaders (urlHost : string -> option string)
    (reqHeaders : gmap string JsVal) (clientIp protocol requestId : string)
    (user : option AuthLayer.UserContext) (target : string) (preserveHost : bool)
    : Outcome (gmap string JsVal) :=
  let headers := foldr delete reqHeaders hopByHopHeaders in
  let withHost :=
    if negb preserveHost then
      match urlHost target with
      | Some host => Resolved (<["host" := JStr host]> headers)
      | None => Rejected (OtherError "TypeError" "Invalid URL"
                            (Some "ERR_INVALID_URL") None None None)
      end
    else Resolved headers in
  match withHost with
  | Rejected e => Rejected e
  | Resolved headers =>
      let headers := <["x-forwarded-for" := JStr clientIp]> headers in
      let headers := <["x-forwarded-proto" := JStr protocol]> headers in
      let headers :=
        <["x-forwarded-host" := default JUndefined (reqHeaders !! "host")]> headers in
      let headers := <["x-request-id" := JStr requestId]> headers in
      Resolved
        match user with
        | Some u =>
            <["x-user-tier" := JStr (AuthLayer.tier u)]>
              (<["x-user-roles" := JStr (joinWith "," (AuthLayer.roles u))]>
                 (<["x-user-id" := orUndefined (AuthLayer.id u)]> headers))
        | None => headers
        end
  end.

(** The [setHeader] calls of [forwardResponse], in order. *)
Definition responseHeaders (upstreamHeaders : list (string * JsVal))
    (requestId : string) : list (string * JsVal) :=
  List.filter (fun kv => negb (includes hopByHopHeaders (toLowerCase kv.1)))
    upstreamHeaders
  ++ [("X-Gateway-Service", JStr "api-gateway"); ("X-Request-ID", JStr requestId)].

End ForwardingHeaders.

(** ** The orchestrator ([index.js], class [ApiGateway]) *)

Module ApiGateway.

Section Chain.

Variable jwt_verify : string -> string -> AuthLayer.Claims + JsError * JsVal.
Variable jwtSecret : string.
Variable legalHeaderValue : string -> bool.

(** [createConditionalAuthMiddleware], for the route that was matched. *)
Definition conditionalAuth (now : Z) (route : RoutingLayer.Route)
    (authorization : option string) (ctx : AuthLayer.Context)
    : AuthLayer.Context * option JsError :=
  if RoutingLayer.authRequired route then
    AuthLayer.requireAuth jwt_verify jwtSecret now authorization ctx
  else AuthLayer.optionalAuth jwt_verify jwtSecret now authorization ctx.

(** The context that the limiter reads: [`user:${id}`] needs the text of
    the user's id, [undefined] included. *)
Definition limiterContext (ctx : AuthLayer.Context) (clientIp : string)
    : RateLimitLayer.Context :=
  RateLimitLayer.mkContext
    (match AuthLayer.user ctx with
     | Some u =>
         Some (RateLimitLayer.mkUser (default "undefined" (AuthLayer.id u))
                 (Some (AuthLayer.tier u)))
     | None => None
     end)
    clientIp.

(** [createConditionalRateLimitMiddleware] *)
Definition conditionalRateLimit (l : RateLimitLayer.t) (now : Z)
    (route : RoutingLayer.Route) (ctx : RateLimitLayer.Context)
    : RateLimitLayer.Passed * RateLimitLayer.t :=
  let tier := RoutingLayer.orStr (Some (RoutingLayer.rateLimitTier route)) "basic" in
  RateLimitLayer.middleware legalHeaderValue l now ctx tier.

(** The two middlewares in the order of [setupMiddleware]: an error passed
    to [next] skips the limiter. *)
Definition authThenLimit (l : RateLimitLayer.t) (now : Z)
    (route : RoutingLayer.Route) (authorization : option string)
    (clientIp : string)
    : option JsError * AuthLayer.Context * RateLimitLayer.t :=
  match conditionalAuth now route authorization (AuthLayer.mkContext None None) with
  | (ctx, Some error) => (Some error, ctx, l)
  | (ctx, None) =>
      let '(passed, l) := conditionalRateLimit l now route (limiterContext ctx clientIp) in
      (RateLimitLayer.next passed, ctx, l)
  end.

End Chain.

End ApiGateway.

(** ** Runs of calls through one breaker *)

(** Consecutive calls of [execute] on the breaker of one service. *)
Fixpoint calls {A : Type} (cb : CircuitBreaker.t) (fs : list (Async A))
    (w : World) : CircuitBreaker.t * World :=
  match fs with
  | [] => (cb, w)
  | f :: fs =>
      let '(_, cb, w) := CircuitBreaker.execute cb f w in
      calls cb fs w
  end.

(** A wrapped call that throws, and one that returns, whatever the world. *)
Definition fails {A : Type} (f : Async A) : Prop :=
  forall w, exists e, (f w).1 = Rejected e.

Definition succeeds {A : Type} (f : Async A) : Prop :=
  forall w, exists a, (f w).1 = Resolved a.

(** ** Observations on the trace *)

(** The durations the gateway slept for, oldest first. *)
Fixpoint sleeps (t : list IO) : list Q :=
  match t with
  | [] => []
  | Sleep ms :: t => sleeps t ++ [ms]
  | _ :: t => sleeps t
  end.

(** A route that [findRoute] skips. *)
Definition skipped (req : Request) (r : RoutingLayer.CompiledRoute) : Prop :=
  includes (RoutingLayer.methods (RoutingLayer.route r)) (req_method req) = false
  \/ RoutingLayer.regexp r (req_path req) = None.



(** The counter that a decision at [now] reads: the value under the
    window's key, [0] when the key is absent. *)
Definition currentCountOf (l : RateLimitLayer.t) (now : Z)
    (ctx : RateLimitLayer.Context) (tierName : string) : Z :=
  let tierConfig := RateLimitLayer.getTierConfig l tierName in
  match RateLimitLayer.store (RateLimitLayer.redisClient l)
        !! RateLimitLayer.windowKey ctx tierName
             (RateLimitLayer.windowStart now (RateLimitLayer.windowMs tierConfig))
  with
  | Some n => n
  | None => 0
  end.

(** The counter store is reachable for a whole decision: the client is
    connected and neither round trip of the decision fails. *)
Definition reachable (l : RateLimitLayer.t) : Prop :=
  RateLimitLayer.isConnected l = true
  /\ RateLimitLayer.faults (RateLimitLayer.redisClient l)
       (RateLimitLayer.execs (RateLimitLayer.redisClient l)) = None
  /\ RateLimitLayer.faults (RateLimitLayer.redisClient l)
       (S (RateLimitLayer.execs (RateLimitLayer.redisClient l))) = None.

(** The limiter's infrastructure fails during a decision: the client is not
    connected, or the read fails, or the counter has not reached the limit
    and the increment fails. *)
Definition infrastructureFailure (l : RateLimitLayer.t) (now : Z)
    (ctx : RateLimitLayer.Context) (tierName : string) : Prop :=
  RateLimitLayer.isConnected l = false
  \/ RateLimitLayer.faults (RateLimitLayer.redisClient l)
       (RateLimitLayer.execs (RateLimitLayer.redisClient l)) <> None
  \/ (RateLimitLayer.faults (RateLimitLayer.redisClient l)
        (RateLimitLayer.execs (RateLimitLayer.redisClient l)) = None
      /\ RateLimitLayer.geq (currentCountOf l now ctx tierName)
           (RateLimitLayer.requests (RateLimitLayer.getTierConfig l tierName))
         = false
      /\ RateLimitLayer.faults (RateLimitLayer.redisClient l)
           (S (RateLimitLayer.execs (RateLimitLayer.redisClient l))) <> None).

(** A step of the check itself throws: the start of the window is no
    date that the log call can format (the window length of the tier is
    [0], missing or no number), or the limit is reached and the end of the
    window is no such date. *)
Definition checkThrows (l : RateLimitLayer.t) (now : Z)
    (ctx : RateLimitLayer.Context) (tierName : string) : Prop :=
  let tierConfig := RateLimitLayer.getTierConfig l tierName in
  let windowStart :=
    RateLimitLayer.windowStart now (RateLimitLayer.windowMs tierConfig) in
  RateLimitLayer.isConnected l = true
  /\ (RateLimitLayer.validDate windowStart = false
      \/ (RateLimitLayer.faults (RateLimitLayer.redisClient l)
            (RateLimitLayer.execs (RateLimitLayer.redisClient l)) = None
          /\ RateLimitLayer.geq (currentCountOf l now ctx tierName)
               (RateLimitLayer.requests tierConfig) = true
          /\ RateLimitLayer.validDate
               (RateLimitLayer.plus windowStart (RateLimitLayer.windowMs tierConfig))
             = false)).

(** The tier resolves to a configuration with the limit [limit] and the
    positive window length [window]. *)
Definition configured (l : RateLimitLayer.t) (tierName : string)
    (limit window : Z) : Prop :=
  RateLimitLayer.getTierConfig l tierName
  = RateLimitLayer.mkTier (RateLimitLayer.Finite limit) (RateLimitLayer.Finite window)
  /\ 0 < window.

(** At [now] the start and the end of the window are dates. *)
Definition datable (now window : Z) : Prop :=
  RateLimitLayer.validTime (RateLimitLayer.windowStartOf now window) = true
  /\ RateLimitLayer.validTime (RateLimitLayer.windowStartOf now window + window)
     = true.

(** ** Sample data *)

(** A world at time [now] in which every upstream call takes [ms]
    milliseconds and ends in [ev], and [Math.random()] returns one half. *)
Definition worldAt (now ms : Z) (ev : UpstreamEvent) : World :=
  {| clock := now;
     upstream := fun _ => mkStep ms ev;
     dispatched := 0;
     random := fun _ => 1 # 2;
     drawn := 0;
     trace := [] |}.

(** A wrapped call that throws [e] and one that returns [a]. *)
Definition throwing {A : Type} (e : JsError) : Async A := fun w => (Rejected e, w).
Definition returning {A : Type} (a : A) : Async A := fun w => (Resolved a, w).

Definition refused : JsError :=
  OtherError "Error" "connect ECONNREFUSED" (Some "ECONNREFUSED") None None None.

Definition sampleRequest : Request :=
  mkRequest "GET" "/api/users" [] "req-1".

Definition sampleRoute : RouteContext :=
  {| ctx_target := "http://localhost:3001";
     ctx_targetUrl := "http://localhost:3001/";
     ctx_timeout := 5000;
     ctx_retries := 3 |}.

Definition sampleConfig : CircuitBreaker.Config :=
  CircuitBreaker.mkConfig 5 30000 2000.

(** The service key of the sample route. *)
Definition sampleService (url : string) : string := "localhost:3001".

Definition sampleResponse (httpStatus : Z) : AxiosResponse :=
  mkAxiosResponse httpStatus [] None.

(** Stand-ins for the libraries of the routing layer: a matcher for
    patterns without parameters (the whole path is the pattern), a matcher
    that also knows the pattern [/api/users/:id] (one non-empty segment
    without a slash for [:id]), a URL parser that accepts everything, and an
    expression engine that is never consulted for literal sources. *)
Definition exactMatch (pattern path : string) : option RoutingLayer.Match :=
  if String.eqb pattern path then Some [path] else None.



Definition paramKeys (pattern : string) : list string :=
  if String.eqb pattern "/api/users/:id" then ["id"] else [].


(** A pattern compiler that accepts every pattern, and one that refuses
    the patterns that end in a colon (a parameter without a name). *)
Definition acceptsAll (pattern : string) : option JsError := None.

Definition missingName (pattern : string) : option JsError :=
  if String.eqb (removeSuffix ":" pattern) pattern then None
  else Some (OtherError "TypeError" "Missing parameter name" None None None None).

Definition anyUrl (url : string) : bool := true.

Definition noEngine (src subject : string) : option string := None.

(** [config.routes] of the repository. *)
Definition configRoutes : list RoutingLayer.RouteConfig :=
  [ RoutingLayer.mkRouteConfig "/api/users" "http://localhost:3001"
      (Some 5000) (Some 3) (Some true) (Some "basic")
      (Some ["GET"; "POST"; "PUT"; "DELETE"]) None None None;
    RoutingLayer.mkRouteConfig "/api/auth" "http://localhost:3002"
      (Some 3000) (Some 2) (Some false) (Some "basic")
      (Some ["POST"]) None None None;
    RoutingLayer.mkRouteConfig "/api/products" "http://localhost:3003"
      (Some 5000) (Some 3) (Some true) (Some "premium")
      (Some ["GET"; "POST"; "PUT"; "DELETE"]) None None None;
    RoutingLayer.mkRouteConfig "/api/orders" "http://localhost:3004"
      (Some 10000) (Some 2) (Some true) (Some "enterprise")
      (Some ["GET"; "POST"; "PUT"; "PATCH"]) None None None ].

(** The tables of the routing layer after start-up with [config.routes],
    under the matcher [exactMatch]. *)
Definition configState : RoutingLayer.State :=
  RoutingLayer.mkState (map RoutingLayer.normalize configRoutes)
    (map (RoutingLayer.compile exactMatch) (map RoutingLayer.normalize configRoutes)).

(** A route to [base] under [pattern], all other properties absent. *)
Definition routeTo (pattern base : string) (retries : option Z)
    : RoutingLayer.RouteConfig :=
  RoutingLayer.mkRouteConfig pattern base None retries None None None None
    None None.

(** A limiter with the tiers of the repository's configuration. *)
Definition tierOf (limit window : Z) : RateLimitLayer.TierConfig :=
  RateLimitLayer.mkTier (RateLimitLayer.Finite limit) (RateLimitLayer.Finite window).

Definition configTiers : gmap string RateLimitLayer.TierConfig :=
  <["basic" := tierOf 100 60000]>
    (<["premium" := tierOf 1000 60000]>
       (<["enterprise" := tierOf 10000 60000]> ∅)).

Definition sampleLimiter (connected : bool) (counters : gmap string Z)
    (faults : nat -> option JsError) : RateLimitLayer.t :=
  RateLimitLayer.mk (RateLimitLayer.mkRedis counters ∅ faults 0) connected
    configTiers (tierOf 100 60000).

(** A text is a legal header value when all its characters are printable
    ASCII; a stand-in for the test of the HTTP library. *)
Definition printable (value : string) : bool :=
  forallb (fun c => let n := N_of_ascii c in ((32 <=? n) && (n <=? 126))%N)
    (list_ascii_of_string value).

Definition anonymous : RateLimitLayer.Context :=
  RateLimitLayer.mkContext None "10.0.0.7".

Definition noFaults (k : nat) : option JsError := None.

Definition socketClosed : JsError :=
  OtherError "Error" "Socket closed unexpectedly" None None None None.

Definition sampleBreaker (s : CircuitBreaker.State) (failures : Z)
    (next : option Z) (successes : Z) : CircuitBreaker.t :=
  CircuitBreaker.mk "svc:9" 2 30000 2000 s failures None next successes.

(** ** Well-formed breakers *)

(** What holds of a breaker between two calls: the counters are not
    negative; an open breaker has a time of next attempt; a half-open one
    has counted fewer than three successes; a closed one fewer failures than
    its threshold. *)
Definition breakerInvariant (cb : CircuitBreaker.t) : Prop :=
  0 <= CircuitBreaker.failureCount cb
  /\ 0 <= CircuitBreaker.successCount cb
  /\ (CircuitBreaker.state cb = CircuitBreaker.OPEN ->
      exists n, CircuitBreaker.nextAttempt cb = Some n)
  /\ (CircuitBreaker.state cb = CircuitBreaker.HALF_OPEN ->
      CircuitBreaker.successCount cb < 3)
  /\ (CircuitBreaker.state cb = CircuitBreaker.CLOSED ->
      CircuitBreaker.failureCount cb < CircuitBreaker.failureThreshold cb).

(** The parameters of a breaker, which no call changes. *)
Definition sameParameters (a b : CircuitBreaker.t) : Prop :=
  CircuitBreaker.serviceName a = CircuitBreaker.serviceName b
  /\ CircuitBreaker.failureThreshold a = CircuitBreaker.failureThreshold b
  /\ CircuitBreaker.recoveryTimeout a = CircuitBreaker.recoveryTimeout b
  /\ CircuitBreaker.monitorTimeout a = CircuitBreaker.monitorTimeout b.

(** ** Route tables *)

(** The compiled routes are the routes, each compiled, in the same order. *)
Definition aligned (pathToRegexp : string -> string -> option RoutingLayer.Match)
    (st : RoutingLayer.State) : Prop :=
  RoutingLayer.compiledRoutes st
  = map (RoutingLayer.compile pathToRegexp) (RoutingLayer.routes st).

(** What [validateRoute] accepts. *)
Definition acceptable (isValidUrl : string -> bool)
    (c : RoutingLayer.RouteConfig) : Prop :=
  RoutingLayer.c_path c <> ""
  /\ RoutingLayer.c_target c <> ""
  /\ isValidUrl (RoutingLayer.c_target c) = true
  /\ (forall n, RoutingLayer.c_timeout c = Some n -> 0 <= n)
  /\ (forall n, RoutingLayer.c_retries c = Some n -> 0 <= n)
  /\ (forall ms m, RoutingLayer.c_methods c = Some ms -> In m ms ->
        In m RoutingLayer.validMethods).

(** ** Runs of decisions of the limiter *)


(** The counter store answers every round trip. *)
Definition neverFails (l : RateLimitLayer.t) : Prop :=
  RateLimitLayer.isConnected l = true
  /\ forall k, RateLimitLayer.faults (RateLimitLayer.redisClient l) k = None.

(** The identity under which the limiter counts a request. *)
Definition identityOf (ctx : RateLimitLayer.Context) : string :=
  match RateLimitLayer.user ctx with
  | Some u => "user:" +:+ RateLimitLayer.id u
  | None => "ip:" +:+ RateLimitLayer.clientIp ctx
  end.

(** A token verifier for the examples: it accepts the token [good] under
    the secret [s3cret] and rejects every other one as malformed. *)
Definition sampleClaims : AuthLayer.Claims :=
  AuthLayer.mkClaims (Some "u1") None None (Some "ann") None None
    (Some ["admin"; "ops"]) (Some ["routes:write"]) (Some "premium") None None.

Definition sampleVerify (token secret : string)
    : AuthLayer.Claims + JsError * JsVal :=
  if String.eqb token "good" && String.eqb secret "s3cret" then inl sampleClaims
  else inr (OtherError "JsonWebTokenError" "jwt malformed" None None None None,
            JUndefined).

(** The error codes of a failed authentication. *)
Definition authErrorCodes : list string :=
  ["MISSING_TOKEN"; "TOKEN_EXPIRED"; "INVALID_TOKEN"; "TOKEN_NOT_ACTIVE";
   "AUTH_FAILED"].

(** The header names that [buildUpstreamHeaders] writes itself. *)
Definition gatewayHeaders : list string :=
  ["host"; "x-forwarded-for"; "x-forwarded-proto"; "x-forwarded-host";
   "x-request-id"; "x-user-id"; "x-user-roles"; "x-user-tier"].

(** A header within the size limits of the entry layer. *)
Definition headerFits (kv : string * JsVal) : Prop :=
  (String.length kv.1 <= 256)%nat
  /\ forall value, kv.2 = JStr value -> (String.length value <= 4096)%nat.

(** * Properties *)

(** ** Circuit breaker *)

Section BreakerFacts.

Import CircuitBreaker.
Context {A : Type}.
Implicit Types (cb : CircuitBreaker.t) (f : Async A) (w : World).

Lemma execute_not_open cb f w :
  state cb <> OPEN -> execute cb f w = complete cb (f w).
Proof.
  intros Hs. unfold execute, enter, isState.
  destruct (state cb); congruence.
Qed.

Lemma complete_fails cb f w :
  fails f ->
  complete cb (f w) = ((f w).1, onFailure cb (clock (f w).2), (f w).2).
Proof.
  intros Hf. destruct (Hf w) as [e He].
  destruct (f w) as [r w']. simpl in *. subst r. reflexivity.
Qed.

Lemma complete_succeeds cb f w :
  succeeds f ->
  complete cb (f w) = ((f w).1, onSuccess cb, (f w).2).
Proof.
  intros Hf. destruct (Hf w) as [a Ha].
  destruct (f w) as [r w']. simpl in *. subst r. reflexivity.
Qed.

Lemma onFailure_closed_below cb now :
  state cb = CLOSED -> failureCount cb + 1 < failureThreshold cb ->
  onFailure cb now =
    set_lastFailureTime (set_failureCount cb (failureCount cb + 1)) (Some now).
Proof.
  intros Hs Hlt. unfold onFailure, isState. simpl. rewrite Hs.
  destruct (Z.leb_spec (failureThreshold cb) (failureCount cb + 1)); [lia | reflexivity].
Qed.

Lemma onFailure_closed_reached cb now :
  state cb = CLOSED -> failureThreshold cb <= failureCount cb + 1 ->
  state (onFailure cb now) = OPEN
  /\ nextAttempt (onFailure cb now) = Some (now + recoveryTimeout cb).
Proof.
  intros Hs Hle. unfold onFailure, isState. simpl. rewrite Hs.
  destruct (Z.leb_spec (failureThreshold cb) (failureCount cb + 1)); [| lia].
  split; reflexivity.
Qed.

Lemma onFailure_half_open cb now :
  state cb = HALF_OPEN ->
  state (onFailure cb now) = OPEN
  /\ nextAttempt (onFailure cb now) = Some (now + recoveryTimeout cb).
Proof.
  intros Hs. unfold onFailure, isState. simpl. rewrite Hs. split; reflexivity.
Qed.

(** A closed breaker that has counted [k] failures opens at the failure
    that brings the count to the threshold, and not before. *)
Lemma closed_failures_open (fs : list (Async A)) : forall cb w,
  state cb = CLOSED ->
  fs <> [] ->
  failureCount cb + Z.of_nat (length fs) = failureThreshold cb ->
  Forall fails fs ->
  state (calls cb fs w).1 = OPEN
  /\ nextAttempt (calls cb fs w).1
     = Some (clock (calls cb fs w).2 + recoveryTimeout cb).
Proof.
  induction fs as [| f fs IH]; intros cb w Hs Hne Hlen Hall; [congruence |].
  apply Forall_cons in Hall as [Hf Hall].
  cbn [calls]. rewrite execute_not_open by congruence.
  rewrite (complete_fails _ _ _ Hf).
  destruct fs as [| g fs].
  - cbn [calls length] in *.
    apply onFailure_closed_reached; [assumption | lia].
  - set (cb1 := onFailure cb (clock (f w).2)).
    assert (Hcb1 : cb1 = set_lastFailureTime
              (set_failureCount cb (failureCount cb + 1)) (Some (clock (f w).2))).
    { apply onFailure_closed_below; [assumption |].
      cbn [length] in Hlen. lia. }
    specialize (IH cb1 (f w).2).
    replace (recoveryTimeout cb) with (recoveryTimeout cb1)
      by (rewrite Hcb1; reflexivity).
    apply IH.
    + rewrite Hcb1. exact Hs.
    + discriminate.
    + rewrite Hcb1. cbn [length] in *. simpl. lia.
    + exact Hall.
Qed.

Lemma onSuccess_closed cb :
  state cb = CLOSED -> state (onSuccess cb) = CLOSED.
Proof. intros Hs. unfold onSuccess, isState. simpl. rewrite Hs. exact Hs. Qed.

Lemma onSuccess_half_open cb :
  state cb = HALF_OPEN ->
  (successCount cb + 1 < 3 ->
     state (onSuccess cb) = HALF_OPEN
     /\ successCount (onSuccess cb) = successCount cb + 1)
  /\ (3 <= successCount cb + 1 -> state (onSuccess cb) = CLOSED).
Proof.
  intros Hs. unfold onSuccess, isState. simpl. rewrite Hs. simpl.
  destruct (Z.leb_spec 3 (successCount cb + 1)); split; intros; try lia; auto.
Qed.

Lemma calls_succeed_closed (fs : list (Async A)) : forall cb w,
  state cb = CLOSED -> Forall succeeds fs -> state (calls cb fs w).1 = CLOSED.
Proof.
  induction fs as [| f fs IH]; intros cb w Hs Hall; [exact Hs |].
  apply Forall_cons in Hall as [Hf Hall].
  cbn [calls]. rewrite execute_not_open by congruence.
  rewrite (complete_succeeds _ _ _ Hf).
  apply IH; [apply onSuccess_closed, Hs | exact Hall].
Qed.

Lemma execute_open_rejects cb f w (n : Z) :
  state cb = OPEN -> nextAttempt cb = Some n -> clock w < n ->
  execute cb f w
  = (Rejected (ErrorHandler.handleCircuitBreakerError (clock w) (serviceName cb) "open"),
     cb, w).
Proof.
  intros Hs Hn Hlt.
  unfold execute, enter, isState, beforeNextAttempt.
  rewrite Hs, Hn.
  destruct (Z.ltb_spec (clock w) n); [reflexivity | lia].
Qed.

End BreakerFacts.

Lemma half_open_successes_close {A : Type} (cb : CircuitBreaker.t)
    (f1 f2 f3 : Async A) (w : World) :
  CircuitBreaker.state cb = CircuitBreaker.HALF_OPEN ->
  0 <= CircuitBreaker.successCount cb ->
  succeeds f1 -> succeeds f2 -> succeeds f3 ->
  CircuitBreaker.state (calls cb [f1; f2; f3] w).1 = CircuitBreaker.CLOSED.
Proof.
  intros Hs Hc H1 H2 H3.
  assert (Hstep : forall cb (f : Async A) w,
            CircuitBreaker.state cb <> CircuitBreaker.OPEN -> succeeds f ->
            CircuitBreaker.execute cb f w = ((f w).1, CircuitBreaker.onSuccess cb, (f w).2)).
  { intros cb' f w' Hn Hf. rewrite execute_not_open by assumption.
    apply complete_succeeds, Hf. }
  cbn [calls]. rewrite (Hstep cb f1 w) by (congruence || assumption).
  destruct (onSuccess_half_open cb Hs) as [Hlow Hhigh].
  destruct (Z.lt_ge_cases (CircuitBreaker.successCount cb + 1) 3) as [Hlt | Hge].
  2:{ apply (calls_succeed_closed [f2; f3]); [auto | repeat constructor; assumption]. }
  destruct (Hlow Hlt) as [Hs1 Hc1].
  set (cb1 := CircuitBreaker.onSuccess cb) in *.
  rewrite (Hstep cb1 f2) by (congruence || assumption).
  destruct (onSuccess_half_open cb1 Hs1) as [Hlow1 Hhigh1].
  destruct (Z.lt_ge_cases (CircuitBreaker.successCount cb1 + 1) 3) as [Hlt1 | Hge1].
  2:{ apply (calls_succeed_closed [f3]); [auto | repeat constructor; assumption]. }
  destruct (Hlow1 Hlt1) as [Hs2 Hc2].
  set (cb2 := CircuitBreaker.onSuccess cb1) in *.
  rewrite (Hstep cb2 f3) by (congruence || assumption).
  destruct (onSuccess_half_open cb2 Hs2) as [_ Hhigh2].
  apply Hhigh2. lia.
Qed.

Lemma half_open_needs_three {A : Type} (cb : CircuitBreaker.t)
    (f1 f2 : Async A) (w : World) :
  CircuitBreaker.state cb = CircuitBreaker.HALF_OPEN ->
  CircuitBreaker.successCount cb = 0 ->
  succeeds f1 -> succeeds f2 ->
  CircuitBreaker.state (calls cb [f1] w).1 = CircuitBreaker.HALF_OPEN
  /\ CircuitBreaker.state (calls cb [f1; f2] w).1 = CircuitBreaker.HALF_OPEN.
Proof.
  intros Hs Hc H1 H2. cbn [calls].
  rewrite execute_not_open by congruence.
  rewrite (complete_succeeds _ _ _ H1).
  destruct (onSuccess_half_open cb Hs) as [Hlow _].
  destruct Hlow as [Hs1 Hc1]; [lia |].
  split; [exact Hs1 |].
  rewrite execute_not_open by congruence.
  rewrite (complete_succeeds _ _ _ H2).
  destruct (onSuccess_half_open _ Hs1) as [Hlow1 _].
  apply Hlow1. lia.
Qed.

(** C1. The breaker of an upstream service is the specified state machine:
    it starts CLOSED; [failureThreshold] consecutive failures leave it OPEN
    with [nextAttempt = now + recoveryTimeout]; while it is OPEN and
    [now < nextAttempt] a call is rejected with [CIRCUIT_BREAKER_OPEN]
    (status 503), the wrapped call is not invoked (the world is untouched)
    and the breaker, its [failureCount] included, is unchanged; the first
    call with [now >= nextAttempt] makes it HALF_OPEN with [successCount = 0]
    and goes on with the wrapped call; in HALF_OPEN three consecutive
    successes close it (and, counted from zero, fewer do not), and a single
    failure opens it again with a new [nextAttempt]. *)
Theorem circuit_breaker_state_machine (A : Type) :
  (forall name options config,
     CircuitBreaker.state (CircuitBreaker.new name options config)
       = CircuitBreaker.CLOSED
     /\ CircuitBreaker.failureCount (CircuitBreaker.new name options config) = 0)
  /\ (forall (cb : CircuitBreaker.t) (fs : list (Async A)) (w : World),
        CircuitBreaker.state cb = CircuitBreaker.CLOSED ->
        CircuitBreaker.failureCount cb = 0 ->
        1 <= CircuitBreaker.failureThreshold cb ->
        Z.of_nat (length fs) = CircuitBreaker.failureThreshold cb ->
        Forall fails fs ->
        CircuitBreaker.state (calls cb fs w).1 = CircuitBreaker.OPEN
        /\ CircuitBreaker.nextAttempt (calls cb fs w).1
           = Some (clock (calls cb fs w).2 + CircuitBreaker.recoveryTimeout cb))
  /\ (forall (cb : CircuitBreaker.t) (f : Async A) (w : World) (n : Z),
        CircuitBreaker.state cb = CircuitBreaker.OPEN ->
        CircuitBreaker.nextAttempt cb = Some n ->
        clock w < n ->
        CircuitBreaker.execute cb f w
        = (Rejected (GatewayError
                       ("Service " +:+ CircuitBreaker.serviceName cb
                        +:+ " is temporarily unavailable")
                       503 "CIRCUIT_BREAKER_OPEN"
                       (Some [("service", JStr (CircuitBreaker.serviceName cb));
                              ("state", JStr "open");
                              ("message",
                               JStr "Circuit breaker is open due to repeated failures")])
                       (clock w)),
           cb, w))
  /\ (forall (cb : CircuitBreaker.t) (f : Async A) (w : World) (n : Z),
        CircuitBreaker.state cb = CircuitBreaker.OPEN ->
        CircuitBreaker.nextAttempt cb = Some n ->
        n <= clock w ->
        exists cb',
          CircuitBreaker.enter cb (clock w) = inr cb'
          /\ CircuitBreaker.state cb' = CircuitBreaker.HALF_OPEN
          /\ CircuitBreaker.successCount cb' = 0
          /\ CircuitBreaker.failureCount cb' = CircuitBreaker.failureCount cb
          /\ CircuitBreaker.execute cb f w = CircuitBreaker.complete cb' (f w))
  /\ (forall (cb : CircuitBreaker.t) (f1 f2 f3 : Async A) (w : World),
        CircuitBreaker.state cb = CircuitBreaker.HALF_OPEN ->
        succeeds f1 -> succeeds f2 -> succeeds f3 ->
        (0 <= CircuitBreaker.successCount cb ->
         CircuitBreaker.state (calls cb [f1; f2; f3] w).1 = CircuitBreaker.CLOSED)
        /\ (CircuitBreaker.successCount cb = 0 ->
            CircuitBreaker.state (calls cb [f1] w).1 = CircuitBreaker.HALF_OPEN
            /\ CircuitBreaker.state (calls cb [f1; f2] w).1
               = CircuitBreaker.HALF_OPEN))
  /\ (forall (cb : CircuitBreaker.t) (f : Async A) (w : World),
        CircuitBreaker.state cb = CircuitBreaker.HALF_OPEN ->
        fails f ->
        CircuitBreaker.state (calls cb [f] w).1 = CircuitBreaker.OPEN
        /\ CircuitBreaker.nextAttempt (calls cb [f] w).1
           = Some (clock (calls cb [f] w).2 + CircuitBreaker.recoveryTimeout cb)).
Proof.
  refine (conj _ (conj _ (conj _ (conj _ (conj _ _))))).
  - intros name options config. split; reflexivity.
  - intros cb fs w Hs Hc Ht Hlen Hall.
    apply closed_failures_open; try assumption.
    + intros ->. simpl in Hlen. lia.
    + lia.
  - intros cb f w n Hs Hn Hlt.
    apply (execute_open_rejects cb f w n Hs Hn Hlt).
  - intros cb f w n Hs Hn Hle.
    exists (CircuitBreaker.set_successCount
              (CircuitBreaker.set_state cb CircuitBreaker.HALF_OPEN) 0).
    unfold CircuitBreaker.execute, CircuitBreaker.enter,
      CircuitBreaker.isState, CircuitBreaker.beforeNextAttempt.
    rewrite Hs, Hn.
    destruct (Z.ltb_spec (clock w) n); [lia |].
    repeat apply conj; reflexivity.
  - intros cb f1 f2 f3 w Hs H1 H2 H3. split.
    + intros Hc. apply half_open_successes_close; assumption.
    + intros Hc. apply half_open_needs_three; assumption.
  - intros cb f w Hs Hf. cbn [calls].
    rewrite execute_not_open by congruence.
    rewrite (complete_fails _ _ _ Hf).
    apply onFailure_half_open, Hs.
Qed.

Lemma circuit_breaker_state_machine_witness :
  let closed := sampleBreaker CircuitBreaker.CLOSED 0 None 0 in
  let opened := sampleBreaker CircuitBreaker.OPEN 2 (Some 31000) 0 in
  let half := sampleBreaker CircuitBreaker.HALF_OPEN 2 (Some 31000) 0 in
  let w := worldAt 1000 10 ConnectionRefused in
  let late := worldAt 31000 10 ConnectionRefused in
  let bad : Async unit := throwing refused in
  let good : Async unit := returning tt in
  CircuitBreaker.state (calls closed [bad; bad] w).1 = CircuitBreaker.OPEN
  /\ CircuitBreaker.nextAttempt (calls closed [bad; bad] w).1 = Some 31000
  /\ (CircuitBreaker.execute opened good w).1.2 = opened
  /\ (CircuitBreaker.execute opened good w).2 = w
  /\ CircuitBreaker.state (CircuitBreaker.execute opened good late).1.2
     = CircuitBreaker.HALF_OPEN
  /\ CircuitBreaker.state (calls half [good; good; good] w).1
     = CircuitBreaker.CLOSED
  /\ CircuitBreaker.state (calls half [bad] w).1 = CircuitBreaker.OPEN.
Proof.
  intros closed opened half w late bad good.
  destruct (circuit_breaker_state_machine unit)
    as (_ & Hopen & Hreject & Hprobe & Hclose & Hreopen).
  assert (Hbad : fails bad) by (intros w'; eexists; reflexivity).
  assert (Hgood : succeeds good) by (intros w'; eexists; reflexivity).
  destruct (Hopen closed [bad; bad] w) as [H1 H2];
    [reflexivity | reflexivity | simpl; lia | reflexivity
     | repeat constructor; exact Hbad |].
  split; [exact H1 |]. split; [rewrite H2; reflexivity |].
  rewrite (Hreject opened good w 31000) by (reflexivity || (simpl; lia)).
  split; [reflexivity |]. split; [reflexivity |].
  destruct (Hprobe opened good late 31000) as (cb' & Hadm & _ & _ & _ & Hex);
    [reflexivity | reflexivity | simpl; lia |].
  cbv in Hadm. injection Hadm as <-.
  split; [rewrite Hex; reflexivity |].
  destruct (Hclose half good good good w) as [Hc _];
    [reflexivity | exact Hgood | exact Hgood | exact Hgood |].
  split; [apply Hc; simpl; lia |].
  apply (Hreopen half bad w); [reflexivity | exact Hbad].
Defined.

(** ** Retry loop *)

Section LoopFacts.

Import ForwardingLayer.
Variable config : CircuitBreaker.Config.
Variable extractServiceName : string -> string.
Variables (scope : list string) (req : Request) (route : RouteContext).
Variable serviceName : string.

(** What one call through the breaker does to the world: at most one
    dispatch, no sleep, no draw. *)
Lemma execute_makeRequest_world (cb : CircuitBreaker.t) (w : World) :
  let res := CircuitBreaker.execute cb (makeRequest extractServiceName req route) w in
  random res.2 = random w
  /\ drawn res.2 = drawn w
  /\ sleeps (trace res.2) = sleeps (trace w)
  /\ (dispatched res.2 <= S (dispatched w))%nat.
Proof.
  unfold CircuitBreaker.execute.
  destruct (CircuitBreaker.enter cb (clock w)) as [e | cb1]; simpl.
  - repeat split; lia.
  - unfold CircuitBreaker.complete, makeRequest, axios.
    destruct (settle None (event (upstream w (dispatched w)))) as [r | e]; simpl.
    + repeat split; lia.
    + destruct (propIs (err_code e) "ECONNABORTED"); simpl; repeat split; lia.
Qed.

Lemma waitBeforeRetry_first (w : World) : waitBeforeRetry 0 w = w.
Proof. reflexivity. Qed.

Lemma waitBeforeRetry_retry (attempt : Z) (w : World) :
  0 < attempt ->
  let w' := waitBeforeRetry attempt w in
  random w' = random w
  /\ drawn w' = S (drawn w)
  /\ dispatched w' = dispatched w
  /\ trace w'
     = Sleep (inject_Z (delay attempt)
              + jitter (random w (drawn w)) (delay attempt))%Q :: trace w.
Proof.
  intros Hpos. unfold waitBeforeRetry.
  destruct (Z.ltb_spec 0 attempt); [| lia].
  repeat split.
Qed.

(** The loop dispatches at most once per iteration, sleeps once before each
    iteration but the one with [attempt = 0], and the [k]-th sleep is the
    delay of its attempt plus the jitter of the [k]-th random draw. *)
Lemma attempts_bounds (todo : nat) : forall attempt lastError cb w,
  0 <= attempt ->
  let res := attempts extractServiceName scope req route serviceName todo
               attempt lastError cb w in
  (dispatched res.2 <= dispatched w + todo)%nat
  /\ exists ss : list Q,
       sleeps (trace res.2) = sleeps (trace w) ++ ss
       /\ (length ss <= todo - (if (attempt =? 0)%Z then 1 else 0))%nat
       /\ forall (k : nat) (d : Q), ss !! k = Some d ->
            d = (inject_Z (delay (Z.max attempt 1 + Z.of_nat k))
                 + jitter (random w (drawn w + k)%nat)
                     (delay (Z.max attempt 1 + Z.of_nat k)))%Q.
Proof.
  induction todo as [| todo IH]; intros attempt lastError cb w Hatt.
  - simpl. split; [lia |]. exists []. rewrite app_nil_r.
    split; [reflexivity |]. split; [simpl; lia |].
    intros k d Hk. discriminate.
  - cbn [attempts].
    set (w0 := waitBeforeRetry attempt w).
    pose proof (execute_makeRequest_world cb w0) as Hex.
    destruct (CircuitBreaker.execute cb (makeRequest extractServiceName req route) w0)
      as [[r cb1] w1].
    cbn [fst snd] in Hex. destruct Hex as (Hr1 & Hd1 & Hs1 & Hn1).
    (* the world before the call, in terms of [w] *)
    assert (Hw0 : random w0 = random w
                  /\ dispatched w0 = dispatched w
                  /\ exists pre,
                       sleeps (trace w0) = sleeps (trace w) ++ pre
                       /\ (drawn w0 = drawn w + length pre)%nat
                       /\ (length pre + (if (attempt =? 0)%Z then 1 else 0) = 1)%nat
                       /\ forall d, pre !! 0%nat = Some d ->
                            d = (inject_Z (delay (Z.max attempt 1))
                                 + jitter (random w (drawn w))
                                     (delay (Z.max attempt 1)))%Q).
    { destruct (Z.eqb_spec attempt 0) as [-> | Hne].
      - subst w0. rewrite waitBeforeRetry_first.
        repeat split. exists []. rewrite app_nil_r. simpl.
        repeat split; try lia. intros d Hd. discriminate.
      - destruct (waitBeforeRetry_retry attempt w) as (Ha & Hb & Hc & Hd); [lia |].
        fold w0 in Ha, Hb, Hc, Hd.
        repeat split; try assumption.
        eexists [_]. rewrite Hd. cbn [sleeps length].
        repeat split; try lia.
        intros d Hd'. simpl in Hd'. injection Hd' as <-.
        rewrite Z.max_l by lia. reflexivity. }
    destruct Hw0 as (Hr0 & Hn0 & pre & Hs0 & Hd0 & Hlen0 & Hpre).
    (* the outcomes that leave the loop add no sleep *)
    assert (Hstop : forall (o : Outcome unit) (cb' : CircuitBreaker.t) (w' : World),
              sleeps (trace w') = sleeps (trace w1) ->
              (dispatched w' <= dispatched w1)%nat ->
              (dispatched (o, cb', w').2 <= dispatched w + S todo)%nat
              /\ exists ss : list Q,
                   sleeps (trace (o, cb', w').2) = sleeps (trace w) ++ ss
                   /\ (length ss <= S todo - (if (attempt =? 0)%Z then 1 else 0))%nat
                   /\ forall (k : nat) (d : Q), ss !! k = Some d ->
                        d = (inject_Z (delay (Z.max attempt 1 + Z.of_nat k))
                             + jitter (random w (drawn w + k)%nat)
                                 (delay (Z.max attempt 1 + Z.of_nat k)))%Q).
    { intros o cb' w' Hs' Hn'. cbn [snd]. split; [lia |].
      exists pre. rewrite Hs', Hs1, Hs0. split; [reflexivity |].
      split; [destruct (attempt =? 0); lia |].
      intros k d Hk. destruct k as [| k].
      - rewrite Z.add_0_r, Nat.add_0_r. apply Hpre, Hk.
      - apply lookup_lt_Some in Hk. destruct (attempt =? 0); lia. }
    destruct r as [result | error].
    + unfold forwardResponse. apply Hstop; reflexivity.
    + destruct (includes scope "startTime"); [| apply Hstop; reflexivity].
      destruct (terminal error); [apply Hstop; reflexivity |].
      specialize (IH (attempt + 1) (Some error) cb1 w1 ltac:(lia)).
      cbv zeta in IH. destruct IH as (IHn & ss & IHs & IHlen & IHk).
      split; [lia |].
      exists (pre ++ ss). rewrite IHs, Hs1, Hs0, app_assoc.
      split; [reflexivity |].
      destruct (Z.eqb_spec (attempt + 1) 0) as [| _]; [lia |].
      rewrite length_app. split; [destruct (attempt =? 0); lia |].
      intros k d Hk.
      assert (Hmax : Z.max (attempt + 1) 1 = attempt + 1) by lia.
      rewrite Hmax in IHk.
      destruct (Z.eqb_spec attempt 0) as [-> | Hne].
      * assert (pre = []) by (destruct pre; simpl in Hlen0; [reflexivity | lia]).
        subst pre. simpl in Hk, Hd0.
        rewrite (IHk k d Hk), Hr1, Hr0, Hd1, Hd0, Nat.add_0_r. reflexivity.
      * destruct pre as [| d0 [| ? ?]]; simpl in Hlen0; try lia.
        destruct k as [| k].
        -- simpl in Hk. rewrite Z.add_0_r, Nat.add_0_r. apply Hpre, Hk.
        -- simpl in Hk. rewrite (IHk k d Hk), Hr1, Hr0, Hd1, Hd0.
           rewrite Z.max_l by lia. simpl length.
           replace (attempt + 1 + Z.of_nat k) with (attempt + Z.of_nat (S k)) by lia.
           replace (drawn w + 1 + k)%nat with (drawn w + S k)%nat by lia.
           reflexivity.
Qed.

End LoopFacts.

(** The bounds of the loop, for [forwardRequest] called by the middleware. *)
Lemma forwardWith_bounds (config : CircuitBreaker.Config)
    (extractServiceName : string -> string) (scope : list string)
    (req : Request) (route : RouteContext)
    (breakers : gmap string CircuitBreaker.t) (w : World) :
  0 <= ctx_retries route ->
  let res := ForwardingLayer.forwardWith config extractServiceName scope req
               route None breakers w in
  (Z.of_nat (dispatched res.2) <= Z.of_nat (dispatched w) + (ctx_retries route + 1))
  /\ exists ss : list Q,
       sleeps (trace res.2) = sleeps (trace w) ++ ss
       /\ Z.of_nat (length ss) <= ctx_retries route
       /\ forall (k : nat) (d : Q), ss !! k = Some d ->
            d = (inject_Z (ForwardingLayer.delay (Z.of_nat k + 1))
                 + ForwardingLayer.jitter (random w (drawn w + k)%nat)
                     (ForwardingLayer.delay (Z.of_nat k + 1)))%Q.
Proof.
  intros Hret res. subst res. unfold ForwardingLayer.forwardWith.
  destruct (ForwardingLayer.getCircuitBreaker config breakers
              (extractServiceName (ctx_target route))) as [cb breakers'].
  pose proof (attempts_bounds extractServiceName scope req route
                (extractServiceName (ctx_target route))
                (Z.to_nat (ctx_retries route + 1)) 0 None cb w ltac:(lia)) as H.
  cbv zeta in H. destruct H as (Hn & ss & Hs & Hlen & Hk).
  destruct (ForwardingLayer.attempts _ _ _ _ _ _ _ _ _ _) as [[r cb1] w1].
  cbn [snd fst] in *.
  split; [lia |].
  exists ss. split; [exact Hs |]. split; [simpl in Hlen; lia |].
  intros k d Hd. specialize (Hk k d Hd).
  replace (Z.max 0 1 + Z.of_nat k) with (Z.of_nat k + 1) in Hk by lia.
  exact Hk.
Qed.

Lemma delay_cap (i : Z) : ForwardingLayer.delay i <= 10000.
Proof. unfold ForwardingLayer.delay. lia. Qed.

Lemma delay_floor (i : Z) : 1 <= i -> 1000 <= ForwardingLayer.delay i.
Proof.
  intros Hi. unfold ForwardingLayer.delay.
  assert (0 < 2 ^ (i - 1)) by (apply Z.pow_pos_nonneg; lia). lia.
Qed.

Lemma delay_monotone (i j : Z) :
  1 <= i <= j -> ForwardingLayer.delay i <= ForwardingLayer.delay j.
Proof.
  intros Hij. unfold ForwardingLayer.delay.
  assert (2 ^ (i - 1) <= 2 ^ (j - 1)) by (apply Z.pow_le_mono_r; lia). lia.
Qed.

Lemma jitter_range (r : Q) (d : Z) :
  (0 <= r < 1)%Q -> 0 < d ->
  (0 <= ForwardingLayer.jitter r d < (1 # 10) * inject_Z d)%Q.
Proof.
  intros [Hr0 Hr1] Hd. unfold ForwardingLayer.jitter.
  assert (Hd' : (0 < inject_Z d)%Q) by (unfold Qlt, inject_Z; simpl; lia).
  split; nra.
Qed.

(** The schedule that the loop is written to follow, for every set of
    identifiers that resolve in its [catch] block: the [k]-th wait is
    [min(1000 * 2^k, 10000)] ms plus a jitter [Math.random() * 0.1 * delay],
    which lies in [[0, 0.1 * delay)] for every value [Math.random()] can
    return; there are at most [retries] waits and [retries + 1] upstream
    calls; the base delays are non-decreasing and never exceed 10000 ms. *)
Lemma backoff_schedule (config : CircuitBreaker.Config)
    (extractServiceName : string -> string) (scope : list string)
    (req : Request) (route : RouteContext)
    (breakers : gmap string CircuitBreaker.t) (w : World) :
  0 <= ctx_retries route ->
  (forall k, 0 <= random w k < 1)%Q ->
  let res := ForwardingLayer.forwardWith config extractServiceName scope req
               route None breakers w in
  (Z.of_nat (dispatched res.2) <= Z.of_nat (dispatched w) + (ctx_retries route + 1))
  /\ (exists ss : list Q,
        sleeps (trace res.2) = sleeps (trace w) ++ ss
        /\ Z.of_nat (length ss) <= ctx_retries route
        /\ forall (k : nat) (d : Q), ss !! k = Some d ->
             let i := Z.of_nat k + 1 in
             let base := Z.min (1000 * 2 ^ (i - 1)) 10000 in
             exists j : Q,
               d = (inject_Z base + j)%Q
               /\ j = (random w (drawn w + k)%nat * (1 # 10) * inject_Z base)%Q
               /\ (0 <= j < (1 # 10) * inject_Z base)%Q)
  /\ (forall i : Z, 1 <= i ->
        ForwardingLayer.delay i = Z.min (1000 * 2 ^ (i - 1)) 10000
        /\ 1000 <= ForwardingLayer.delay i <= 10000)
  /\ (forall i j : Z, 1 <= i <= j ->
        ForwardingLayer.delay i <= ForwardingLayer.delay j).
Proof.
  intros Hret Hrand res.
  destruct (forwardWith_bounds config extractServiceName scope req route
              breakers w Hret) as (Hn & ss & Hs & Hlen & Hk).
  fold res in Hn, Hs.
  split; [exact Hn |]. split; [| split].
  - exists ss. split; [exact Hs |]. split; [exact Hlen |].
    intros k d Hd. cbv zeta.
    change (Z.min (1000 * 2 ^ (Z.of_nat k + 1 - 1)) 10000)
      with (ForwardingLayer.delay (Z.of_nat k + 1)).
    exists (ForwardingLayer.jitter (random w (drawn w + k)%nat)
              (ForwardingLayer.delay (Z.of_nat k + 1))).
    split; [exact (Hk k d Hd) |]. split; [reflexivity |].
    apply jitter_range; [apply Hrand |].
    pose proof (delay_floor (Z.of_nat k + 1) ltac:(lia)). lia.
  - intros i Hi. split; [reflexivity |].
    split; [apply delay_floor, Hi | apply delay_cap].
  - apply delay_monotone.
Qed.

Section LoopOutcomes.

Import ForwardingLayer.
Variable extractServiceName : string -> string.
Variables (scope : list string) (req : Request) (route : RouteContext).
Variable serviceName : string.

(** An error on which the loop's test for [break] holds ends the loop
    with the attempt that raised it. *)
Lemma attempts_terminal (todo : nat) (attempt : Z) (lastError : option JsError)
    (cb cb1 : CircuitBreaker.t) (w w1 : World) (error : JsError) :
  CircuitBreaker.execute cb (makeRequest extractServiceName req route)
    (waitBeforeRetry attempt w) = (Rejected error, cb1, w1) ->
  terminal error = true ->
  exists e,
    attempts extractServiceName scope req route serviceName (S todo) attempt
      lastError cb w = (Rejected e, cb1, w1).
Proof.
  intros Hex Hterm. cbn [attempts]. rewrite Hex, Hterm.
  destruct (includes scope "startTime"); eexists; reflexivity.
Qed.

(** A response that the upstream sent, whatever its status, is returned by
    the attempt that received it. *)
Lemma attempts_response (todo : nat) (attempt : Z) (lastError : option JsError)
    (cb cb' : CircuitBreaker.t) (w : World) (r : AxiosResponse) :
  let w0 := waitBeforeRetry attempt w in
  CircuitBreaker.enter cb (clock w0) = inr cb' ->
  event (upstream w0 (dispatched w0)) = HttpResponse r ->
  attempts extractServiceName scope req route serviceName (S todo) attempt
    lastError cb w
  = (Resolved tt, CircuitBreaker.onSuccess cb',
     respond (res_status r) (axios None (ctx_targetUrl route) (req_query req) w0).2).
Proof.
  intros w0 Hadm Hev. cbn [attempts]. fold w0.
  unfold CircuitBreaker.execute. rewrite Hadm.
  unfold makeRequest, axios, CircuitBreaker.complete. rewrite Hev.
  reflexivity.
Qed.

(** In [forwardRequest] itself [startTime] does not resolve in the [catch]
    block: whatever the failure of an attempt, the loop ends there with a
    [ReferenceError]. *)
Lemma attempts_catch_throws (todo : nat) (attempt : Z)
    (lastError : option JsError) (cb cb1 : CircuitBreaker.t) (w w1 : World)
    (error : JsError) :
  CircuitBreaker.execute cb (makeRequest extractServiceName req route)
    (waitBeforeRetry attempt w) = (Rejected error, cb1, w1) ->
  attempts extractServiceName catch_scope req route serviceName (S todo) attempt
    lastError cb w
  = (Rejected (OtherError "ReferenceError" "startTime is not defined"
                 None None None None), cb1, w1).
Proof. intros Hex. cbn [attempts]. rewrite Hex. reflexivity. Qed.

End LoopOutcomes.

(** [forwardRequest] itself makes one attempt: it never waits, it calls
    the upstream at most once, and it ends with the forwarded response, with
    the [ReferenceError] of its [catch] block, or, when the loop body never
    ran, with the [TypeError] of reading [null.code]. *)
Lemma forwardRequest_single_attempt (config : CircuitBreaker.Config)
    (extractServiceName : string -> string) (req : Request) (route : RouteContext)
    (maxRetries : option Z) (breakers : gmap string CircuitBreaker.t) (w : World) :
  let res := ForwardingLayer.forwardRequest config extractServiceName req route
               maxRetries breakers w in
  sleeps (trace res.2) = sleeps (trace w)
  /\ (dispatched res.2 <= S (dispatched w))%nat
  /\ (res.1.1 = Resolved tt
      \/ res.1.1 = Rejected (OtherError "ReferenceError" "startTime is not defined"
                               None None None None)
      \/ res.1.1 = Rejected (OtherError "TypeError"
                               "Cannot read properties of null (reading 'code')"
                               None None None None)).
Proof.
  unfold ForwardingLayer.forwardRequest, ForwardingLayer.forwardWith.
  destruct (ForwardingLayer.getCircuitBreaker config breakers
              (extractServiceName (ctx_target route))) as [cb breakers'].
  destruct (Z.to_nat _) as [| todo].
  - cbn. split; [reflexivity |]. split; [lia |]. right. right. reflexivity.
  - cbn [ForwardingLayer.attempts]. rewrite waitBeforeRetry_first.
    pose proof (execute_makeRequest_world extractServiceName req route cb w) as Hex.
    destruct (CircuitBreaker.execute cb
                (ForwardingLayer.makeRequest extractServiceName req route) w)
      as [[[result | error] cb1] w1]; cbn [fst snd] in Hex;
      destruct Hex as (_ & _ & Hs & Hn).
    + cbn. split; [exact Hs |]. split; [exact Hn |]. left. reflexivity.
    + cbn. split; [exact Hs |]. split; [exact Hn |]. right. left. reflexivity.
Qed.


Lemma terminal_breaker_rejection (now : Z) (name state : string) :
  ForwardingLayer.terminal
    (ErrorHandler.handleCircuitBreakerError now name state) = true.
Proof. reflexivity. Qed.

Lemma terminal_client_status (error : JsError) (resp : Response) :
  err_response error = Some resp ->
  In (status resp) [400; 401; 403; 404; 422] ->
  ForwardingLayer.terminal error = true.
Proof.
  intros Hr Hin. unfold ForwardingLayer.terminal. rewrite Hr.
  apply orb_true_iff. right. unfold includesZ.
  apply existsb_exists. exists (status resp). split; [exact Hin | apply Z.eqb_refl].
Qed.

(** C2, as the code has it by design.  The loop makes at most
    [retries + 1] upstream calls.  An attempt that fails with an error on
    which the loop's test holds is the last one, and the test holds for a
    breaker rejection ([CIRCUIT_BREAKER_OPEN]) and for an error that carries
    an upstream status in {400, 401, 403, 404, 422}; an attempt that the
    breaker rejects makes no upstream call.  A response that the upstream
    sent is not a failure, whatever its status (the client is configured
    with [validateStatus: null]): the attempt that received it forwards it
    to the client, status included, and the loop ends.  Stated for every
    set of identifiers that resolve in the [catch] block, so nothing is said
    about what follows a failure that is not terminal. *)
Theorem retry_terminating_conditions (config : CircuitBreaker.Config)
    (extractServiceName : string -> string) (scope : list string)
    (req : Request) (route : RouteContext) :
  (forall (breakers : gmap string CircuitBreaker.t) (w : World),
     0 <= ctx_retries route ->
     Z.of_nat (dispatched
                 (ForwardingLayer.forwardWith config extractServiceName scope
                    req route None breakers w).2)
     <= Z.of_nat (dispatched w) + (ctx_retries route + 1))
  /\ (forall (name : string) (todo : nat) (attempt : Z)
        (lastError : option JsError) (cb cb1 : CircuitBreaker.t)
        (w w1 : World) (error : JsError),
        CircuitBreaker.execute cb
          (ForwardingLayer.makeRequest extractServiceName req route)
          (ForwardingLayer.waitBeforeRetry attempt w) = (Rejected error, cb1, w1) ->
        ForwardingLayer.terminal error = true ->
        exists e,
          ForwardingLayer.attempts extractServiceName scope req route name
            (S todo) attempt lastError cb w = (Rejected e, cb1, w1))
  /\ (forall error : JsError,
        err_errorCode error = Some "CIRCUIT_BREAKER_OPEN" ->
        ForwardingLayer.terminal error = true)
  /\ (forall (error : JsError) (resp : Response),
        err_response error = Some resp ->
        In (status resp) [400; 401; 403; 404; 422] ->
        ForwardingLayer.terminal error = true)
  /\ (forall (name : string) (todo : nat) (attempt : Z)
        (lastError : option JsError) (cb : CircuitBreaker.t) (w : World) (n : Z),
        CircuitBreaker.state cb = CircuitBreaker.OPEN ->
        CircuitBreaker.nextAttempt cb = Some n ->
        clock (ForwardingLayer.waitBeforeRetry attempt w) < n ->
        exists e,
          ForwardingLayer.attempts extractServiceName scope req route name
            (S todo) attempt lastError cb w
          = (Rejected e, cb, ForwardingLayer.waitBeforeRetry attempt w))
  /\ (forall (name : string) (todo : nat) (attempt : Z)
        (lastError : option JsError) (cb cb' : CircuitBreaker.t) (w : World)
        (r : AxiosResponse),
        CircuitBreaker.enter cb
          (clock (ForwardingLayer.waitBeforeRetry attempt w)) = inr cb' ->
        event (upstream (ForwardingLayer.waitBeforeRetry attempt w)
                 (dispatched (ForwardingLayer.waitBeforeRetry attempt w)))
        = HttpResponse r ->
        ForwardingLayer.attempts extractServiceName scope req route name
          (S todo) attempt lastError cb w
        = (Resolved tt, CircuitBreaker.onSuccess cb',
           respond (res_status r)
             (axios None (ctx_targetUrl route) (req_query req)
                (ForwardingLayer.waitBeforeRetry attempt w)).2)).
Proof.
  refine (conj _ (conj _ (conj _ (conj _ (conj _ _))))).
  - intros breakers w Hret.
    apply (forwardWith_bounds config extractServiceName scope req route
             breakers w Hret).
  - intros name todo attempt lastError cb cb1 w w1 error Hex Hterm.
    apply attempts_terminal with (error := error); assumption.
  - intros error Hc. unfold ForwardingLayer.terminal. rewrite Hc. reflexivity.
  - apply terminal_client_status.
  - intros name todo attempt lastError cb w n Hs Hn Hlt.
    apply attempts_terminal with (error :=
      ErrorHandler.handleCircuitBreakerError
        (clock (ForwardingLayer.waitBeforeRetry attempt w))
        (CircuitBreaker.serviceName cb) "open").
    + apply (execute_open_rejects cb _ _ n Hs Hn Hlt).
    + reflexivity.
  - intros name todo attempt lastError cb cb' w r Hadm Hev.
    apply attempts_response; assumption.
Qed.

Lemma retry_terminating_conditions_witness :
  let opened := sampleBreaker CircuitBreaker.OPEN 2 (Some 31000) 0 in
  let closed := sampleBreaker CircuitBreaker.CLOSED 0 None 0 in
  let down := worldAt 1000 10 ConnectionRefused in
  let missing := worldAt 1000 10 (HttpResponse (sampleResponse 404)) in
  let loop cb w :=
    ForwardingLayer.attempts sampleService ForwardingLayer.catch_scope
      sampleRequest sampleRoute "localhost:3001" 4 0 None cb w in
  (Z.of_nat (dispatched
               (ForwardingLayer.forwardWith sampleConfig sampleService
                  ForwardingLayer.catch_scope sampleRequest sampleRoute None
                  ∅ down).2) <= 0 + (3 + 1))
  /\ (exists e, loop opened down = (Rejected e, opened, down))
  /\ ForwardingLayer.terminal
       (ErrorHandler.handleCircuitBreakerError 1000 "svc:9" "open") = true
  /\ ForwardingLayer.terminal
       (OtherError "AxiosError" "Request failed with status code 404"
          (Some "ERR_BAD_REQUEST") (Some (mkResponse 404 None)) None None) = true
  /\ (loop closed missing).1.1 = Resolved tt
  /\ trace (loop closed missing).2
     = [Respond 404; Dispatch "http://localhost:3001/" []].
Proof.
  intros opened closed down missing loop.
  destruct (retry_terminating_conditions sampleConfig sampleService
              ForwardingLayer.catch_scope sampleRequest sampleRoute)
    as (Hbound & Hlast & Hbreaker & Hstatus & Hreject & Hresponse).
  split; [apply Hbound; simpl; lia |].
  split.
  { destruct (Hlast "localhost:3001" 3%nat 0 None opened opened down down
                (ErrorHandler.handleCircuitBreakerError 1000 "svc:9" "open"))
      as [e He]; [reflexivity | apply Hbreaker; reflexivity |].
    destruct (Hreject "localhost:3001" 3%nat 0 None opened down 31000)
      as [e' He']; [reflexivity | reflexivity | simpl; lia |].
    exists e'. exact He'. }
  split; [apply Hbreaker; reflexivity |].
  split; [apply (Hstatus _ (mkResponse 404 None)); [reflexivity | simpl; tauto] |].
  assert (Hrun : loop closed missing
                 = (Resolved tt, CircuitBreaker.onSuccess closed,
                    respond 404 (axios None "http://localhost:3001/" [] missing).2)).
  { apply (Hresponse "localhost:3001" 3%nat 0 None closed closed missing
             (sampleResponse 404)); reflexivity. }
  rewrite Hrun. split; reflexivity.
Defined.

(** C2 fails as stated: with [retries = 3], an upstream that answers 500 is
    called once, its response is forwarded and no retry follows; the same
    holds when [startTime] resolves in the [catch] block. *)
Lemma retry_server_error_counterexample :
  let w := worldAt 0 10 (HttpResponse (sampleResponse 500)) in
  let res :=
    ForwardingLayer.forwardRequest sampleConfig sampleService sampleRequest
      sampleRoute None ∅ w in
  let res' :=
    ForwardingLayer.forwardWith sampleConfig sampleService
      ("startTime" :: ForwardingLayer.catch_scope) sampleRequest sampleRoute
      None ∅ w in
  ctx_retries sampleRoute = 3
  /\ res.1.1 = Resolved tt
  /\ dispatched res.2 = 1%nat
  /\ trace res.2 = [Respond 500; Dispatch "http://localhost:3001/" []]
  /\ sleeps (trace res.2) = []
  /\ res'.1.1 = Resolved tt
  /\ trace res'.2 = [Respond 500; Dispatch "http://localhost:3001/" []].
Proof. vm_compute. repeat split. Qed.

(** C4 fails on the code.  An upstream that never answers makes the client
    time out ([ECONNABORTED]).  [forwardRequest] then throws a
    [ReferenceError] from its [catch] block after the first attempt, which
    the error middleware answers with 500 [INTERNAL_SERVER_ERROR]; and were
    [startTime] to resolve there, the four attempts would end in 502
    [BAD_GATEWAY], because [mapUpstreamError] does not recognise the
    [GATEWAY_TIMEOUT] error that [makeRequest] built. *)
Theorem timeout_not_gateway_timeout :
  let w := worldAt 0 5000 RequestTimeout in
  let res :=
    ForwardingLayer.forwardRequest sampleConfig sampleService sampleRequest
      sampleRoute None ∅ w in
  let res' :=
    ForwardingLayer.forwardWith sampleConfig sampleService
      ("startTime" :: ForwardingLayer.catch_scope) sampleRequest sampleRoute
      None ∅ w in
  (ForwardingLayer.makeRequest sampleService sampleRequest sampleRoute w).1
  = Rejected (GatewayError "Request timeout" 504 "GATEWAY_TIMEOUT"
                (Some [("timeout", JNum 5000); ("service", JStr "localhost:3001")])
                5000)
  /\ res.1.1
     = Rejected (OtherError "ReferenceError" "startTime is not defined"
                   None None None None)
  /\ dispatched res.2 = 1%nat
  /\ (forall e, res.1.1 = Rejected e ->
        ErrorHandler.middleware false true (clock res.2) "req-1" e
        = Sent 500
            {| env_error := "INTERNAL_SERVER_ERROR";
               env_message := "An internal server error occurred";
               env_details := None;
               env_requestId := "req-1";
               env_timestamp := 5000;
               env_stack := false |})
  /\ res'.1.1
     = Rejected (GatewayError "Unknown error from service localhost:3001" 502
                   "BAD_GATEWAY"
                   (Some [("service", JStr "localhost:3001");
                          ("originalError", JStr "Request timeout")])
                   27350)
  /\ dispatched res'.2 = 4%nat.
Proof.
  intros w res res'.
  assert (Hres : res.1.1
                 = Rejected (OtherError "ReferenceError" "startTime is not defined"
                               None None None None))
    by (vm_compute; reflexivity).
  split; [vm_compute; reflexivity |].
  split; [exact Hres |].
  split; [vm_compute; reflexivity |].
  split.
  { intros e He. rewrite Hres in He. injection He as <-.
    vm_compute. reflexivity. }
  split; vm_compute; reflexivity.
Qed.

(** ** Route resolver *)

Section ResolverFacts.

Import RoutingLayer.
Variable pathToRegexp : string -> string -> option Match.
Variable pathKeys : string -> list string.

Lemma findRoute_first (rs : list CompiledRoute) (req : Request) (m : RouteMatch) :
  findRoute pathToRegexp pathKeys rs req = Some m ->
  exists pre post,
    rs = pre ++ rm_route m :: post
    /\ Forall (skipped req) pre
    /\ includes (methods (route (rm_route m))) (req_method req) = true
    /\ regexp (rm_route m) (req_path req) = Some (rm_match m).
Proof.
  induction rs as [| r rs IH]; intros Hfind; [discriminate |].
  cbn [findRoute] in Hfind.
  destruct (includes (methods (route r)) (req_method req)) eqn:Hm; cbn [negb] in Hfind.
  - destruct (regexp r (req_path req)) as [mt |] eqn:Hre.
    + injection Hfind as <-. exists [], rs. cbn.
      repeat split; [constructor | exact Hm | exact Hre].
    + destruct (IH Hfind) as (pre & post & -> & Hpre & Hok).
      exists (r :: pre), post. split; [reflexivity |].
      split; [constructor; [right; exact Hre | exact Hpre] | exact Hok].
  - destruct (IH Hfind) as (pre & post & -> & Hpre & Hok).
    exists (r :: pre), post. split; [reflexivity |].
    split; [constructor; [left; exact Hm | exact Hpre] | exact Hok].
Qed.

Lemma findRoute_none (rs : list CompiledRoute) (req : Request) :
  findRoute pathToRegexp pathKeys rs req = None <-> Forall (skipped req) rs.
Proof.
  induction rs as [| r rs IH]; cbn [findRoute].
  - split; [constructor | reflexivity].
  - destruct (includes (methods (route r)) (req_method req)) eqn:Hm; cbn [negb].
    + destruct (regexp r (req_path req)) as [mt |] eqn:Hre.
      * split; [discriminate |].
        intros H. apply Forall_cons in H as [[Hs | Hs] _]; congruence.
      * rewrite IH. split.
        -- intros H. constructor; [right; exact Hre | exact H].
        -- intros H. apply Forall_cons in H as [_ H]. exact H.
    + rewrite IH. split.
      * intros H. constructor; [left; exact Hm | exact H].
      * intros H. apply Forall_cons in H as [_ H]. exact H.
Qed.

End ResolverFacts.

Lemma validateMethod_allowed (now : Z) (req : Request) :
  EntryLayer.validateMethod now req = None
  <-> In (req_method req) EntryLayer.allowedMethods.
Proof.
  unfold EntryLayer.validateMethod, includes.
  destruct (existsb (String.eqb (req_method req)) EntryLayer.allowedMethods) eqn:H;
    cbn [negb].
  - split; [intros _ | reflexivity].
    apply existsb_exists in H as (x & Hin & Heq).
    apply String.eqb_eq in Heq. subst x. exact Hin.
  - split; [discriminate |]. intros Hin. exfalso.
    assert (existsb (String.eqb (req_method req)) EntryLayer.allowedMethods = true).
    { apply existsb_exists. exists (req_method req).
      split; [exact Hin | apply String.eqb_refl]. }
    congruence.
Qed.

(** C6. The resolver returns the first route, in declaration order, whose
    method set contains the request's method and whose compiled pattern
    matches the path, and none when every route is skipped.  When some route
    matches the path but no route matching the path lists the method, the
    routing middleware fails with [ROUTE_NOT_FOUND], status 404; it never
    fails with 405, which the entry layer answers exactly for the methods
    outside the global set. *)
Theorem route_resolution (pathToRegexp : string -> string -> option RoutingLayer.Match)
    (pathKeys : string -> list string)
    (RegExp_replace : string -> string -> option string) :
  (forall (rs : list RoutingLayer.CompiledRoute) (req : Request)
          (m : RoutingLayer.RouteMatch),
     RoutingLayer.findRoute pathToRegexp pathKeys rs req = Some m ->
     exists pre post,
       rs = pre ++ RoutingLayer.rm_route m :: post
       /\ Forall (skipped req) pre
       /\ includes (RoutingLayer.methods (RoutingLayer.route (RoutingLayer.rm_route m)))
            (req_method req) = true
       /\ RoutingLayer.regexp (RoutingLayer.rm_route m) (req_path req)
          = Some (RoutingLayer.rm_match m))
  /\ (forall (rs : list RoutingLayer.CompiledRoute) (req : Request),
        RoutingLayer.findRoute pathToRegexp pathKeys rs req = None
        <-> Forall (skipped req) rs)
  /\ (forall (now : Z) (st : RoutingLayer.State) (req : Request)
             (r : RoutingLayer.CompiledRoute),
        In r (RoutingLayer.compiledRoutes st) ->
        RoutingLayer.regexp r (req_path req) <> None ->
        (forall r', In r' (RoutingLayer.compiledRoutes st) ->
           RoutingLayer.regexp r' (req_path req) <> None ->
           includes (RoutingLayer.methods (RoutingLayer.route r')) (req_method req)
           = false) ->
        exists message details,
          RoutingLayer.middleware pathToRegexp pathKeys RegExp_replace now st req
          = Rejected (GatewayError message 404 "ROUTE_NOT_FOUND" details now))
  /\ (forall (now : Z) (st : RoutingLayer.State) (req : Request) (e : JsError),
        RoutingLayer.middleware pathToRegexp pathKeys RegExp_replace now st req
        = Rejected e ->
        err_statusCode e = Some 404 \/ err_statusCode e = Some 500)
  /\ (forall (now : Z) (req : Request),
        (EntryLayer.validateMethod now req = None
         <-> In (req_method req) EntryLayer.allowedMethods)
        /\ (forall reply, EntryLayer.validateMethod now req = Some reply ->
              exists body, reply = Sent 405 body)).
Proof.
  refine (conj _ (conj _ (conj _ (conj _ _)))).
  - apply findRoute_first.
  - apply findRoute_none.
  - intros now st req r Hin Hre Hall.
    unfold RoutingLayer.middleware.
    assert (Hnone : RoutingLayer.findRoute pathToRegexp pathKeys
                      (RoutingLayer.compiledRoutes st) req = None).
    { apply findRoute_none. apply List.Forall_forall. intros r' Hin'.
      destruct (RoutingLayer.regexp r' (req_path req)) eqn:Hr'.
      - left. apply Hall; [exact Hin' | congruence].
      - right. exact Hr'. }
    rewrite Hnone. eexists _, _. reflexivity.
  - intros now st req e. unfold RoutingLayer.middleware.
    destruct (RoutingLayer.findRoute _ _ _ _) as [m |].
    + destruct (RoutingLayer.buildTargetUrl _ _ _); [discriminate |].
      intros [= <-]. right. reflexivity.
    + intros [= <-]. left. reflexivity.
  - intros now req. split; [apply validateMethod_allowed |].
    intros reply. unfold EntryLayer.validateMethod.
    destruct (negb _); [| discriminate].
    intros [= <-]. eexists. reflexivity.
Qed.

Lemma route_resolution_witness :
  let st := configState in
  let req := mkRequest "DELETE" "/api/auth" [] "req-1" in
  (exists message details,
     RoutingLayer.middleware exactMatch paramKeys noEngine 7 st req
     = Rejected (GatewayError message 404 "ROUTE_NOT_FOUND" details 7))
  /\ EntryLayer.validateMethod 7 req = None
  /\ (exists body,
        EntryLayer.validateMethod 7 (mkRequest "TRACE" "/api/auth" [] "req-2")
        = Some (Sent 405 body)).
Proof.
  intros st req.
  destruct (route_resolution exactMatch paramKeys noEngine)
    as (_ & _ & Hmiss & _ & Hentry).
  split.
  - apply (Hmiss 7 st req
             (RoutingLayer.compile exactMatch
                (RoutingLayer.normalize
                   (RoutingLayer.mkRouteConfig "/api/auth" "http://localhost:3002"
                      (Some 3000) (Some 2) (Some false) (Some "basic")
                      (Some ["POST"]) None None None)))).
    + simpl. tauto.
    + discriminate.
    + intros r' Hin Hre. simpl in Hin.
      destruct Hin as [<- | [<- | [<- | [<- | []]]]];
        solve [reflexivity | exfalso; apply Hre; reflexivity].
  - split.
    + apply (Hentry 7 req). simpl. tauto.
    + destruct (Hentry 7 (mkRequest "TRACE" "/api/auth" [] "req-2")) as [_ H].
      destruct (H _ eq_refl) as [body Hb]. exists body. rewrite <- Hb. reflexivity.
Defined.

(** ** Route normalization *)

Lemma orNum_nonzero (x : option Z) (d : Z) : d <> 0 -> RoutingLayer.orNum x d <> 0.
Proof.
  intros Hd. unfold RoutingLayer.orNum.
  destruct x as [n |]; [| exact Hd].
  destruct (Z.eqb_spec n 0); assumption.
Qed.

Lemma validateRoute_retries_zero (isValidUrl : string -> bool)
    (c : RoutingLayer.RouteConfig) :
  RoutingLayer.c_retries c = Some 0 ->
  RoutingLayer.validateRoute isValidUrl c
  = RoutingLayer.validateRoute isValidUrl
      (RoutingLayer.mkRouteConfig (RoutingLayer.c_path c) (RoutingLayer.c_target c)
         (RoutingLayer.c_timeout c) None (RoutingLayer.c_authRequired c)
         (RoutingLayer.c_rateLimitTier c) (RoutingLayer.c_methods c)
         (RoutingLayer.c_stripPath c) (RoutingLayer.c_preserveHost c)
         (RoutingLayer.c_changeOrigin c)).
Proof.
  intros Hr. unfold RoutingLayer.validateRoute. cbn. rewrite Hr. reflexivity.
Qed.

Lemma compileAll_accepted
    (pathToRegexp : string -> string -> option RoutingLayer.Match)
    (pathToRegexp_throws : string -> option JsError)
    (rs : list RoutingLayer.Route) :
  Forall (fun r => pathToRegexp_throws (RoutingLayer.path r) = None) rs ->
  RoutingLayer.compileAll pathToRegexp pathToRegexp_throws rs
  = Resolved (map (RoutingLayer.compile pathToRegexp) rs).
Proof.
  induction 1 as [| r rs Hr _ IH]; [reflexivity |].
  cbn [RoutingLayer.compileAll map]. rewrite Hr, IH. reflexivity.
Qed.

Lemma compileAll_returns
    (pathToRegexp : string -> string -> option RoutingLayer.Match)
    (pathToRegexp_throws : string -> option JsError)
    (rs : list RoutingLayer.Route) (compiled : list RoutingLayer.CompiledRoute) :
  RoutingLayer.compileAll pathToRegexp pathToRegexp_throws rs = Resolved compiled ->
  compiled = map (RoutingLayer.compile pathToRegexp) rs
  /\ Forall (fun r => pathToRegexp_throws (RoutingLayer.path r) = None) rs.
Proof.
  revert compiled. induction rs as [| r rs IH]; intros compiled.
  - intros [= <-]. split; [reflexivity | constructor].
  - cbn [RoutingLayer.compileAll].
    destruct (pathToRegexp_throws (RoutingLayer.path r)) eqn:Hr; [discriminate |].
    destruct (RoutingLayer.compileAll pathToRegexp pathToRegexp_throws rs)
      as [crs |]; [| discriminate].
    intros [= <-]. destruct (IH crs eq_refl) as [-> Hall].
    split; [reflexivity | constructor; assumption].
Qed.

Lemma initializeRoutes_returns
    (pathToRegexp : string -> string -> option RoutingLayer.Match)
    (pathToRegexp_throws : string -> option JsError)
    (cs : list RoutingLayer.RouteConfig) (st : RoutingLayer.State) :
  RoutingLayer.initializeRoutes pathToRegexp pathToRegexp_throws cs = Resolved st ->
  st = RoutingLayer.mkState (map RoutingLayer.normalize cs)
         (map (RoutingLayer.compile pathToRegexp) (map RoutingLayer.normalize cs)).
Proof.
  unfold RoutingLayer.initializeRoutes.
  destruct (RoutingLayer.compileAll _ _ _) as [compiled |] eqn:Hc; [| discriminate].
  intros [= <-]. apply compileAll_returns in Hc as [-> _]. reflexivity.
Qed.

(** C10. A route configured with [retries = 0] is normalized to the
    default 3.  At start-up: when [initializeRoutes] returns, the route and
    its compiled entry both have 3, and it returns whenever the pattern
    compiler accepts every pattern.  When added: the zero passes validation
    like an absent value, the route pushed on the table has 3 whether or not
    its pattern is then accepted, and when it is accepted that route is
    returned and compiled.  No normalized route has [retries = 0]. *)
Theorem zero_retries_become_default
    (pathToRegexp : string -> string -> option RoutingLayer.Match)
    (pathToRegexp_throws : string -> option JsError)
    (isValidUrl : string -> bool) (c : RoutingLayer.RouteConfig) :
  RoutingLayer.c_retries c = Some 0 ->
  RoutingLayer.retries (RoutingLayer.normalize c) = 3
  /\ (forall (cs : list RoutingLayer.RouteConfig) (st : RoutingLayer.State)
             (i : nat),
        cs !! i = Some c ->
        RoutingLayer.initializeRoutes pathToRegexp pathToRegexp_throws cs
        = Resolved st ->
        exists r cr,
          RoutingLayer.routes st !! i = Some r
          /\ RoutingLayer.compiledRoutes st !! i = Some cr
          /\ RoutingLayer.retries r = 3
          /\ RoutingLayer.retries (RoutingLayer.route cr) = 3)
  /\ (forall cs : list RoutingLayer.RouteConfig,
        (forall c', In c' cs -> pathToRegexp_throws (RoutingLayer.c_path c') = None) ->
        exists st,
          RoutingLayer.initializeRoutes pathToRegexp pathToRegexp_throws cs
          = Resolved st)
  /\ RoutingLayer.validateRoute isValidUrl c
     = RoutingLayer.validateRoute isValidUrl
         (RoutingLayer.mkRouteConfig (RoutingLayer.c_path c) (RoutingLayer.c_target c)
            (RoutingLayer.c_timeout c) None (RoutingLayer.c_authRequired c)
            (RoutingLayer.c_rateLimitTier c) (RoutingLayer.c_methods c)
            (RoutingLayer.c_stripPath c) (RoutingLayer.c_preserveHost c)
            (RoutingLayer.c_changeOrigin c))
  /\ (forall (now : Z) (st : RoutingLayer.State),
        RoutingLayer.validateRoute isValidUrl c = [] ->
        let added :=
          RoutingLayer.addRoute pathToRegexp pathToRegexp_throws isValidUrl now
            st c in
        exists r,
          RoutingLayer.routes added.2 = RoutingLayer.routes st ++ [r]
          /\ RoutingLayer.retries r = 3
          /\ (pathToRegexp_throws (RoutingLayer.c_path c) = None ->
              added
              = (Resolved r,
                 RoutingLayer.mkState (RoutingLayer.routes st ++ [r])
                   (RoutingLayer.compiledRoutes st
                    ++ [RoutingLayer.compile pathToRegexp r]))))
  /\ (forall c' : RoutingLayer.RouteConfig,
        RoutingLayer.retries (RoutingLayer.normalize c') <> 0).
Proof.
  intros Hr.
  assert (H3 : RoutingLayer.retries (RoutingLayer.normalize c) = 3).
  { unfold RoutingLayer.normalize. cbn. rewrite Hr. reflexivity. }
  refine (conj H3 (conj _ (conj _ (conj _ (conj _ _))))).
  - intros cs st i Hi Hinit.
    apply initializeRoutes_returns in Hinit as ->.
    exists (RoutingLayer.normalize c),
           (RoutingLayer.compile pathToRegexp (RoutingLayer.normalize c)).
    cbn. rewrite !list_lookup_fmap, Hi. cbn. repeat split; exact H3.
  - intros cs Hall. unfold RoutingLayer.initializeRoutes.
    rewrite compileAll_accepted; [eexists; reflexivity |].
    apply List.Forall_forall. intros r Hin.
    apply in_map_iff in Hin as (c' & <- & Hc'). apply (Hall c' Hc').
  - apply validateRoute_retries_zero, Hr.
  - intros now st Hv added. subst added. exists (RoutingLayer.normalize c).
    unfold RoutingLayer.addRoute. rewrite Hv.
    change (RoutingLayer.path (RoutingLayer.normalize c)) with (RoutingLayer.c_path c).
    destruct (pathToRegexp_throws (RoutingLayer.c_path c)) as [e |].
    + split; [reflexivity |]. split; [exact H3 | discriminate].
    + split; [reflexivity |]. split; [exact H3 | reflexivity].
  - intros c'. apply orNum_nonzero. discriminate.
Qed.

Lemma zero_retries_become_default_witness :
  let c := routeTo "/api/reports" "http://localhost:3005" (Some 0) in
  let odd := routeTo "/api/reports/:" "http://localhost:3005" (Some 0) in
  RoutingLayer.retries (RoutingLayer.normalize c) = 3
  /\ (exists r,
        RoutingLayer.addRoute exactMatch missingName anyUrl 7 configState c
        = (Resolved r,
           RoutingLayer.mkState (RoutingLayer.routes configState ++ [r])
             (RoutingLayer.compiledRoutes configState
              ++ [RoutingLayer.compile exactMatch r]))
        /\ RoutingLayer.retries r = 3)
  /\ (exists r,
        RoutingLayer.routes
          (RoutingLayer.addRoute exactMatch missingName anyUrl 7 configState odd).2
        = RoutingLayer.routes configState ++ [r]
        /\ RoutingLayer.retries r = 3).
Proof.
  intros c odd.
  destruct (zero_retries_become_default exactMatch missingName anyUrl c eq_refl)
    as (H3 & _ & _ & _ & Hadd & _).
  destruct (zero_retries_become_default exactMatch missingName anyUrl odd eq_refl)
    as (_ & _ & _ & _ & Hodd & _).
  split; [exact H3 |]. split.
  - destruct (Hadd 7 configState eq_refl) as (r & _ & Hr3 & Hok).
    exists r. split; [exact (Hok eq_refl) | exact Hr3].
  - destruct (Hodd 7 configState eq_refl) as (r & Hr & Hr3 & _).
    exists r. split; [exact Hr | exact Hr3].
Defined.

(** ** Target URL *)


Lemma stripPrefix_append (p rest : string) : stripPrefix p (p +:+ rest) = Some rest.
Proof.
  induction p as [| c p IH]; [reflexivity |].
  change (stripPrefix (String c p) (String c (p +:+ rest)) = Some rest).
  cbn [stripPrefix]. rewrite Ascii.eqb_refl. exact IH.
Qed.

Lemma append_cancel_l (a b c : string) : a +:+ b = a +:+ c -> b = c.
Proof.
  induction a as [| x a IH]; [exact id |].
  change (String x (a +:+ b) = String x (a +:+ c) -> b = c).
  intros [= H]. exact (IH H).
Qed.

Lemma length_append (a b : string) :
  String.length (a +:+ b) = (String.length a + String.length b)%nat.
Proof.
  induction a as [| x a IH]; [reflexivity |].
  change (S (String.length (a +:+ b)) = S (String.length a + String.length b)).
  rewrite IH. reflexivity.
Qed.

Lemma append_cancel_r (a b c : string) : a +:+ c = b +:+ c -> a = b.
Proof.
  revert b. induction a as [| x a IH]; intros [| y b] H.
  - reflexivity.
  - exfalso. apply (f_equal String.length) in H.
    rewrite !length_append in H. cbn in H. lia.
  - exfalso. apply (f_equal String.length) in H.
    rewrite !length_append in H. cbn in H. lia.
  - change (String x (a +:+ c) = String y (b +:+ c)) in H.
    injection H as -> H. f_equal. exact (IH b H).
Qed.





(** The example of the specification, a route with the pattern [/api/x]
    and the request [GET /api/x/y?q=1]: under a matcher for which, like
    [exactMatch], the pattern matches its own path only, the resolver does
    not select the route and the answer is 404 [ROUTE_NOT_FOUND]. *)
Lemma exact_pattern_skips_longer_path :
  let st :=
    RoutingLayer.mkState [RoutingLayer.normalize (routeTo "/api/x" "http://u" None)]
      [RoutingLayer.compile exactMatch
         (RoutingLayer.normalize (routeTo "/api/x" "http://u" None))] in
  exists message details,
    RoutingLayer.middleware exactMatch paramKeys noEngine 7 st
      (mkRequest "GET" "/api/x/y" [("q", QString "1")] "req-1")
    = Rejected (GatewayError message 404 "ROUTE_NOT_FOUND" details 7).
Proof. intros st. eexists _, _. reflexivity. Qed.


(** ** Rate limiter *)

Lemma append_assoc (a b c : string) : (a +:+ b) +:+ c = a +:+ (b +:+ c).
Proof.
  induction a as [| x a IH]; [reflexivity |].
  change (String x ((a +:+ b) +:+ c) = String x (a +:+ (b +:+ c))).
  rewrite IH. reflexivity.
Qed.

Lemma window_contains_now (now windowMs : Z) :
  0 < windowMs ->
  RateLimitLayer.windowStartOf now windowMs <= now
  < RateLimitLayer.windowStartOf now windowMs + windowMs.
Proof.
  intros Hw. unfold RateLimitLayer.windowStartOf.
  pose proof (Z.div_mod now windowMs ltac:(lia)).
  pose proof (Z.mod_pos_bound now windowMs Hw). lia.
Qed.

Lemma ceilDiv_spec (a b : Z) :
  0 < b ->
  b * (RateLimitLayer.ceilDiv a b - 1) < a <= b * RateLimitLayer.ceilDiv a b.
Proof.
  intros Hb. unfold RateLimitLayer.ceilDiv.
  pose proof (Z.div_mod (- a) b ltac:(lia)).
  pose proof (Z.mod_pos_bound (- a) b Hb). lia.
Qed.

(** The window of a configured tier at a time whose window has dates. *)
Lemma windowStart_configured (l : RateLimitLayer.t) (tierName : string)
    (limit window now : Z) :
  configured l tierName limit window ->
  RateLimitLayer.windowStart now
    (RateLimitLayer.windowMs (RateLimitLayer.getTierConfig l tierName))
  = RateLimitLayer.Finite (RateLimitLayer.windowStartOf now window).
Proof.
  intros [Hcfg Hw]. rewrite Hcfg. cbn.
  destruct (Z.eqb_spec window 0); [lia | reflexivity].
Qed.

(** The decision for a configured tier when both round trips succeed
    and the start of the window is a date. *)
Lemma checkRateLimit_reachable (l : RateLimitLayer.t) (now : Z)
    (ctx : RateLimitLayer.Context) (tierName : string) (limit window : Z) :
  reachable l ->
  configured l tierName limit window ->
  RateLimitLayer.validTime (RateLimitLayer.windowStartOf now window) = true ->
  let windowStart := RateLimitLayer.windowStartOf now window in
  let key := RateLimitLayer.windowKeyOf ctx tierName windowStart in
  let count := currentCountOf l now ctx tierName in
  let r := RateLimitLayer.redisClient l in
  let read :=
    RateLimitLayer.set_redisClient l
      (RateLimitLayer.mkRedis (RateLimitLayer.store r) (RateLimitLayer.expiry r)
         (RateLimitLayer.faults r) (S (RateLimitLayer.execs r))) in
  count = match RateLimitLayer.store r !! key with Some n => n | None => 0 end
  /\ RateLimitLayer.checkRateLimit l now ctx tierName
     = if limit <=? count then
         if RateLimitLayer.validTime (windowStart + window) then
           (RateLimitLayer.mkDecision false (RateLimitLayer.Finite 0)
              (RateLimitLayer.Finite (windowStart + window)) (Some tierName), read)
         else
           (RateLimitLayer.mkDecision true (RateLimitLayer.Finite (-1))
              (RateLimitLayer.Finite (now + window)) None, read)
       else
         (RateLimitLayer.mkDecision true (RateLimitLayer.Finite (limit - count - 1))
            (RateLimitLayer.Finite (windowStart + window)) (Some tierName),
          RateLimitLayer.set_redisClient l
            (RateLimitLayer.mkRedis (<[key := count + 1]> (RateLimitLayer.store r))
               (<[key := RateLimitLayer.ceilDiv window 1000]>
                  (RateLimitLayer.expiry r))
               (RateLimitLayer.faults r) (S (S (RateLimitLayer.execs r))))).
Proof.
  intros (Hc & Hget & Hincr) Hcfg Hv1. cbv zeta.
  pose proof (windowStart_configured l tierName limit window now Hcfg) as Hws.
  unfold currentCountOf. rewrite Hws.
  cbn [RateLimitLayer.windowKey]. split; [reflexivity |].
  unfold RateLimitLayer.checkRateLimit. rewrite Hc, Hws. cbn [negb].
  destruct Hcfg as [Hcfg _]. rewrite Hcfg.
  cbn [RateLimitLayer.windowKey RateLimitLayer.windowMs RateLimitLayer.requests
         RateLimitLayer.geq RateLimitLayer.plus].
  unfold RateLimitLayer.exec_get. rewrite Hget. rewrite Hv1. cbn [negb].
  destruct (limit <=? _);
    [destruct (RateLimitLayer.validTime
                 (RateLimitLayer.windowStartOf now window + window));
     reflexivity |].
  unfold RateLimitLayer.exec_incr_expire. cbn.
  rewrite Hincr. cbn. reflexivity.
Qed.

(** C3, as the code has it.  Take a tier that resolves to a
    configuration with a limit and a positive window length, at a time for
    which the start of the window is a date, while the counter store is
    reachable.  The decision reads the counter under
    [rate_limit:<tier>:<identity>:<window_start>], the window start being
    [floor(now / window_ms) * window_ms].  If the counter has reached the
    limit and the end of the window is a date too, the decision is
    [allowed = false], [remaining = 0],
    [resetTime = window_start + window_ms], which is later than [now], and
    the counter is left as it is; if the counter is below the limit, it is
    incremented, its expiry is set to [ceil(window_ms / 1000)] seconds, and
    the decision is [allowed = true] with
    [remaining = limit - count - 1 >= 0]. *)
Theorem rate_limit_decision (l : RateLimitLayer.t) (now : Z)
    (ctx : RateLimitLayer.Context) (tierName : string) (limit window_ms : Z) :
  reachable l ->
  configured l tierName limit window_ms ->
  RateLimitLayer.validTime (now / window_ms * window_ms) = true ->
  let window_start := now / window_ms * window_ms in
  let key :=
    "rate_limit:" +:+ tierName +:+ ":"
    +:+ match RateLimitLayer.user ctx with
        | Some u => "user:" +:+ RateLimitLayer.id u
        | None => "ip:" +:+ RateLimitLayer.clientIp ctx
        end
    +:+ ":" +:+ pretty window_start in
  let count :=
    match RateLimitLayer.store (RateLimitLayer.redisClient l) !! key with
    | Some n => n
    | None => 0
    end in
  let res := RateLimitLayer.checkRateLimit l now ctx tierName in
  (limit <= count ->
   RateLimitLayer.validTime (window_start + window_ms) = true ->
     res.1 = RateLimitLayer.mkDecision false (RateLimitLayer.Finite 0)
               (RateLimitLayer.Finite (window_start + window_ms)) (Some tierName)
     /\ now < window_start + window_ms
     /\ RateLimitLayer.store (RateLimitLayer.redisClient res.2)
        = RateLimitLayer.store (RateLimitLayer.redisClient l)
     /\ RateLimitLayer.expiry (RateLimitLayer.redisClient res.2)
        = RateLimitLayer.expiry (RateLimitLayer.redisClient l))
  /\ (count < limit ->
        res.1 = RateLimitLayer.mkDecision true
                  (RateLimitLayer.Finite (limit - count - 1))
                  (RateLimitLayer.Finite (window_start + window_ms)) (Some tierName)
        /\ 0 <= limit - count - 1
        /\ RateLimitLayer.store (RateLimitLayer.redisClient res.2)
           = <[key := count + 1]> (RateLimitLayer.store (RateLimitLayer.redisClient l))
        /\ RateLimitLayer.expiry (RateLimitLayer.redisClient res.2) !! key
           = Some (RateLimitLayer.ceilDiv window_ms 1000)
        /\ 1000 * (RateLimitLayer.ceilDiv window_ms 1000 - 1) < window_ms
           <= 1000 * RateLimitLayer.ceilDiv window_ms 1000).
Proof.
  intros Hreach Hcfg Hvalid window_start key count res.
  destruct (checkRateLimit_reachable l now ctx tierName limit window_ms
              Hreach Hcfg Hvalid) as [Hcount Hres].
  cbv zeta in Hcount, Hres.
  assert (Hkey : RateLimitLayer.windowKeyOf ctx tierName
                   (RateLimitLayer.windowStartOf now window_ms) = key).
  { subst key window_start.
    unfold RateLimitLayer.windowKeyOf, RateLimitLayer.getRateLimitKey,
      RateLimitLayer.windowStartOf.
    rewrite !append_assoc. reflexivity. }
  rewrite Hkey in Hcount, Hres. fold count in Hcount. rewrite Hcount in Hres.
  change (RateLimitLayer.windowStartOf now window_ms) with window_start in Hres.
  fold res in Hres. split.
  - intros Hle Hend. rewrite Hres, Hend.
    destruct (Z.leb_spec limit count); [| lia]. cbn.
    split; [reflexivity |]. split; [| split; reflexivity].
    apply (window_contains_now now window_ms (proj2 Hcfg)).
  - intros Hlt. rewrite Hres.
    destruct (Z.leb_spec limit count); [lia |]. cbn.
    split; [reflexivity |]. split; [lia |]. split; [reflexivity |].
    split; [apply lookup_insert_eq |].
    apply ceilDiv_spec. lia.
Qed.

Lemma rate_limit_decision_witness :
  let key := "rate_limit:basic:ip:10.0.0.7:1699999980000" in
  let fresh := sampleLimiter true ∅ noFaults in
  let full := sampleLimiter true {[ key := 100 ]} noFaults in
  (RateLimitLayer.checkRateLimit fresh 1700000012345 anonymous "basic").1
  = RateLimitLayer.mkDecision true (RateLimitLayer.Finite 99)
      (RateLimitLayer.Finite 1700000040000) (Some "basic")
  /\ RateLimitLayer.store
       (RateLimitLayer.redisClient
          (RateLimitLayer.checkRateLimit fresh 1700000012345 anonymous "basic").2)
     !! key = Some 1
  /\ (RateLimitLayer.checkRateLimit full 1700000012345 anonymous "basic").1
     = RateLimitLayer.mkDecision false (RateLimitLayer.Finite 0)
         (RateLimitLayer.Finite 1700000040000) (Some "basic").
Proof.
  intros key fresh full.
  assert (Hfresh : reachable fresh) by (repeat split).
  assert (Hfull : reachable full) by (repeat split).
  assert (Hcfg : forall l : gmap string Z,
            configured (sampleLimiter true l noFaults) "basic" 100 60000)
    by (intros l; split; [reflexivity | lia]).
  destruct (rate_limit_decision fresh 1700000012345 anonymous "basic" 100 60000
              Hfresh (Hcfg _) eq_refl) as (_ & Hallow).
  destruct (rate_limit_decision full 1700000012345 anonymous "basic" 100 60000
              Hfull (Hcfg _) eq_refl) as (Hdeny & _).
  destruct Hallow as (Hd & _ & Hs & _); [vm_compute; reflexivity |].
  destruct Hdeny as (Hd' & _); [vm_compute; discriminate | reflexivity |].
  split; [etransitivity; [exact Hd | vm_compute; reflexivity] |].
  split; [rewrite Hs; vm_compute; reflexivity |].
  etransitivity; [exact Hd' | vm_compute; reflexivity].
Defined.

(** C3 fails as stated; in each case the counter store is reachable.
    - For the tier name [constructor], which the table of tiers inherits
      from [Object.prototype], and for an unknown tier when the default
      window length is [0], the window start is [NaN] and the log call of
      the check throws: with no request counted, the decision is
      [allowed = true] with [remaining = -1], the counter is not incremented
      and no expiry is set.
    - At the last time value of a date, the end of the window is not a
      date and the log call of the denial throws: with the counter at the
      limit the decision is [allowed = true] with [remaining = -1].
    - At the first time value of a date, with a window length of 7 ms, the
      start of the window is not a date: with no request counted the
      decision is [allowed = true] with [remaining = -1] and the counter is
      not incremented.
    - With a negative window length and the counter at the limit, the
      denial has a reset time that is not later than [now]. *)
Lemma rate_limit_decision_counterexample :
  let now := 1700000012345 in
  let counters (store : gmap string Z) := RateLimitLayer.mkRedis store ∅ noFaults 0 in
  let defaulting store window :=
    RateLimitLayer.mk (counters store) true configTiers (tierOf 100 window) in
  let failOpen resetTime :=
    RateLimitLayer.mkDecision true (RateLimitLayer.Finite (-1)) resetTime None in
  let unchanged (l : RateLimitLayer.t) (res : RateLimitLayer.Decision * RateLimitLayer.t) :=
    RateLimitLayer.store (RateLimitLayer.redisClient res.2)
    = RateLimitLayer.store (RateLimitLayer.redisClient l)
    /\ RateLimitLayer.expiry (RateLimitLayer.redisClient res.2) = ∅ in
  let inherited := sampleLimiter true ∅ noFaults in
  let zero := defaulting ∅ 0 in
  let last := 8640000000000000 in
  let full :=
    sampleLimiter true {[ "rate_limit:basic:ip:10.0.0.7:8640000000000000" := 100 ]}
      noFaults in
  let seven := defaulting ∅ 7 in
  let negative :=
    defaulting {[ "rate_limit:gold:ip:10.0.0.7:1700000040000" := 100 ]} (-60000) in
  (reachable inherited
   /\ currentCountOf inherited now anonymous "constructor" = 0
   /\ (RateLimitLayer.checkRateLimit inherited now anonymous "constructor").1
      = failOpen RateLimitLayer.NaN
   /\ unchanged inherited
        (RateLimitLayer.checkRateLimit inherited now anonymous "constructor"))
  /\ (reachable zero
      /\ RateLimitLayer.getTierConfig zero "gold" = tierOf 100 0
      /\ currentCountOf zero now anonymous "gold" = 0
      /\ (RateLimitLayer.checkRateLimit zero now anonymous "gold").1
         = failOpen (RateLimitLayer.Finite now)
      /\ unchanged zero (RateLimitLayer.checkRateLimit zero now anonymous "gold"))
  /\ (reachable full
      /\ RateLimitLayer.getTierConfig full "basic" = tierOf 100 60000
      /\ currentCountOf full last anonymous "basic" = 100
      /\ (RateLimitLayer.checkRateLimit full last anonymous "basic").1
         = failOpen (RateLimitLayer.Finite (last + 60000)))
  /\ (reachable seven
      /\ RateLimitLayer.getTierConfig seven "gold" = tierOf 100 7
      /\ currentCountOf seven (- last) anonymous "gold" = 0
      /\ (RateLimitLayer.checkRateLimit seven (- last) anonymous "gold").1
         = failOpen (RateLimitLayer.Finite (- last + 7))
      /\ unchanged seven
           (RateLimitLayer.checkRateLimit seven (- last) anonymous "gold"))
  /\ (reachable negative
      /\ RateLimitLayer.getTierConfig negative "gold" = tierOf 100 (-60000)
      /\ currentCountOf negative now anonymous "gold" = 100
      /\ (RateLimitLayer.checkRateLimit negative now anonymous "gold").1
         = RateLimitLayer.mkDecision false (RateLimitLayer.Finite 0)
             (RateLimitLayer.Finite 1699999980000) (Some "gold")
      /\ 1699999980000 < now).
Proof.
  cbv zeta. repeat split; vm_compute; reflexivity.
Qed.

(** The three shapes of a decision. *)
Lemma checkRateLimit_cases (l : RateLimitLayer.t) (now : Z)
    (ctx : RateLimitLayer.Context) (tierName : string) :
  let tierConfig := RateLimitLayer.getTierConfig l tierName in
  let windowStart :=
    RateLimitLayer.windowStart now (RateLimitLayer.windowMs tierConfig) in
  let d := (RateLimitLayer.checkRateLimit l now ctx tierName).1 in
  (RateLimitLayer.allowed d = true
   /\ RateLimitLayer.remaining d = RateLimitLayer.Finite (-1)
   /\ RateLimitLayer.decided_tier d = None
   /\ (RateLimitLayer.isConnected l = false
       \/ RateLimitLayer.faults (RateLimitLayer.redisClient l)
            (RateLimitLayer.execs (RateLimitLayer.redisClient l)) <> None
       \/ RateLimitLayer.validDate windowStart = false
       \/ (RateLimitLayer.geq (currentCountOf l now ctx tierName)
             (RateLimitLayer.requests tierConfig) = true
           /\ RateLimitLayer.validDate
                (RateLimitLayer.plus windowStart
                   (RateLimitLayer.windowMs tierConfig)) = false)
       \/ (RateLimitLayer.geq (currentCountOf l now ctx tierName)
             (RateLimitLayer.requests tierConfig) = false
           /\ RateLimitLayer.faults (RateLimitLayer.redisClient l)
                (S (RateLimitLayer.execs (RateLimitLayer.redisClient l)))
              <> None)))
  \/ (RateLimitLayer.allowed d = false
      /\ RateLimitLayer.remaining d = RateLimitLayer.Finite 0
      /\ RateLimitLayer.resetTime d
         = RateLimitLayer.plus windowStart (RateLimitLayer.windowMs tierConfig)
      /\ RateLimitLayer.decided_tier d = Some tierName
      /\ RateLimitLayer.isConnected l = true
      /\ RateLimitLayer.faults (RateLimitLayer.redisClient l)
           (RateLimitLayer.execs (RateLimitLayer.redisClient l)) = None
      /\ RateLimitLayer.validDate windowStart = true
      /\ RateLimitLayer.validDate (RateLimitLayer.resetTime d) = true
      /\ exists limit,
           RateLimitLayer.requests tierConfig = RateLimitLayer.Finite limit
           /\ limit <= currentCountOf l now ctx tierName)
  \/ (RateLimitLayer.allowed d = true
      /\ RateLimitLayer.remaining d
         = RateLimitLayer.minus
             (RateLimitLayer.minus (RateLimitLayer.requests tierConfig)
                (RateLimitLayer.Finite (currentCountOf l now ctx tierName)))
             (RateLimitLayer.Finite 1)
      /\ RateLimitLayer.decided_tier d = Some tierName
      /\ RateLimitLayer.isConnected l = true
      /\ RateLimitLayer.validDate windowStart = true
      /\ RateLimitLayer.geq (currentCountOf l now ctx tierName)
           (RateLimitLayer.requests tierConfig) = false
      /\ RateLimitLayer.faults (RateLimitLayer.redisClient l)
           (RateLimitLayer.execs (RateLimitLayer.redisClient l)) = None
      /\ RateLimitLayer.faults (RateLimitLayer.redisClient l)
           (S (RateLimitLayer.execs (RateLimitLayer.redisClient l))) = None).
Proof.
  cbv zeta. unfold currentCountOf, RateLimitLayer.checkRateLimit.
  destruct (RateLimitLayer.isConnected l) eqn:Hc; cbn [negb];
    [| left; cbn; auto 6].
  unfold RateLimitLayer.exec_get.
  destruct (RateLimitLayer.faults (RateLimitLayer.redisClient l)
              (RateLimitLayer.execs (RateLimitLayer.redisClient l))) as [e |] eqn:Hget;
    [left; cbn; repeat split; right; left; discriminate |].
  destruct (RateLimitLayer.windowMs (RateLimitLayer.getTierConfig l tierName))
    as [wms | |] eqn:Hwms; cbn [RateLimitLayer.windowStart];
    try (left; cbn; repeat split; right; right; left; reflexivity).
  destruct (Z.eqb_spec wms 0) as [-> | Hne];
    [left; cbn; repeat split; right; right; left; reflexivity |].
  cbn [RateLimitLayer.windowKey RateLimitLayer.validDate RateLimitLayer.plus].
  destruct (RateLimitLayer.validTime (RateLimitLayer.windowStartOf now wms)) eqn:Hv;
    cbn [negb];
    [| left; cbn; repeat split; right; right; left; reflexivity].
  set (count := match RateLimitLayer.store (RateLimitLayer.redisClient l)
                      !! RateLimitLayer.windowKeyOf ctx tierName
                           (RateLimitLayer.windowStartOf now wms)
                with Some n => n | None => 0 end).
  destruct (RateLimitLayer.geq count
              (RateLimitLayer.requests (RateLimitLayer.getTierConfig l tierName)))
    eqn:Hgeq.
  - destruct (RateLimitLayer.validTime (RateLimitLayer.windowStartOf now wms + wms))
      eqn:Hv2; cbn [negb].
    + right. left. cbn. rewrite Hv2. repeat split.
      unfold RateLimitLayer.geq in Hgeq.
      destruct (RateLimitLayer.requests (RateLimitLayer.getTierConfig l tierName))
        as [limit | |]; try discriminate.
      exists limit. split; [reflexivity | apply Z.leb_le, Hgeq].
    + left. cbn. repeat split. right. right. right. left. split; reflexivity.
  - unfold RateLimitLayer.exec_incr_expire. cbn.
    destruct (RateLimitLayer.faults (RateLimitLayer.redisClient l)
                (S (RateLimitLayer.execs (RateLimitLayer.redisClient l))))
      as [e |] eqn:Hincr.
    + left. cbn. repeat split. right. right. right. right.
      split; [reflexivity | discriminate].
    + right. right. cbn. repeat split.
Qed.

Lemma checkRateLimit_fail_open (l : RateLimitLayer.t) (now : Z)
    (ctx : RateLimitLayer.Context) (tierName : string) :
  infrastructureFailure l now ctx tierName \/ checkThrows l now ctx tierName ->
  RateLimitLayer.allowed (RateLimitLayer.checkRateLimit l now ctx tierName).1 = true
  /\ RateLimitLayer.remaining (RateLimitLayer.checkRateLimit l now ctx tierName).1
     = RateLimitLayer.Finite (-1).
Proof.
  intros Hfail.
  destruct (checkRateLimit_cases l now ctx tierName)
    as [(Ha & Hr & _) | [Hdeny | Hallow]]; [split; assumption | exfalso ..].
  - destruct Hdeny as (_ & _ & Hreset & _ & Hc & Hget & Hv & Hv2 & limit & Hl & Hle).
    rewrite Hreset in Hv2.
    assert (Hgeq : RateLimitLayer.geq (currentCountOf l now ctx tierName)
                     (RateLimitLayer.requests
                        (RateLimitLayer.getTierConfig l tierName)) = true)
      by (rewrite Hl; apply Z.leb_le, Hle).
    destruct Hfail as [[Hd | [Hg | (_ & Hlt & _)]] | (_ & [Hw | (_ & _ & Hw)])];
      congruence.
  - destruct Hallow as (_ & _ & _ & Hc & Hv & Hgeq & Hget & Hincr).
    destruct Hfail as [[Hd | [Hg | (_ & _ & Hi)]] | (_ & [Hw | (_ & Hg & _)])];
      congruence.
Qed.

Lemma checkRateLimit_denied (l : RateLimitLayer.t) (now : Z)
    (ctx : RateLimitLayer.Context) (tierName : string) :
  RateLimitLayer.allowed (RateLimitLayer.checkRateLimit l now ctx tierName).1 = false ->
  RateLimitLayer.isConnected l = true
  /\ RateLimitLayer.faults (RateLimitLayer.redisClient l)
       (RateLimitLayer.execs (RateLimitLayer.redisClient l)) = None
  /\ exists limit,
       RateLimitLayer.requests (RateLimitLayer.getTierConfig l tierName)
       = RateLimitLayer.Finite limit
       /\ limit <= currentCountOf l now ctx tierName.
Proof.
  intros Hd.
  destruct (checkRateLimit_cases l now ctx tierName)
    as [(Ha & _) | [Hdeny | (Ha & _)]]; [congruence | | congruence].
  destruct Hdeny as (_ & _ & _ & _ & Hc & Hget & _ & _ & Hlimit).
  auto.
Qed.

(** What the middleware passes to [next] is either nothing or the 429 of
    a denied decision. *)
Lemma middleware_next (legalHeaderValue : string -> bool) (l : RateLimitLayer.t)
    (now : Z) (ctx : RateLimitLayer.Context) (tierName : string) :
  let passed := (RateLimitLayer.middleware legalHeaderValue l now ctx tierName).1 in
  let d :=
    (RateLimitLayer.checkRateLimit l now ctx
       (RateLimitLayer.userTierOf ctx tierName)).1 in
  (RateLimitLayer.middleware legalHeaderValue l now ctx tierName).2
  = (RateLimitLayer.checkRateLimit l now ctx
       (RateLimitLayer.userTierOf ctx tierName)).2
  /\ (RateLimitLayer.next passed = None
      \/ exists e,
           RateLimitLayer.next passed = Some e
           /\ RateLimitLayer.allowed d = false
           /\ err_errorCode e = Some "RATE_LIMIT_EXCEEDED"
           /\ err_statusCode e = Some 429)
  /\ (RateLimitLayer.allowed d = true -> RateLimitLayer.next passed = None).
Proof.
  cbv zeta. unfold RateLimitLayer.middleware.
  destruct (RateLimitLayer.checkRateLimit l now ctx
              (RateLimitLayer.userTierOf ctx tierName)) as [d l'].
  cbn [fst snd].
  destruct (RateLimitLayer.requests _);
    try (cbn; split; [reflexivity | split; [left; reflexivity | reflexivity]]);
    (destruct (legalHeaderValue _); cbn [negb fst snd RateLimitLayer.next];
     [| split; [reflexivity | split; [left; reflexivity | reflexivity]]]);
    (destruct (RateLimitLayer.allowed d); cbn [negb];
     [split; [reflexivity | split; [left; reflexivity | reflexivity]]
     | split; [reflexivity
              | split; [right; eexists; repeat split | discriminate]]]).
Qed.

Lemma orStr_same (s : string) : RoutingLayer.orStr (Some s) s = s.
Proof. unfold RoutingLayer.orStr. destruct (String.eqb s ""); reflexivity. Qed.

(** The middleware lets a request on exactly when the decision allows it
    or the name of the tier cannot be set as a header. *)
Lemma middleware_passes_iff (legalHeaderValue : string -> bool)
    (l : RateLimitLayer.t) (now : Z) (ctx : RateLimitLayer.Context)
    (tierName : string) :
  let userTier := RateLimitLayer.userTierOf ctx tierName in
  RateLimitLayer.next
    (RateLimitLayer.middleware legalHeaderValue l now ctx tierName).1 = None
  <-> RateLimitLayer.allowed (RateLimitLayer.checkRateLimit l now ctx userTier).1
      = true
      \/ legalHeaderValue userTier = false.
Proof.
  cbv zeta.
  pose proof (checkRateLimit_cases l now ctx (RateLimitLayer.userTierOf ctx tierName))
    as Hcases. cbv zeta in Hcases.
  unfold RateLimitLayer.middleware.
  destruct (RateLimitLayer.checkRateLimit l now ctx
              (RateLimitLayer.userTierOf ctx tierName)) as [d l'].
  cbn [fst snd] in *.
  destruct Hcases as [(Ha & _) | [Hdeny | (Ha & _)]].
  - rewrite Ha.
    destruct (RateLimitLayer.requests _); try destruct (legalHeaderValue _);
      cbn; split; auto.
  - destruct Hdeny as (Ha & _ & _ & Ht & _ & _ & _ & _ & limit & Hl & _).
    rewrite Hl, Ht, Ha, orStr_same.
    destruct (legalHeaderValue _); cbn; split;
      solve [auto | discriminate | intros [? | ?]; discriminate].
  - rewrite Ha.
    destruct (RateLimitLayer.requests _); try destruct (legalHeaderValue _);
      cbn; split; auto.
Qed.

(** C5. When the counter store is unavailable, or a step of the check
    fails or throws, the decision is [allowed = true] with [remaining = -1];
    the middleware then lets the request through, and the remaining count
    that it reports, when the tier has a limit to report, is [-1]; and
    whenever the middleware does reject a request, the store was connected,
    the counter was read, and it had reached the limit. *)
Theorem rate_limit_fail_open (legalHeaderValue : string -> bool)
    (l : RateLimitLayer.t) (now : Z)
    (ctx : RateLimitLayer.Context) (tierName : string) :
  (infrastructureFailure l now ctx tierName \/ checkThrows l now ctx tierName ->
     RateLimitLayer.allowed (RateLimitLayer.checkRateLimit l now ctx tierName).1
     = true
     /\ RateLimitLayer.remaining (RateLimitLayer.checkRateLimit l now ctx tierName).1
        = RateLimitLayer.Finite (-1))
  /\ (infrastructureFailure l now ctx (RateLimitLayer.userTierOf ctx tierName)
      \/ checkThrows l now ctx (RateLimitLayer.userTierOf ctx tierName) ->
        RateLimitLayer.next
          (RateLimitLayer.middleware legalHeaderValue l now ctx tierName).1 = None
        /\ (RateLimitLayer.requests
              (RateLimitLayer.getTierConfig l (RateLimitLayer.userTierOf ctx tierName))
            <> RateLimitLayer.Undefined ->
            RateLimitLayer.sent
              (RateLimitLayer.headers
                 (RateLimitLayer.middleware legalHeaderValue l now ctx tierName).1)
              "X-RateLimit-Remaining" = Some (JNum (-1))))
  /\ (forall e,
        RateLimitLayer.next
          (RateLimitLayer.middleware legalHeaderValue l now ctx tierName).1 = Some e ->
        RateLimitLayer.isConnected l = true
        /\ RateLimitLayer.faults (RateLimitLayer.redisClient l)
             (RateLimitLayer.execs (RateLimitLayer.redisClient l)) = None
        /\ (exists limit,
              RateLimitLayer.requests
                (RateLimitLayer.getTierConfig l
                   (RateLimitLayer.userTierOf ctx tierName))
              = RateLimitLayer.Finite limit
              /\ limit <= currentCountOf l now ctx
                            (RateLimitLayer.userTierOf ctx tierName))
        /\ err_errorCode e = Some "RATE_LIMIT_EXCEEDED"
        /\ err_statusCode e = Some 429).
Proof.
  refine (conj (checkRateLimit_fail_open l now ctx tierName) (conj _ _)).
  - intros Hfail.
    destruct (checkRateLimit_fail_open l now ctx _ Hfail) as [Ha Hr].
    destruct (middleware_next legalHeaderValue l now ctx tierName)
      as (_ & _ & Hpass).
    split; [apply Hpass, Ha |].
    unfold RateLimitLayer.middleware.
    destruct (RateLimitLayer.checkRateLimit l now ctx
                (RateLimitLayer.userTierOf ctx tierName)) as [d l'].
    cbn [fst] in Hr. intros Hlimit.
    destruct (RateLimitLayer.requests _); try contradiction;
      destruct (legalHeaderValue _); cbn; rewrite Hr; reflexivity.
  - intros e He.
    destruct (middleware_next legalHeaderValue l now ctx tierName)
      as (_ & [Hnone | (e' & He' & Hden & Hcode & Hstatus)] & _);
      [congruence |].
    rewrite He in He'. injection He' as <-.
    destruct (checkRateLimit_denied l now ctx _ Hden) as (Hc & Hg & Hlimit).
    repeat split; assumption.
Qed.

Lemma rate_limit_fail_open_witness :
  let key := "rate_limit:basic:ip:10.0.0.7:1699999980000" in
  let offline := sampleLimiter false {[ key := 100 ]} noFaults in
  let readFails := sampleLimiter true {[ key := 100 ]} (fun _ => Some socketClosed) in
  let writeFails :=
    sampleLimiter true ∅
      (fun k => match k with O => None | S _ => Some socketClosed end) in
  let noWindow :=
    RateLimitLayer.mk (RateLimitLayer.mkRedis ∅ ∅ noFaults 0) true configTiers
      (tierOf 100 0) in
  let full := sampleLimiter true {[ key := 100 ]} noFaults in
  let passes l tierName :=
    RateLimitLayer.next
      (RateLimitLayer.middleware printable l 1700000012345 anonymous tierName).1
    = None
    /\ RateLimitLayer.sent
         (RateLimitLayer.headers
            (RateLimitLayer.middleware printable l 1700000012345 anonymous
               tierName).1)
         "X-RateLimit-Remaining" = Some (JNum (-1)) in
  passes offline "basic" /\ passes readFails "basic" /\ passes writeFails "basic"
  /\ passes noWindow "gold"
  /\ (forall e,
        RateLimitLayer.next
          (RateLimitLayer.middleware printable full 1700000012345 anonymous
             "basic").1 = Some e ->
        err_statusCode e = Some 429).
Proof.
  intros key offline readFails writeFails noWindow full passes.
  assert (Hpass : forall l tierName,
            infrastructureFailure l 1700000012345 anonymous tierName
            \/ checkThrows l 1700000012345 anonymous tierName ->
            RateLimitLayer.requests (RateLimitLayer.getTierConfig l tierName)
            <> RateLimitLayer.Undefined ->
            passes l tierName).
  { intros l tierName Hfail Hlimit.
    destruct (rate_limit_fail_open printable l 1700000012345 anonymous tierName)
      as (_ & H & _).
    destruct (H Hfail) as [Hnext Hsent]. split; [exact Hnext | exact (Hsent Hlimit)]. }
  split; [| split; [| split; [| split]]].
  - apply Hpass; [left; left; reflexivity | discriminate].
  - apply Hpass; [left; right; left; discriminate | discriminate].
  - apply Hpass; [| discriminate]. left. right. right.
    split; [reflexivity |]. split; [vm_compute; reflexivity | discriminate].
  - apply Hpass; [| discriminate]. right. split; [reflexivity |].
    left. reflexivity.
  - intros e He.
    apply (rate_limit_fail_open printable full 1700000012345 anonymous "basic") in He.
    apply He.
Defined.

(** ** Error mapper *)

(** The error middleware passes an error that is already mapped (a
    [GatewayError], such as every result of [mapUpstreamError]) unchanged
    into the envelope: its status is the response status and its code,
    message, details and timestamp are the envelope's, whatever the time and
    the environment of that pass. *)
Lemma middleware_passes_mapped_error (production : bool) (now : Z)
    (requestId message : string) (statusCode : Z) (errorCode : string)
    (details : Details) (timestamp : Z) :
  ErrorHandler.middleware false production now requestId
    (GatewayError message statusCode errorCode details timestamp)
  = Sent statusCode (mkEnvelope errorCode message (Some details) requestId
                       timestamp false).
Proof. reflexivity. Qed.

Lemma mapUpstreamError_is_mapped (now : Z) (error : JsError) (serviceName : string) :
  instanceofGatewayError (ErrorHandler.mapUpstreamError now error serviceName) = true.
Proof.
  unfold ErrorHandler.mapUpstreamError.
  repeat match goal with
         | |- context [if ?b then _ else _] => destruct b
         | |- context [match ?o with Some _ => _ | None => _ end] => destruct o
         end; reflexivity.
Qed.

(** [mapUpstreamError] has no case for a [GatewayError]: whatever the
    error it is given first, a second pass yields 502 [BAD_GATEWAY] with
    the first result's message as [originalError]. *)
Lemma mapUpstreamError_twice (now now' : Z) (error : JsError) (serviceName : string) :
  ErrorHandler.mapUpstreamError now'
    (ErrorHandler.mapUpstreamError now error serviceName) serviceName
  = GatewayError ("Unknown error from service " +:+ serviceName) 502
      "BAD_GATEWAY"
      (Some [("service", JStr serviceName);
             ("originalError",
              JStr (err_message
                      (ErrorHandler.mapUpstreamError now error serviceName)))])
      now'.
Proof.
  pose proof (mapUpstreamError_is_mapped now error serviceName) as H.
  destruct (ErrorHandler.mapUpstreamError now error serviceName); [| discriminate].
  reflexivity.
Qed.

(** [mapUpstreamError], the classifier of upstream failures that
    [forwardRequest] calls, at a refused connection and at its own result:
    the first pass gives 503 [SERVICE_UNAVAILABLE], a second one would give
    502 [BAD_GATEWAY]; so would a pass over the breaker's rejection. *)
Lemma mapUpstreamError_second_pass :
  let first := ErrorHandler.mapUpstreamError 1000 refused "localhost:3001" in
  let second := ErrorHandler.mapUpstreamError 1000 first "localhost:3001" in
  let rejection :=
    ErrorHandler.handleCircuitBreakerError 1000 "localhost:3001" "open" in
  first = GatewayError "Service localhost:3001 is unavailable" 503
            "SERVICE_UNAVAILABLE"
            (Some [("service", JStr "localhost:3001");
                   ("originalError", JStr "connect ECONNREFUSED")]) 1000
  /\ second = GatewayError "Unknown error from service localhost:3001" 502
                "BAD_GATEWAY"
                (Some [("service", JStr "localhost:3001");
                       ("originalError",
                        JStr "Service localhost:3001 is unavailable")]) 1000
  /\ err_errorCode rejection = Some "CIRCUIT_BREAKER_OPEN"
  /\ ErrorHandler.mapUpstreamError 1000 rejection "localhost:3001"
     = GatewayError "Unknown error from service localhost:3001" 502
         "BAD_GATEWAY"
         (Some [("service", JStr "localhost:3001");
                ("originalError",
                 JStr "Service localhost:3001 is temporarily unavailable")]) 1000.
Proof. repeat split. Qed.

(** What [forwardRequest] throws is never a result of [mapUpstreamError]:
    its one call of the classifier is reached with [lastError = null]
    only, where reading [null.code] throws. *)
Lemma forwardRequest_throws_unmapped (config : CircuitBreaker.Config)
    (extractServiceName : string -> string) (req : Request) (route : RouteContext)
    (maxRetries : option Z) (breakers : gmap string CircuitBreaker.t) (w : World)
    (e : JsError) :
  (ForwardingLayer.forwardRequest config extractServiceName req route maxRetries
     breakers w).1.1 = Rejected e ->
  instanceofGatewayError e = false.
Proof.
  destruct (forwardRequest_single_attempt config extractServiceName req route
              maxRetries breakers w) as (_ & _ & [H | [H | H]]);
    rewrite H; [discriminate | |]; intros [= <-]; reflexivity.
Qed.

(** C9. The mapper of the error envelope is [ErrorHandler.middleware].
    The errors that the gateway has already mapped are the [GatewayError]s,
    which is what [createError], [mapUpstreamError], [handleAuthError],
    [handleRateLimitError] and [handleCircuitBreakerError] all return.  A
    pass of the mapper over such an error returns it unchanged: the response
    has the error's own status, and the envelope its own code, message,
    details and timestamp, with no stack, whatever the time and the
    environment of the pass, so that any two passes give the same envelope;
    and when the response has already started, the mapper hands the error
    on as it is. *)
Theorem error_mapper_is_idempotent :
  (forall now message statusCode errorCode details,
     instanceofGatewayError
       (ErrorHandler.createError now message statusCode errorCode details) = true)
  /\ (forall now error serviceName,
        instanceofGatewayError
          (ErrorHandler.mapUpstreamError now error serviceName) = true)
  /\ (forall now error date,
        instanceofGatewayError (ErrorHandler.handleAuthError now error date) = true)
  /\ (forall now remaining resetTime tier,
        instanceofGatewayError
          (ErrorHandler.handleRateLimitError now remaining resetTime tier) = true)
  /\ (forall now serviceName state,
        instanceofGatewayError
          (ErrorHandler.handleCircuitBreakerError now serviceName state) = true)
  /\ (forall e : JsError,
        instanceofGatewayError e = true ->
        exists message statusCode errorCode details timestamp,
          e = GatewayError message statusCode errorCode details timestamp
          /\ (forall (production : bool) (now : Z) (requestId : string),
                ErrorHandler.middleware false production now requestId e
                = Sent statusCode
                    (mkEnvelope errorCode message (Some details) requestId
                       timestamp false))
          /\ (forall (production : bool) (now : Z) (requestId : string),
                ErrorHandler.middleware true production now requestId e
                = Delegated e))
  /\ (forall (e : JsError) (production production' : bool) (now now' : Z)
             (requestId : string),
        instanceofGatewayError e = true ->
        ErrorHandler.middleware false production now requestId e
        = ErrorHandler.middleware false production' now' requestId e).
Proof.
  refine (conj _ (conj _ (conj _ (conj _ (conj _ (conj _ _)))))).
  - reflexivity.
  - apply mapUpstreamError_is_mapped.
  - intros now error date. unfold ErrorHandler.handleAuthError.
    repeat match goal with
           | |- context [if ?b then _ else _] => destruct b
           end; reflexivity.
  - reflexivity.
  - reflexivity.
  - intros [message statusCode errorCode details timestamp |]; [| discriminate].
    intros _. exists message, statusCode, errorCode, details, timestamp.
    split; [reflexivity |]. split; reflexivity.
  - intros [message statusCode errorCode details timestamp |]; [| discriminate].
    reflexivity.
Qed.

(** * Further properties of the code *)

(** ** Circuit breaker: invariants, reset and health *)

Lemma onSuccess_invariant (cb : CircuitBreaker.t) :
  CircuitBreaker.state cb <> CircuitBreaker.OPEN ->
  0 < CircuitBreaker.failureThreshold cb ->
  breakerInvariant cb ->
  breakerInvariant (CircuitBreaker.onSuccess cb)
  /\ sameParameters cb (CircuitBreaker.onSuccess cb)
  /\ CircuitBreaker.failureCount (CircuitBreaker.onSuccess cb) = 0.
Proof.
  intros Hs Ht (Hf & Hc & Ho & Hh & Hcl).
  unfold CircuitBreaker.onSuccess, CircuitBreaker.isState. cbn.
  destruct (CircuitBreaker.state cb) eqn:E; try congruence.
  - unfold breakerInvariant, sameParameters. cbn. rewrite E.
    repeat split; try lia; try discriminate.
  - cbn. destruct (Z.leb_spec 3 (CircuitBreaker.successCount cb + 1));
      unfold breakerInvariant, sameParameters; cbn; try rewrite E;
      repeat split; try lia; try discriminate.
Qed.

Lemma onFailure_invariant (cb : CircuitBreaker.t) (now : Z) :
  CircuitBreaker.state cb <> CircuitBreaker.OPEN ->
  breakerInvariant cb ->
  breakerInvariant (CircuitBreaker.onFailure cb now)
  /\ sameParameters cb (CircuitBreaker.onFailure cb now).
Proof.
  intros Hs (Hf & Hc & Ho & Hh & Hcl).
  unfold CircuitBreaker.onFailure, CircuitBreaker.isState. cbn.
  destruct (CircuitBreaker.state cb) eqn:E; try congruence.
  - destruct (Z.leb_spec (CircuitBreaker.failureThreshold cb)
                (CircuitBreaker.failureCount cb + 1));
      unfold breakerInvariant, sameParameters; cbn; try rewrite E;
      repeat split; try lia; try discriminate; eauto.
  - unfold breakerInvariant, sameParameters. cbn.
    repeat split; try lia; try discriminate; eauto.
Qed.

(** X1. A call through the breaker keeps it well formed and leaves its
    parameters alone, whatever the wrapped call does, and a breaker just
    built is well formed. *)
Theorem breaker_invariant_kept (A : Type) (cb : CircuitBreaker.t)
    (f : Async A) (w : World) :
  0 < CircuitBreaker.failureThreshold cb ->
  breakerInvariant cb ->
  breakerInvariant (CircuitBreaker.execute cb f w).1.2
  /\ sameParameters cb (CircuitBreaker.execute cb f w).1.2
  /\ (forall name config,
        0 < CircuitBreaker.cfg_failureThreshold config ->
        breakerInvariant
          (CircuitBreaker.new name CircuitBreaker.noOptions config)).
Proof.
  intros Ht Hinv.
  assert (Hnew : forall name config,
            0 < CircuitBreaker.cfg_failureThreshold config ->
            breakerInvariant
              (CircuitBreaker.new name CircuitBreaker.noOptions config)).
  { intros name config Hc. unfold breakerInvariant. cbn.
    repeat split; try lia; discriminate. }
  unfold CircuitBreaker.execute, CircuitBreaker.enter, CircuitBreaker.isState.
  destruct (CircuitBreaker.state cb) eqn:E.
  - destruct (f w) as [[a | e] w']; cbn.
    + destruct (onSuccess_invariant cb) as (H1 & H2 & _);
        [congruence | exact Ht | exact Hinv | exact (conj H1 (conj H2 Hnew))].
    + destruct (onFailure_invariant cb (clock w')) as (H1 & H2);
        [congruence | exact Hinv | exact (conj H1 (conj H2 Hnew))].
  - destruct (CircuitBreaker.beforeNextAttempt cb (clock w)); cbn.
    + split; [exact Hinv |]. split; [repeat split | exact Hnew].
    + set (cb1 := CircuitBreaker.set_successCount
                    (CircuitBreaker.set_state cb CircuitBreaker.HALF_OPEN) 0).
      assert (Hinv1 : breakerInvariant cb1).
      { destruct Hinv as (Hf & Hc & Ho & Hh & Hcl).
        unfold breakerInvariant. cbn. repeat split; try lia; discriminate. }
      assert (Hp1 : sameParameters cb cb1) by (repeat split).
      assert (Ht1 : 0 < CircuitBreaker.failureThreshold cb1) by exact Ht.
      destruct (f w) as [[a | e] w']; cbn.
      * destruct (onSuccess_invariant cb1) as (H1 & (Ha & Hb & Hc & Hd) & _);
          [discriminate | exact Ht1 | exact Hinv1 |].
        split; [exact H1 |]. split; [| exact Hnew].
        destruct Hp1 as (Ha' & Hb' & Hc' & Hd').
        repeat split; congruence.
      * destruct (onFailure_invariant cb1 (clock w')) as (H1 & (Ha & Hb & Hc & Hd));
          [discriminate | exact Hinv1 |].
        split; [exact H1 |]. split; [| exact Hnew].
        destruct Hp1 as (Ha' & Hb' & Hc' & Hd').
        repeat split; congruence.
  - destruct (f w) as [[a | e] w']; cbn.
    + destruct (onSuccess_invariant cb) as (H1 & H2 & _);
        [congruence | exact Ht | exact Hinv | exact (conj H1 (conj H2 Hnew))].
    + destruct (onFailure_invariant cb (clock w')) as (H1 & H2);
        [congruence | exact Hinv | exact (conj H1 (conj H2 Hnew))].
Qed.

Lemma breaker_invariant_kept_witness :
  let half := sampleBreaker CircuitBreaker.HALF_OPEN 2 (Some 31000) 2 in
  let w := worldAt 1000 10 ConnectionRefused in
  breakerInvariant (CircuitBreaker.execute half (returning tt) w).1.2
  /\ CircuitBreaker.state (CircuitBreaker.execute half (returning tt) w).1.2
     = CircuitBreaker.CLOSED.
Proof.
  intros half w. split; [| reflexivity].
  apply (breaker_invariant_kept unit half (returning tt) w).
  - simpl. lia.
  - unfold breakerInvariant. simpl.
    repeat split; try lia; try discriminate; eauto.
Defined.

Lemma closed_failures_below {A : Type} (fs : list (Async A)) :
  forall (cb : CircuitBreaker.t) (w : World),
  CircuitBreaker.state cb = CircuitBreaker.CLOSED ->
  CircuitBreaker.failureCount cb + Z.of_nat (length fs)
  < CircuitBreaker.failureThreshold cb ->
  Forall fails fs ->
  CircuitBreaker.state (calls cb fs w).1 = CircuitBreaker.CLOSED
  /\ CircuitBreaker.failureCount (calls cb fs w).1
     = CircuitBreaker.failureCount cb + Z.of_nat (length fs).
Proof.
  induction fs as [| f fs IH]; intros cb w Hs Hlt Hall.
  - cbn. split; [exact Hs | lia].
  - apply Forall_cons in Hall as [Hf Hall].
    cbn [calls]. rewrite execute_not_open by congruence.
    rewrite (complete_fails _ _ _ Hf).
    cbn [length] in Hlt.
    rewrite onFailure_closed_below by (assumption || lia).
    set (cb1 := CircuitBreaker.set_lastFailureTime _ _).
    destruct (IH cb1 (f w).2) as [H1 H2]; [exact Hs | cbn; lia | exact Hall |].
    split; [exact H1 |]. rewrite H2. cbn [length]. cbn. lia.
Qed.

(** X2. A success clears the failures counted so far: after it, a closed
    breaker stays closed through any run of fewer consecutive failures than
    its threshold, however many failures came before the success. *)
Theorem success_clears_failures (A : Type) (cb : CircuitBreaker.t)
    (f : Async A) (fs : list (Async A)) (w : World) :
  CircuitBreaker.state cb = CircuitBreaker.CLOSED ->
  succeeds f ->
  Forall fails fs ->
  Z.of_nat (length fs) < CircuitBreaker.failureThreshold cb ->
  CircuitBreaker.state (calls cb (f :: fs) w).1 = CircuitBreaker.CLOSED
  /\ CircuitBreaker.failureCount (calls cb (f :: fs) w).1 = Z.of_nat (length fs).
Proof.
  intros Hs Hf Hall Hlt. cbn [calls].
  rewrite execute_not_open by congruence.
  rewrite (complete_succeeds _ _ _ Hf).
  assert (H0 : CircuitBreaker.failureCount (CircuitBreaker.onSuccess cb) = 0).
  { unfold CircuitBreaker.onSuccess, CircuitBreaker.isState. cbn.
    rewrite Hs. reflexivity. }
  assert (Hp : CircuitBreaker.failureThreshold (CircuitBreaker.onSuccess cb)
               = CircuitBreaker.failureThreshold cb).
  { unfold CircuitBreaker.onSuccess, CircuitBreaker.isState. cbn.
    rewrite Hs. reflexivity. }
  destruct (closed_failures_below fs (CircuitBreaker.onSuccess cb) (f w).2)
    as [H1 H2];
    [apply onSuccess_closed, Hs | rewrite H0, Hp; lia | exact Hall |].
  split; [exact H1 | rewrite H2, H0; lia].
Qed.

Lemma success_clears_failures_witness :
  let almost := sampleBreaker CircuitBreaker.CLOSED 1 None 0 in
  let w := worldAt 1000 10 ConnectionRefused in
  let bad : Async unit := throwing refused in
  CircuitBreaker.state (calls almost [returning tt; bad] w).1
  = CircuitBreaker.CLOSED
  /\ CircuitBreaker.state (calls almost [bad] w).1 = CircuitBreaker.OPEN.
Proof.
  intros almost w bad. split; [| reflexivity].
  apply (success_clears_failures unit almost (returning tt) [bad] w).
  - reflexivity.
  - intros w'. eexists. reflexivity.
  - repeat constructor. intros w'. eexists. reflexivity.
  - simpl. lia.
Defined.

(** X3. Resetting the breaker of a service that the layer knows puts it
    back in the state of a breaker just built, with its parameters kept, so
    that the next call is passed to the wrapped function even if the breaker
    was open and its time of next attempt had not come; the breakers of the
    other services are untouched.  For a service that the layer does not
    know the answer is [false] and nothing changes. *)
Theorem reset_readmits_calls (breakers : gmap string CircuitBreaker.t)
    (name : string) :
  (forall cb : CircuitBreaker.t,
     breakers !! name = Some cb ->
     (ForwardingLayer.resetCircuitBreaker breakers name).1 = true
     /\ (ForwardingLayer.resetCircuitBreaker breakers name).2 !! name
        = Some (CircuitBreaker.new (CircuitBreaker.serviceName cb)
                  CircuitBreaker.noOptions
                  (CircuitBreaker.mkConfig (CircuitBreaker.failureThreshold cb)
                     (CircuitBreaker.recoveryTimeout cb)
                     (CircuitBreaker.monitorTimeout cb)))
     /\ (forall (A : Type) (f : Async A) (w : World),
           CircuitBreaker.execute (CircuitBreaker.reset cb) f w
           = CircuitBreaker.complete (CircuitBreaker.reset cb) (f w))
     /\ (forall other, other <> name ->
           (ForwardingLayer.resetCircuitBreaker breakers name).2 !! other
           = breakers !! other))
  /\ (breakers !! name = None ->
      ForwardingLayer.resetCircuitBreaker breakers name = (false, breakers)).
Proof.
  unfold ForwardingLayer.resetCircuitBreaker. split.
  - intros cb Hcb. rewrite Hcb. cbn [fst snd].
    split; [reflexivity |]. split.
    + rewrite lookup_insert_eq. reflexivity.
    + split.
      * intros A f w. apply execute_not_open. discriminate.
      * intros other Hne. apply lookup_insert_ne. congruence.
  - intros Hnone. rewrite Hnone. reflexivity.
Qed.

Lemma reset_readmits_calls_witness :
  let opened := sampleBreaker CircuitBreaker.OPEN 2 (Some 31000) 0 in
  let table : gmap string CircuitBreaker.t := {[ "svc:9" := opened ]} in
  let w := worldAt 1000 10 (HttpResponse (sampleResponse 200)) in
  (ForwardingLayer.resetCircuitBreaker table "svc:9").1 = true
  /\ ForwardingLayer.resetCircuitBreaker table "other:80" = (false, table)
  /\ (CircuitBreaker.execute opened (returning tt) w).1.1
     = Rejected (ErrorHandler.handleCircuitBreakerError 1000 "svc:9" "open")
  /\ (CircuitBreaker.execute (CircuitBreaker.reset opened) (returning tt) w).1.1
     = Resolved tt.
Proof.
  intros opened table w.
  destruct (reset_readmits_calls table "svc:9") as [Hknown _].
  destruct (reset_readmits_calls table "other:80") as [_ Hunknown].
  destruct (Hknown opened) as (H1 & _ & H3 & _); [reflexivity |].
  split; [exact H1 |]. split; [apply Hunknown; reflexivity |].
  split; [reflexivity |]. rewrite H3. reflexivity.
Defined.

(** X4. The health report names exactly the services whose breaker is
    open; the layer is healthy exactly when no breaker is open, a half-open
    breaker counting as healthy; and the number of services is the size of
    the table. *)
Theorem health_reports_open_breakers (breakers : gmap string CircuitBreaker.t) :
  (forall name : string,
     name ∈ ForwardingLayer.unhealthyServices
              (ForwardingLayer.getHealthStatus breakers)
     <-> exists cb, breakers !! name = Some cb
                    /\ CircuitBreaker.state cb = CircuitBreaker.OPEN)
  /\ (ForwardingLayer.healthy (ForwardingLayer.getHealthStatus breakers) = true
      <-> forall name cb, breakers !! name = Some cb ->
            CircuitBreaker.state cb <> CircuitBreaker.OPEN)
  /\ ForwardingLayer.totalServices (ForwardingLayer.getHealthStatus breakers)
     = size breakers.
Proof.
  assert (Hopen : forall cb,
            CircuitBreaker.isState cb CircuitBreaker.OPEN = true
            <-> CircuitBreaker.state cb = CircuitBreaker.OPEN).
  { intros cb. unfold CircuitBreaker.isState.
    destruct (CircuitBreaker.state cb); split; congruence. }
  assert (Hmem : forall name : string,
            name ∈ ForwardingLayer.unhealthyServices
                     (ForwardingLayer.getHealthStatus breakers)
            <-> exists cb, breakers !! name = Some cb
                           /\ CircuitBreaker.state cb = CircuitBreaker.OPEN).
  { intros name. unfold ForwardingLayer.getHealthStatus. cbn.
    rewrite elem_of_dom. split.
    - intros [cb Hcb]. apply map_lookup_filter_Some in Hcb as [Hl Hp].
      exists cb. split; [exact Hl | apply Hopen, Hp].
    - intros (cb & Hl & Hs). exists cb.
      apply map_lookup_filter_Some. split; [exact Hl | apply Hopen, Hs]. }
  split; [exact Hmem |]. split; [| reflexivity].
  change (ForwardingLayer.healthy (ForwardingLayer.getHealthStatus breakers))
    with (Nat.eqb (size (ForwardingLayer.unhealthyServices
                           (ForwardingLayer.getHealthStatus breakers))) 0).
  rewrite Nat.eqb_eq, size_empty_iff. split.
  - intros Hempty name cb Hl Hs.
    assert (Hin : name ∈ ForwardingLayer.unhealthyServices
                            (ForwardingLayer.getHealthStatus breakers))
      by (apply Hmem; eauto).
    rewrite Hempty in Hin. set_solver.
  - intros Hall. apply elem_of_equiv_empty. intros name Hin.
    apply Hmem in Hin as (cb & Hl & Hs). exact (Hall name cb Hl Hs).
Qed.

(** X5. Forwarding a request changes the breaker of the route's service
    only: afterwards the table has a breaker for that service, and the entry
    of every other service is what it was. *)
Theorem forwarding_touches_one_breaker (config : CircuitBreaker.Config)
    (extractServiceName : string -> string) (scope : list string)
    (req : Request) (route : RouteContext) (maxRetries : option Z)
    (breakers : gmap string CircuitBreaker.t) (w : World) (other : string) :
  other <> extractServiceName (ctx_target route) ->
  (ForwardingLayer.forwardWith config extractServiceName scope req route
     maxRetries breakers w).1.2 !! other = breakers !! other
  /\ is_Some ((ForwardingLayer.forwardWith config extractServiceName scope req
                 route maxRetries breakers w).1.2
              !! extractServiceName (ctx_target route)).
Proof.
  intros Hne. unfold ForwardingLayer.forwardWith, ForwardingLayer.getCircuitBreaker.
  destruct (breakers !! extractServiceName (ctx_target route)) as [cb |] eqn:E.
  - destruct (ForwardingLayer.attempts _ _ _ _ _ _ _ _ _ _) as [[r cb1] w1].
    cbn [fst snd]. split.
    + apply lookup_insert_ne. congruence.
    + rewrite lookup_insert_eq. eauto.
  - destruct (ForwardingLayer.attempts _ _ _ _ _ _ _ _ _ _) as [[r cb1] w1].
    cbn [fst snd]. split.
    + rewrite !lookup_insert_ne by congruence. reflexivity.
    + rewrite lookup_insert_eq. eauto.
Qed.

Lemma forwarding_touches_one_breaker_witness :
  let opened := sampleBreaker CircuitBreaker.OPEN 2 (Some 31000) 0 in
  let table : gmap string CircuitBreaker.t := {[ "svc:9" := opened ]} in
  (ForwardingLayer.forwardRequest sampleConfig sampleService sampleRequest
     sampleRoute None table (worldAt 0 10 ConnectionRefused)).1.2 !! "svc:9"
  = Some opened.
Proof.
  intros opened table.
  destruct (forwarding_touches_one_breaker sampleConfig sampleService
              ForwardingLayer.catch_scope sampleRequest sampleRoute None table
              (worldAt 0 10 ConnectionRefused) "svc:9") as [H _];
    [discriminate |].
  unfold ForwardingLayer.forwardRequest. rewrite H. reflexivity.
Defined.

(** X6. With a negative [retries], which a route of the configuration can
    have since only added routes are validated, the loop body never runs:
    no upstream call is made, the world is as before, and the function
    throws the [TypeError] of reading [null.code], which the error
    middleware answers with 500 [INTERNAL_SERVER_ERROR]. *)
Theorem negative_retries_throw (config : CircuitBreaker.Config)
    (extractServiceName : string -> string) (scope : list string)
    (req : Request) (route : RouteContext)
    (breakers : gmap string CircuitBreaker.t) (w : World) :
  ctx_retries route < 0 ->
  let res := ForwardingLayer.forwardWith config extractServiceName scope req
               route None breakers w in
  res.1.1 = Rejected (OtherError "TypeError"
                        "Cannot read properties of null (reading 'code')"
                        None None None None)
  /\ res.2 = w
  /\ (forall e now, res.1.1 = Rejected e ->
        exists body,
          ErrorHandler.middleware false true now (req_requestId req) e
          = Sent 500 body
          /\ env_error body = "INTERNAL_SERVER_ERROR").
Proof.
  intros Hneg res.
  assert (Hres : res.1.1 = Rejected (OtherError "TypeError"
                        "Cannot read properties of null (reading 'code')"
                        None None None None) /\ res.2 = w).
  { subst res. unfold ForwardingLayer.forwardWith.
    destruct (ForwardingLayer.getCircuitBreaker config breakers
                (extractServiceName (ctx_target route))) as [cb breakers'].
    replace (Z.to_nat (ctx_retries route + 1)) with 0%nat by lia.
    cbn. split; reflexivity. }
  destruct Hres as [H1 H2]. split; [exact H1 |]. split; [exact H2 |].
  intros e now He. rewrite H1 in He. injection He as <-.
  eexists. split; reflexivity.
Qed.

Lemma negative_retries_throw_witness :
  let route := mkRouteContext "http://localhost:3001" "http://localhost:3001/"
                 5000 (-1) in
  let res :=
    ForwardingLayer.forwardRequest sampleConfig sampleService sampleRequest
      route None ∅ (worldAt 0 10 (HttpResponse (sampleResponse 200))) in
  res.1.1 = Rejected (OtherError "TypeError"
                        "Cannot read properties of null (reading 'code')"
                        None None None None)
  /\ dispatched res.2 = 0%nat.
Proof.
  intros route res.
  destruct (negative_retries_throw sampleConfig sampleService
              ForwardingLayer.catch_scope sampleRequest route ∅
              (worldAt 0 10 (HttpResponse (sampleResponse 200))))
    as (H1 & H2 & _); [simpl; lia |].
  split; [exact H1 |].
  subst res. unfold ForwardingLayer.forwardRequest. rewrite H2. reflexivity.
Defined.

(** ** Route table: alignment, additions and removals *)

Lemma filter_compiled (pathToRegexp : string -> string -> option RoutingLayer.Match)
    (p : string) (rs : list RoutingLayer.Route) :
  List.filter (fun r => negb (String.eqb (RoutingLayer.originalPath r) p))
    (map (RoutingLayer.compile pathToRegexp) rs)
  = map (RoutingLayer.compile pathToRegexp)
      (List.filter (fun r => negb (String.eqb (RoutingLayer.path r) p)) rs).
Proof.
  induction rs as [| r rs IH]; [reflexivity |].
  cbn. destruct (negb (String.eqb (RoutingLayer.path r) p)); cbn; rewrite IH;
    reflexivity.
Qed.

(** X7. The table of compiled routes stays aligned with the table of
    routes as long as no pattern is refused: it is aligned when
    [initializeRoutes] returns, [removeRoute] keeps it so, and so does
    [addRoute] when it refuses a configuration or accepts the pattern.  A
    pattern that the compiler refuses breaks the alignment: [addRoute]
    throws after it has pushed the route, which stays in the table of routes
    without a compiled entry, so no request resolves to it; removing its
    path restores the alignment. *)
Theorem route_tables_stay_aligned
    (pathToRegexp : string -> string -> option RoutingLayer.Match)
    (pathToRegexp_throws : string -> option JsError)
    (pathKeys : string -> list string)
    (isValidUrl : string -> bool) :
  (forall cs st,
     RoutingLayer.initializeRoutes pathToRegexp pathToRegexp_throws cs = Resolved st ->
     aligned pathToRegexp st)
  /\ (forall now st c,
        aligned pathToRegexp st ->
        RoutingLayer.validateRoute isValidUrl c <> []
        \/ pathToRegexp_throws (RoutingLayer.c_path c) = None ->
        aligned pathToRegexp
          (RoutingLayer.addRoute pathToRegexp pathToRegexp_throws isValidUrl now
             st c).2)
  /\ (forall now st c error,
        aligned pathToRegexp st ->
        RoutingLayer.validateRoute isValidUrl c = [] ->
        pathToRegexp_throws (RoutingLayer.c_path c) = Some error ->
        let added :=
          RoutingLayer.addRoute pathToRegexp pathToRegexp_throws isValidUrl now
            st c in
        added
        = (Rejected error,
           RoutingLayer.mkState
             (RoutingLayer.routes st ++ [RoutingLayer.normalize c])
             (RoutingLayer.compiledRoutes st))
        /\ ~ aligned pathToRegexp added.2
        /\ (forall req,
              RoutingLayer.findRoute pathToRegexp pathKeys
                (RoutingLayer.compiledRoutes added.2) req
              = RoutingLayer.findRoute pathToRegexp pathKeys
                  (RoutingLayer.compiledRoutes st) req)
        /\ aligned pathToRegexp
             (RoutingLayer.removeRoute added.2 (RoutingLayer.c_path c)).2)
  /\ (forall st p,
        aligned pathToRegexp st ->
        aligned pathToRegexp (RoutingLayer.removeRoute st p).2).
Proof.
  assert (Hremove : forall st p,
            aligned pathToRegexp st ->
            aligned pathToRegexp (RoutingLayer.removeRoute st p).2).
  { unfold aligned. intros st p Hst. unfold RoutingLayer.removeRoute. cbn.
    rewrite Hst. apply filter_compiled. }
  refine (conj _ (conj _ (conj _ Hremove))).
  - intros cs st Hinit. apply initializeRoutes_returns in Hinit as ->.
    reflexivity.
  - unfold aligned. intros now st c Hst Hcase. unfold RoutingLayer.addRoute.
    destruct (RoutingLayer.validateRoute isValidUrl c) as [| e es]; cbn;
      [| exact Hst].
    destruct Hcase as [Hno | Hok]; [contradiction |].
    change (RoutingLayer.path (RoutingLayer.normalize c)) with (RoutingLayer.c_path c).
    rewrite Hok. cbn. rewrite Hst, map_app. reflexivity.
  - intros now st c error Hst Hv Hthrow added.
    assert (Hadded : added
                     = (Rejected error,
                        RoutingLayer.mkState
                          (RoutingLayer.routes st ++ [RoutingLayer.normalize c])
                          (RoutingLayer.compiledRoutes st))).
    { subst added. unfold RoutingLayer.addRoute. rewrite Hv.
      change (RoutingLayer.path (RoutingLayer.normalize c))
        with (RoutingLayer.c_path c).
      rewrite Hthrow. reflexivity. }
    rewrite Hadded. cbn [snd RoutingLayer.compiledRoutes].
    split; [reflexivity |]. split; [| split; [reflexivity |]].
    + unfold aligned. cbn. intros Heq.
      apply (f_equal (@length _)) in Heq.
      rewrite Hst, !length_map, length_app in Heq. cbn in Heq. lia.
    + unfold aligned in *. unfold RoutingLayer.removeRoute. cbn.
      rewrite List.filter_app. cbn [List.filter].
      change (RoutingLayer.path (RoutingLayer.normalize c))
        with (RoutingLayer.c_path c).
      rewrite String.eqb_refl. cbn [negb]. rewrite app_nil_r.
      rewrite Hst. apply filter_compiled.
Qed.

Lemma route_tables_stay_aligned_witness :
  let odd := routeTo "/api/reports/:" "http://localhost:3005" None in
  let added := RoutingLayer.addRoute exactMatch missingName anyUrl 7 configState odd in
  RoutingLayer.initializeRoutes exactMatch missingName configRoutes
  = Resolved configState
  /\ aligned exactMatch configState
  /\ aligned exactMatch (RoutingLayer.removeRoute configState "/api/auth").2
  /\ (exists error, added.1 = Rejected error)
  /\ map RoutingLayer.path (RoutingLayer.routes added.2)
     = ["/api/users"; "/api/auth"; "/api/products"; "/api/orders";
        "/api/reports/:"]
  /\ length (RoutingLayer.compiledRoutes added.2) = 4%nat
  /\ ~ aligned exactMatch added.2
  /\ (RoutingLayer.removeRoute added.2 "/api/reports/:").2 = configState.
Proof.
  intros odd added.
  destruct (route_tables_stay_aligned exactMatch missingName paramKeys anyUrl)
    as (Hinit & _ & Hthrow & Hremove).
  assert (Hstart : RoutingLayer.initializeRoutes exactMatch missingName configRoutes
                   = Resolved configState) by reflexivity.
  pose proof (Hinit _ _ Hstart) as Hal.
  destruct (Hthrow 7 configState odd
              (OtherError "TypeError" "Missing parameter name" None None None None)
              Hal eq_refl eq_refl) as (Hadded & Hmis & _ & _).
  split; [exact Hstart |]. split; [exact Hal |].
  split; [apply Hremove, Hal |].
  split; [eexists; reflexivity |].
  split; [reflexivity |]. split; [reflexivity |].
  split; [exact Hmis | reflexivity].
Defined.

Lemma findRoute_app (pathToRegexp : string -> string -> option RoutingLayer.Match)
    (pathKeys : string -> list string)
    (rs rs' : list RoutingLayer.CompiledRoute) (req : Request) :
  RoutingLayer.findRoute pathToRegexp pathKeys (rs ++ rs') req
  = match RoutingLayer.findRoute pathToRegexp pathKeys rs req with
    | Some m => Some m
    | None => RoutingLayer.findRoute pathToRegexp pathKeys rs' req
    end.
Proof.
  induction rs as [| r rs IH]; [reflexivity |].
  cbn [app RoutingLayer.findRoute].
  destruct (negb _); [exact IH |].
  destruct (RoutingLayer.regexp r (req_path req)); [reflexivity | exact IH].
Qed.

(** X8. Adding a route never changes how a request that already resolved
    is resolved: the new route is consulted only by the requests that no
    earlier route takes, so a route added for a path and method that an
    existing route serves is never selected. *)
Theorem added_route_is_last
    (pathToRegexp : string -> string -> option RoutingLayer.Match)
    (pathToRegexp_throws : string -> option JsError)
    (pathKeys : string -> list string) (isValidUrl : string -> bool)
    (now : Z) (st st' : RoutingLayer.State) (c : RoutingLayer.RouteConfig)
    (r : RoutingLayer.Route) (req : Request) :
  RoutingLayer.addRoute pathToRegexp pathToRegexp_throws isValidUrl now st c
  = (Resolved r, st') ->
  (forall m,
     RoutingLayer.findRoute pathToRegexp pathKeys
       (RoutingLayer.compiledRoutes st) req = Some m ->
     RoutingLayer.findRoute pathToRegexp pathKeys
       (RoutingLayer.compiledRoutes st') req = Some m)
  /\ (RoutingLayer.findRoute pathToRegexp pathKeys
        (RoutingLayer.compiledRoutes st) req = None ->
      RoutingLayer.findRoute pathToRegexp pathKeys
        (RoutingLayer.compiledRoutes st') req
      = RoutingLayer.findRoute pathToRegexp pathKeys
          [RoutingLayer.compile pathToRegexp r] req).
Proof.
  unfold RoutingLayer.addRoute.
  destruct (RoutingLayer.validateRoute isValidUrl c); [| discriminate].
  destruct (pathToRegexp_throws _); [discriminate |].
  intros [= <- <-]. cbn [RoutingLayer.compiledRoutes].
  split.
  - intros m Hm. rewrite findRoute_app, Hm. reflexivity.
  - intros Hnone. rewrite findRoute_app, Hnone. reflexivity.
Qed.

Lemma added_route_is_last_witness :
  let st := configState in
  let c := RoutingLayer.mkRouteConfig "/api/users" "http://localhost:4000"
             None None None None (Some ["GET"]) None None None in
  let added := RoutingLayer.addRoute exactMatch acceptsAll anyUrl 7 st c in
  let req := mkRequest "GET" "/api/users" [] "req-1" in
  exists m,
    RoutingLayer.findRoute exactMatch paramKeys
      (RoutingLayer.compiledRoutes added.2) req = Some m
    /\ RoutingLayer.target (RoutingLayer.route (RoutingLayer.rm_route m))
       = "http://localhost:3001".
Proof.
  intros st c added req.
  destruct (RoutingLayer.findRoute exactMatch paramKeys
              (RoutingLayer.compiledRoutes st) req) as [m |] eqn:Hm;
    [| discriminate].
  exists m. split.
  - apply (added_route_is_last exactMatch acceptsAll paramKeys anyUrl 7 st
             added.2 c (RoutingLayer.normalize c) req); [reflexivity | exact Hm].
  - vm_compute in Hm. injection Hm as <-. reflexivity.
Defined.

Lemma filter_all_kept {A : Type} (f : A -> bool) (l : list A) :
  Forall (fun x => f x = true) l -> List.filter f l = l.
Proof.
  induction 1 as [| x l Hx _ IH]; [reflexivity |].
  cbn. rewrite Hx, IH. reflexivity.
Qed.

Lemma filter_shorter {A : Type} (f : A -> bool) (l : list A) :
  (length (List.filter f l) <= length l)%nat
  /\ ((length (List.filter f l) < length l)%nat <-> exists x, In x l /\ f x = false).
Proof.
  induction l as [| x l [IH1 IH2]]; cbn.
  - split; [lia |]. split; [lia | intros (x & [] & _)].
  - destruct (f x) eqn:E; cbn.
    + split; [lia |]. rewrite <- Nat.succ_lt_mono, IH2. split.
      * intros (y & Hy & Hf). exists y. auto.
      * intros (y & [<- | Hy] & Hf); [congruence | exists y; auto].
    + split; [lia |]. split; [| lia]. intros _. exists x. auto.
Qed.

(** X9. [removeRoute] removes every route of the given path, whatever
    its methods: afterwards no request resolves to a route of that path; it
    answers [true] exactly when the table had such a route, and leaves an
    aligned table without one as it is; and removing the path of a route
    just added to a table that had none of that path gives the table
    back. *)
Theorem removed_path_is_gone
    (pathToRegexp : string -> string -> option RoutingLayer.Match)
    (pathToRegexp_throws : string -> option JsError)
    (pathKeys : string -> list string) (isValidUrl : string -> bool)
    (st : RoutingLayer.State) (p : string) :
  aligned pathToRegexp st ->
  (forall req m,
     RoutingLayer.findRoute pathToRegexp pathKeys
       (RoutingLayer.compiledRoutes (RoutingLayer.removeRoute st p).2) req
     = Some m ->
     RoutingLayer.originalPath (RoutingLayer.rm_route m) <> p)
  /\ ((RoutingLayer.removeRoute st p).1 = true
      <-> exists r, In r (RoutingLayer.routes st) /\ RoutingLayer.path r = p)
  /\ ((RoutingLayer.removeRoute st p).1 = false ->
      (RoutingLayer.removeRoute st p).2 = st)
  /\ (forall now c,
        RoutingLayer.c_path c = p ->
        RoutingLayer.validateRoute isValidUrl c = [] ->
        (RoutingLayer.removeRoute st p).1 = false ->
        RoutingLayer.removeRoute
          (RoutingLayer.addRoute pathToRegexp pathToRegexp_throws isValidUrl now
             st c).2 p
        = (true, st)).
Proof.
  intros Hal.
  set (keep := fun r : RoutingLayer.Route =>
                 negb (String.eqb (RoutingLayer.path r) p)).
  assert (Hflag : (RoutingLayer.removeRoute st p).1 = true
                  <-> exists r, In r (RoutingLayer.routes st)
                                /\ RoutingLayer.path r = p).
  { unfold RoutingLayer.removeRoute. cbn [fst].
    rewrite Nat.ltb_lt.
    destruct (filter_shorter keep (RoutingLayer.routes st)) as [Hle Hlt].
    fold keep. split.
    - intros H. destruct Hlt as [Hlt _].
      destruct Hlt as (r & Hin & Hf); [lia |].
      exists r. split; [exact Hin |].
      unfold keep in Hf. apply negb_false_iff, String.eqb_eq in Hf. exact Hf.
    - intros (r & Hin & Hp). destruct Hlt as [_ Hlt].
      assert (length (List.filter keep (RoutingLayer.routes st))
              < length (RoutingLayer.routes st))%nat; [| lia].
      apply Hlt. exists r. split; [exact Hin |].
      unfold keep. rewrite Hp, String.eqb_refl. reflexivity. }
  assert (Hsame : (RoutingLayer.removeRoute st p).1 = false ->
                  (RoutingLayer.removeRoute st p).2 = st).
  { intros Hf.
    assert (Hall : Forall (fun r => keep r = true) (RoutingLayer.routes st)).
    { apply List.Forall_forall. intros r Hin.
      destruct (keep r) eqn:E; [reflexivity |]. exfalso.
      assert ((RoutingLayer.removeRoute st p).1 = true); [| congruence].
      apply Hflag. exists r. split; [exact Hin |].
      unfold keep in E. apply negb_false_iff, String.eqb_eq in E. exact E. }
    unfold RoutingLayer.removeRoute. cbn [snd].
    unfold aligned in Hal. rewrite Hal, filter_compiled. fold keep.
    rewrite (filter_all_kept keep _ Hall), <- Hal.
    destruct st; reflexivity. }
  refine (conj _ (conj Hflag (conj Hsame _))).
  - intros req m Hm.
    destruct (findRoute_first pathToRegexp pathKeys _ _ _ Hm)
      as (pre & post & Hsplit & _).
    assert (Hin : In (RoutingLayer.rm_route m)
                    (RoutingLayer.compiledRoutes (RoutingLayer.removeRoute st p).2)).
    { rewrite Hsplit. apply in_or_app. right. left. reflexivity. }
    unfold RoutingLayer.removeRoute in Hin. cbn [snd RoutingLayer.compiledRoutes] in Hin.
    apply filter_In in Hin as [_ Hk].
    apply negb_true_iff, String.eqb_neq in Hk. exact Hk.
  - intros now c Hp Hv Hf.
    unfold RoutingLayer.addRoute. rewrite Hv.
    pose proof (Hsame Hf) as Hst. clear Hsame Hflag Hf Hal.
    destruct st as [rts crs].
    unfold RoutingLayer.removeRoute in Hst.
    cbn [snd RoutingLayer.routes RoutingLayer.compiledRoutes] in Hst.
    injection Hst as Hr Hc.
    destruct (pathToRegexp_throws _); cbn [snd];
      unfold RoutingLayer.removeRoute;
      cbn [RoutingLayer.routes RoutingLayer.compiledRoutes];
      rewrite ?List.filter_app; cbn [List.filter];
      cbn [RoutingLayer.originalPath RoutingLayer.compile RoutingLayer.path
             RoutingLayer.normalize];
      rewrite Hp, String.eqb_refl; cbn [negb];
      rewrite ?app_nil_r, Hr, Hc, length_app; cbn [length];
      replace (length rts + 1 - length rts)%nat with 1%nat by lia;
      reflexivity.
Qed.

Lemma removed_path_is_gone_witness :
  let st := configState in
  let c := routeTo "/api/reports" "http://localhost:3005" None in
  (RoutingLayer.removeRoute st "/api/auth").1 = true
  /\ RoutingLayer.findRoute exactMatch paramKeys
       (RoutingLayer.compiledRoutes (RoutingLayer.removeRoute st "/api/auth").2)
       (mkRequest "POST" "/api/auth" [] "req-1") = None
  /\ RoutingLayer.removeRoute
       (RoutingLayer.addRoute exactMatch acceptsAll anyUrl 7 st c).2
       "/api/reports" = (true, st).
Proof.
  intros st c.
  assert (Hal : aligned exactMatch st) by reflexivity.
  destruct (removed_path_is_gone exactMatch acceptsAll paramKeys anyUrl st
              "/api/auth" Hal) as (_ & Hflag & _ & _).
  destruct (removed_path_is_gone exactMatch acceptsAll paramKeys anyUrl st
              "/api/reports" Hal) as (_ & _ & _ & Hround).
  split.
  - apply Hflag. eexists. split; [right; left; reflexivity | reflexivity].
  - split; [reflexivity |].
    apply (Hround 7 c); reflexivity.
Defined.

Lemma includes_In (xs : list string) (x : string) : includes xs x = true <-> In x xs.
Proof.
  unfold includes. rewrite existsb_exists. split.
  - intros (y & Hy & He). apply String.eqb_eq in He. subst y. exact Hy.
  - intros Hin. exists x. split; [exact Hin | apply String.eqb_refl].
Qed.

Lemma validateRoute_accepts (isValidUrl : string -> bool)
    (c : RoutingLayer.RouteConfig) :
  RoutingLayer.validateRoute isValidUrl c = [] <-> acceptable isValidUrl c.
Proof.
  unfold RoutingLayer.validateRoute, acceptable.
  rewrite !app_nil.
  assert (Hm : match RoutingLayer.c_methods c with
               | Some ms =>
                   match filter (fun m => includes RoutingLayer.validMethods m = false) ms with
                   | [] => []
                   | invalid => ["Invalid HTTP methods: " +:+ joinWith ", " invalid]
                   end
               | None => []
               end = []
               <-> forall ms m, RoutingLayer.c_methods c = Some ms -> In m ms ->
                     In m RoutingLayer.validMethods).
  { destruct (RoutingLayer.c_methods c) as [ms |]; [| split; [discriminate | reflexivity]].
    destruct (filter _ ms) as [| bad rest] eqn:Hf.
    - split; [| reflexivity]. intros _ ms' m [= <-] Hin.
      apply includes_In.
      destruct (includes RoutingLayer.validMethods m) eqn:E; [reflexivity |].
      exfalso. apply (filter_nil_not_elem_of _ _ m Hf E).
      apply list_elem_of_In, Hin.
    - split; [discriminate |]. intros Hall. exfalso.
      assert (Hin : bad ∈ filter (fun m => includes RoutingLayer.validMethods m = false) ms)
        by (rewrite Hf; left).
      apply list_elem_of_filter in Hin as [Hbad Hin].
      apply list_elem_of_In in Hin.
      apply (Hall ms bad eq_refl), includes_In in Hin. congruence. }
  rewrite Hm. clear Hm.
  destruct (String.eqb_spec (RoutingLayer.c_path c) "") as [Hp | Hp];
    destruct (String.eqb_spec (RoutingLayer.c_target c) "") as [Ht | Ht];
    destruct (isValidUrl (RoutingLayer.c_target c)) eqn:Hu; cbn [negb andb];
    try solve [split; [intros (? & ? & ? & _); discriminate
                      | intros (? & ? & ? & _); congruence]].
  split.
  - intros (_ & _ & _ & Hto & Hre & Hms).
    repeat split; try assumption.
    + intros n Hn. rewrite Hn in Hto.
      destruct (Z.eqb_spec n 0); [lia |]. cbn in Hto.
      destruct (Z.leb_spec n 0); [discriminate | lia].
    + intros n Hn. rewrite Hn in Hre.
      destruct (Z.eqb_spec n 0); [lia |]. cbn in Hre.
      destruct (Z.ltb_spec n 0); [discriminate | lia].
  - intros (_ & _ & _ & Hto & Hre & Hms).
    repeat split; try assumption.
    + destruct (RoutingLayer.c_timeout c) as [n |]; [| reflexivity].
      specialize (Hto n eq_refl).
      destruct (Z.eqb_spec n 0); [reflexivity |]. cbn.
      destruct (Z.leb_spec n 0); [lia | reflexivity].
    + destruct (RoutingLayer.c_retries c) as [n |]; [| reflexivity].
      specialize (Hre n eq_refl).
      destruct (Z.eqb_spec n 0); [reflexivity |]. cbn.
      destruct (Z.ltb_spec n 0); [lia | reflexivity].
Qed.

(** X10. [validateRoute] reports no error exactly for a configuration
    with a path, a target that is a URL, a timeout and a number of retries
    that are absent or not negative, and methods among the seven the layer
    knows.  [addRoute] answers any other configuration with 400
    [INVALID_ROUTE_CONFIG] and leaves the tables as they are; a route that it
    stores has a positive timeout and at least one retry. *)
Theorem added_routes_are_valid
    (pathToRegexp : string -> string -> option RoutingLayer.Match)
    (pathToRegexp_throws : string -> option JsError)
    (isValidUrl : string -> bool) (now : Z) (st : RoutingLayer.State)
    (c : RoutingLayer.RouteConfig) :
  (RoutingLayer.validateRoute isValidUrl c = [] <-> acceptable isValidUrl c)
  /\ (~ acceptable isValidUrl c ->
      exists message details,
        RoutingLayer.addRoute pathToRegexp pathToRegexp_throws isValidUrl now st c
        = (Rejected (GatewayError message 400 "INVALID_ROUTE_CONFIG" details now),
           st))
  /\ (forall r st',
        RoutingLayer.addRoute pathToRegexp pathToRegexp_throws isValidUrl now st c
        = (Resolved r, st') ->
        acceptable isValidUrl c
        /\ 0 < RoutingLayer.timeout r
        /\ 0 < RoutingLayer.retries r).
Proof.
  pose proof (validateRoute_accepts isValidUrl c) as Hacc.
  split; [exact Hacc |]. split.
  - intros Hno. unfold RoutingLayer.addRoute.
    destruct (RoutingLayer.validateRoute isValidUrl c) as [| e es] eqn:Hv.
    + exfalso. apply Hno, Hacc. reflexivity.
    + eexists _, _. reflexivity.
  - intros r st'. unfold RoutingLayer.addRoute.
    destruct (RoutingLayer.validateRoute isValidUrl c) as [| e es] eqn:Hv;
      [| discriminate].
    destruct (pathToRegexp_throws _); [discriminate |].
    intros [= <- _].
    assert (Hok : acceptable isValidUrl c) by (apply Hacc; reflexivity).
    split; [exact Hok |].
    destruct Hok as (_ & _ & _ & Hto & Hre & _).
    unfold RoutingLayer.normalize, RoutingLayer.orNum. cbn. split.
    + destruct (RoutingLayer.c_timeout c) as [n |]; [| lia].
      specialize (Hto n eq_refl). destruct (Z.eqb_spec n 0); lia.
    + destruct (RoutingLayer.c_retries c) as [n |]; [| lia].
      specialize (Hre n eq_refl). destruct (Z.eqb_spec n 0); lia.
Qed.

Lemma added_routes_are_valid_witness :
  let st := configState in
  let bad := routeTo "/api/reports" "http://localhost:3005" (Some (-1)) in
  exists message details,
    RoutingLayer.addRoute exactMatch acceptsAll anyUrl 7 st bad
    = (Rejected (GatewayError message 400 "INVALID_ROUTE_CONFIG" details 7), st).
Proof.
  intros st bad.
  apply (added_routes_are_valid exactMatch acceptsAll anyUrl 7 st bad).
  intros (_ & _ & _ & _ & Hre & _).
  specialize (Hre (-1) eq_refl). lia.
Defined.

(** ** Rate limiter: windows, counters and administration *)

Lemma windowKeyOf_flat (ctx : RateLimitLayer.Context) (tierName : string) (ws : Z) :
  RateLimitLayer.windowKeyOf ctx tierName ws
  = ("rate_limit:" +:+ tierName +:+ ":" +:+ identityOf ctx +:+ ":") +:+ pretty ws.
Proof.
  unfold RateLimitLayer.windowKeyOf, RateLimitLayer.getRateLimitKey, identityOf.
  rewrite !append_assoc. reflexivity.
Qed.

(** X11. The counters of two windows, and those of two client addresses
    in one window, are kept under different keys of the store. *)
Theorem window_keys_are_distinct (tierName : string) :
  (forall (ctx : RateLimitLayer.Context) (ws ws' : Z),
     ws <> ws' ->
     RateLimitLayer.windowKeyOf ctx tierName ws
     <> RateLimitLayer.windowKeyOf ctx tierName ws')
  /\ (forall (ip ip' : string) (ws : Z),
        ip <> ip' ->
        RateLimitLayer.windowKeyOf (RateLimitLayer.mkContext None ip) tierName ws
        <> RateLimitLayer.windowKeyOf (RateLimitLayer.mkContext None ip') tierName ws)
  /\ (forall (now now' windowMs : Z),
        0 < windowMs ->
        RateLimitLayer.windowStartOf now windowMs
        = RateLimitLayer.windowStartOf now' windowMs
        <-> now / windowMs = now' / windowMs).
Proof.
  refine (conj _ (conj _ _)).
  - intros ctx ws ws' Hne Heq. rewrite !windowKeyOf_flat in Heq.
    apply append_cancel_l in Heq. apply (inj pretty) in Heq. contradiction.
  - intros ip ip' ws Hne Heq. rewrite !windowKeyOf_flat in Heq.
    unfold identityOf in Heq. cbn in Heq.
    apply append_cancel_r in Heq.
    do 3 apply append_cancel_l in Heq.
    apply append_cancel_r in Heq. apply append_cancel_l in Heq. contradiction.
  - intros now now' windowMs Hw. unfold RateLimitLayer.windowStartOf. split.
    + intros H. nia.
    + intros ->. reflexivity.
Qed.

Lemma window_keys_are_distinct_witness :
  RateLimitLayer.windowKeyOf anonymous "basic" 1699999980000
  <> RateLimitLayer.windowKeyOf anonymous "basic" 1700000040000
  /\ RateLimitLayer.windowStartOf 1700000012345 60000
     = RateLimitLayer.windowStartOf 1700000039999 60000.
Proof.
  split.
  - apply (window_keys_are_distinct "basic"). lia.
  - apply (window_keys_are_distinct "basic"); [lia | reflexivity].
Defined.

(** What a decision leaves alone. *)
Lemma checkRateLimit_frame (l : RateLimitLayer.t) (now : Z)
    (ctx : RateLimitLayer.Context) (tierName : string) :
  let l' := (RateLimitLayer.checkRateLimit l now ctx tierName).2 in
  let key :=
    RateLimitLayer.windowKey ctx tierName
      (RateLimitLayer.windowStart now
         (RateLimitLayer.windowMs (RateLimitLayer.getTierConfig l tierName))) in
  RateLimitLayer.isConnected l' = RateLimitLayer.isConnected l
  /\ RateLimitLayer.rateLimitTiers l' = RateLimitLayer.rateLimitTiers l
  /\ RateLimitLayer.defaultTier l' = RateLimitLayer.defaultTier l
  /\ RateLimitLayer.faults (RateLimitLayer.redisClient l')
     = RateLimitLayer.faults (RateLimitLayer.redisClient l)
  /\ (forall other, other <> key ->
        RateLimitLayer.store (RateLimitLayer.redisClient l') !! other
        = RateLimitLayer.store (RateLimitLayer.redisClient l) !! other
        /\ RateLimitLayer.expiry (RateLimitLayer.redisClient l') !! other
           = RateLimitLayer.expiry (RateLimitLayer.redisClient l) !! other).
Proof.
  cbv zeta. unfold RateLimitLayer.checkRateLimit.
  destruct (RateLimitLayer.isConnected l) eqn:Hc; cbn [negb];
    [| cbn; rewrite Hc; repeat split].
  unfold RateLimitLayer.exec_get.
  destruct (RateLimitLayer.faults (RateLimitLayer.redisClient l)
              (RateLimitLayer.execs (RateLimitLayer.redisClient l)));
    [cbn; rewrite Hc; repeat split |].
  destruct (RateLimitLayer.windowMs (RateLimitLayer.getTierConfig l tierName))
    as [wms | |]; cbn [RateLimitLayer.windowStart];
    try (cbn; rewrite Hc; repeat split).
  destruct (wms =? 0); [cbn; rewrite Hc; repeat split |].
  cbn [RateLimitLayer.windowKey].
  destruct (RateLimitLayer.validTime (RateLimitLayer.windowStartOf now wms));
    cbn [negb]; [| cbn; rewrite Hc; repeat split].
  destruct (RateLimitLayer.geq _ _).
  - destruct (RateLimitLayer.validTime _); cbn; rewrite Hc; repeat split.
  - unfold RateLimitLayer.exec_incr_expire. cbn.
    destruct (RateLimitLayer.faults (RateLimitLayer.redisClient l)
                (S (RateLimitLayer.execs (RateLimitLayer.redisClient l))));
      cbn; rewrite Hc; repeat split;
      rewrite lookup_insert_ne by congruence; reflexivity.
Qed.

(** X12. A decision reads and writes the counter of its own window and
    client only: every other key of the store keeps its counter and its
    expiry, whatever the decision and whether or not the store answered. *)
Theorem decision_touches_one_counter (l : RateLimitLayer.t) (now : Z)
    (ctx : RateLimitLayer.Context) (tierName other : string) :
  other <> RateLimitLayer.windowKey ctx tierName
             (RateLimitLayer.windowStart now
                (RateLimitLayer.windowMs (RateLimitLayer.getTierConfig l tierName))) ->
  RateLimitLayer.store
    (RateLimitLayer.redisClient (RateLimitLayer.checkRateLimit l now ctx tierName).2)
  !! other
  = RateLimitLayer.store (RateLimitLayer.redisClient l) !! other
  /\ RateLimitLayer.expiry
       (RateLimitLayer.redisClient (RateLimitLayer.checkRateLimit l now ctx tierName).2)
     !! other
     = RateLimitLayer.expiry (RateLimitLayer.redisClient l) !! other.
Proof.
  intros Hne.
  destruct (checkRateLimit_frame l now ctx tierName) as (_ & _ & _ & _ & H).
  apply H, Hne.
Qed.

Lemma decision_touches_one_counter_witness :
  let earlier := "rate_limit:basic:ip:10.0.0.7:1699999920000" in
  let l := sampleLimiter true {[ earlier := 100 ]} noFaults in
  RateLimitLayer.store
    (RateLimitLayer.redisClient
       (RateLimitLayer.checkRateLimit l 1700000012345 anonymous "basic").2)
  !! earlier = Some 100
  /\ (RateLimitLayer.checkRateLimit l 1700000012345 anonymous "basic").1
     = RateLimitLayer.mkDecision true (RateLimitLayer.Finite 99)
         (RateLimitLayer.Finite 1700000040000) (Some "basic").
Proof.
  intros earlier l. split; [| vm_compute; reflexivity].
  destruct (decision_touches_one_counter l 1700000012345 anonymous "basic" earlier)
    as [H _]; [vm_compute; discriminate |].
  rewrite H. reflexivity.
Defined.

Lemma neverFails_reachable (l : RateLimitLayer.t) : neverFails l -> reachable l.
Proof. intros [Hc Hf]. repeat split; auto. Qed.




Lemma statusKey_is_windowKey (ctx : RateLimitLayer.Context) (tierName : string)
    (ws : Z) :
  "rate_limit:" +:+ tierName +:+ ":" +:+ identityOf ctx +:+ ":" +:+ pretty ws
  = RateLimitLayer.windowKeyOf ctx tierName ws.
Proof. rewrite windowKeyOf_flat, !append_assoc. reflexivity. Qed.

(** X14. The status that the administrator reads for a client agrees with
    the decisions taken for it.  For a tier that resolves to a
    configuration with a limit and a positive window length, at a time for
    which the window has dates, while the store answers: the status shows
    the window's counter as [used] and [max(0, limit - used)] as
    [remaining], never a negative number; the next decision is an allowance
    exactly when that [remaining] is positive; and right after an allowance
    the status shows one more request used and the [remaining] that the
    decision returned. *)
Theorem status_agrees_with_decisions (l : RateLimitLayer.t) (now : Z)
    (ctx : RateLimitLayer.Context) (tierName : string) (limit window : Z) :
  neverFails l ->
  configured l tierName limit window ->
  datable now window ->
  let ws := RateLimitLayer.windowStartOf now window in
  let used := currentCountOf l now ctx tierName in
  let decided := RateLimitLayer.checkRateLimit l now ctx tierName in
  (RateLimitLayer.getRateLimitStatus l now (identityOf ctx) tierName).1
  = Resolved (RateLimitLayer.Report tierName (RateLimitLayer.Finite limit) used
                (RateLimitLayer.Finite (Z.max 0 (limit - used)))
                (RateLimitLayer.Finite (ws + window)) (RateLimitLayer.Finite ws))
  /\ 0 <= Z.max 0 (limit - used)
  /\ (RateLimitLayer.allowed decided.1 = true <-> 0 < Z.max 0 (limit - used))
  /\ (RateLimitLayer.allowed decided.1 = true ->
      (RateLimitLayer.getRateLimitStatus decided.2 now (identityOf ctx) tierName).1
      = Resolved (RateLimitLayer.Report tierName (RateLimitLayer.Finite limit)
                    (used + 1) (RateLimitLayer.remaining decided.1)
                    (RateLimitLayer.Finite (ws + window)) (RateLimitLayer.Finite ws))).
Proof.
  intros Hnf Hcfg Hdate ws used decided.
  destruct Hdate as [Hstart Hend].
  destruct (checkRateLimit_reachable l now ctx tierName limit window
              (neverFails_reachable l Hnf) Hcfg Hstart) as [Hcount Hres].
  cbv zeta in Hcount, Hres. rewrite Hend in Hres.
  fold ws used decided in Hcount, Hres.
  pose proof (windowStart_configured l tierName limit window now Hcfg) as Hws.
  fold ws in Hws.
  destruct Hnf as [Hconn Hfaults]. destruct Hcfg as [Hcfg Hw].
  assert (Hstatus : forall l',
            RateLimitLayer.isConnected l' = true ->
            RateLimitLayer.faults (RateLimitLayer.redisClient l')
              (RateLimitLayer.execs (RateLimitLayer.redisClient l')) = None ->
            RateLimitLayer.getTierConfig l' tierName
            = RateLimitLayer.getTierConfig l tierName ->
            (RateLimitLayer.getRateLimitStatus l' now (identityOf ctx) tierName).1
            = Resolved
                (RateLimitLayer.Report tierName (RateLimitLayer.Finite limit)
                   (match RateLimitLayer.store (RateLimitLayer.redisClient l')
                          !! RateLimitLayer.windowKeyOf ctx tierName ws with
                    | Some n => n
                    | None => 0
                    end)
                   (RateLimitLayer.Finite
                      (Z.max 0 (limit - match RateLimitLayer.store
                                                 (RateLimitLayer.redisClient l')
                                               !! RateLimitLayer.windowKeyOf ctx tierName ws
                                         with Some n => n | None => 0 end)))
                   (RateLimitLayer.Finite (ws + window)) (RateLimitLayer.Finite ws))).
  { intros l' Hc' Hf' Hsame. unfold RateLimitLayer.getRateLimitStatus.
    rewrite Hc', Hsame, Hws, Hcfg. cbn [negb RateLimitLayer.numberText
      RateLimitLayer.requests RateLimitLayer.windowMs].
    rewrite statusKey_is_windowKey.
    unfold RateLimitLayer.get, RateLimitLayer.command. rewrite Hf'. reflexivity. }
  split; [rewrite Hcount; apply (Hstatus l Hconn (Hfaults _) eq_refl) |].
  split; [lia |].
  destruct (Z.leb_spec limit used) as [Hle | Hlt].
  - rewrite Hres. cbn. split; [split; [discriminate | lia] | discriminate].
  - rewrite Hres. cbn [fst snd RateLimitLayer.allowed RateLimitLayer.remaining].
    split; [split; [lia | reflexivity] |]. intros _.
    rewrite Hstatus; [| exact Hconn | apply Hfaults | reflexivity].
    cbn. rewrite lookup_insert_eq. do 3 f_equal. lia.
Qed.

Lemma status_agrees_with_decisions_witness :
  let key := "rate_limit:basic:ip:10.0.0.7:1699999980000" in
  let over := sampleLimiter true {[ key := 250 ]} noFaults in
  (RateLimitLayer.getRateLimitStatus over 1700000012345 "ip:10.0.0.7" "basic").1
  = Resolved (RateLimitLayer.Report "basic" (RateLimitLayer.Finite 100) 250
                (RateLimitLayer.Finite 0) (RateLimitLayer.Finite 1700000040000)
                (RateLimitLayer.Finite 1699999980000)).
Proof.
  intros key over.
  assert (Hnf : neverFails over) by (split; [reflexivity | intros k; reflexivity]).
  assert (Hcfg : configured over "basic" 100 60000) by (split; [reflexivity | lia]).
  assert (Hdate : datable 1700000012345 60000) by (split; reflexivity).
  destruct (status_agrees_with_decisions over 1700000012345 anonymous "basic"
              100 60000 Hnf Hcfg Hdate) as (H & _).
  exact H.
Defined.

Lemma hasPrefix_windowKey (ctx : RateLimitLayer.Context) (tierName : string)
    (ws : Z) :
  RateLimitLayer.hasPrefix
    ("rate_limit:" +:+ tierName +:+ ":" +:+ identityOf ctx +:+ ":")
    (RateLimitLayer.windowKeyOf ctx tierName ws) = true.
Proof.
  rewrite windowKeyOf_flat. unfold RateLimitLayer.hasPrefix.
  rewrite stripPrefix_append. reflexivity.
Qed.

(** X15. [resetRateLimit] clears the stored keys that start with
    [rate_limit:<tier>:<identity>:], which are the client's counters of
    every window, and with them the counters of every client whose identity
    continues this one after a colon.  For a tier and an identity without
    pattern characters, while the store answers: the result is the number
    of stored keys that start with that prefix; afterwards none of these
    keys is stored, no key of a client whose identity is
    [<identity>:<rest>] is stored either, every key that does not start
    with the prefix keeps its counter and expiry, and the client's next
    decision, at a time for which the window has dates and for a tier that
    resolves to a positive limit and window length, starts from zero.  When
    the client is not connected the call throws and changes nothing. *)
Theorem reset_clears_every_window (globMatch : string -> string -> bool)
    (l : RateLimitLayer.t) (ctx : RateLimitLayer.Context) (tierName : string) :
  let prefix := "rate_limit:" +:+ tierName +:+ ":" +:+ identityOf ctx +:+ ":" in
  let res := RateLimitLayer.resetRateLimit globMatch l (identityOf ctx) tierName in
  (RateLimitLayer.isConnected l = false ->
   res = (Rejected RateLimitLayer.notConnected, l))
  /\ (neverFails l ->
      RateLimitLayer.literalGlob prefix = true ->
      res.1 = Resolved
                (size (filter (fun kv => RateLimitLayer.hasPrefix prefix kv.1 = true)
                         (RateLimitLayer.store (RateLimitLayer.redisClient l))))
      /\ (forall key, RateLimitLayer.hasPrefix prefix key = true ->
            RateLimitLayer.store (RateLimitLayer.redisClient res.2) !! key = None)
      /\ (forall (longer : RateLimitLayer.Context) (rest : string) (ws : Z),
            identityOf longer = identityOf ctx +:+ ":" +:+ rest ->
            RateLimitLayer.store (RateLimitLayer.redisClient res.2)
            !! RateLimitLayer.windowKeyOf longer tierName ws = None)
      /\ (forall key, RateLimitLayer.hasPrefix prefix key = false ->
            RateLimitLayer.store (RateLimitLayer.redisClient res.2) !! key
            = RateLimitLayer.store (RateLimitLayer.redisClient l) !! key
            /\ RateLimitLayer.expiry (RateLimitLayer.redisClient res.2) !! key
               = RateLimitLayer.expiry (RateLimitLayer.redisClient l) !! key)
      /\ (forall now limit window,
            configured l tierName limit window ->
            datable now window ->
            0 < limit ->
            (RateLimitLayer.checkRateLimit res.2 now ctx tierName).1
            = RateLimitLayer.mkDecision true (RateLimitLayer.Finite (limit - 1))
                (RateLimitLayer.Finite
                   (RateLimitLayer.windowStartOf now window + window))
                (Some tierName))).
Proof.
  intros prefix res. split.
  - intros Hd. subst res. unfold RateLimitLayer.resetRateLimit.
    rewrite Hd. reflexivity.
  - intros [Hconn Hfaults] Hlit.
    set (st := RateLimitLayer.store (RateLimitLayer.redisClient l)).
    set (matching := filter (fun kv : string * Z =>
                               RateLimitLayer.hasPrefix prefix kv.1 = true) st).
    assert (Hsel : forall key,
              RateLimitLayer.selects globMatch prefix key
              = RateLimitLayer.hasPrefix prefix key).
    { intros key. unfold RateLimitLayer.selects. rewrite Hlit. reflexivity. }
    assert (Hks : dom (filter (fun kv : string * Z =>
                                 RateLimitLayer.selects globMatch prefix kv.1 = true) st)
                  = dom matching).
    { f_equal. apply map_filter_ext. intros key x _. cbn. rewrite Hsel. reflexivity. }
    assert (Hin : forall key, key ∈ dom matching
                    <-> is_Some (st !! key)
                        /\ RateLimitLayer.hasPrefix prefix key = true).
    { intros key. rewrite elem_of_dom. split.
      - intros [x Hx]. apply map_lookup_filter_Some in Hx as [Hl Hp]. eauto.
      - intros [[x Hx] Hp]. exists x. apply map_lookup_filter_Some. auto. }
    (* the three facts about the store after the call *)
    assert (Hafter :
              res.1 = Resolved (size matching)
              /\ RateLimitLayer.isConnected res.2 = true
              /\ RateLimitLayer.faults (RateLimitLayer.redisClient res.2)
                 = RateLimitLayer.faults (RateLimitLayer.redisClient l)
              /\ (forall t, RateLimitLayer.getTierConfig res.2 t
                            = RateLimitLayer.getTierConfig l t)
              /\ (forall key, RateLimitLayer.hasPrefix prefix key = true ->
                    RateLimitLayer.store (RateLimitLayer.redisClient res.2) !! key = None)
              /\ (forall key, RateLimitLayer.hasPrefix prefix key = false ->
                    RateLimitLayer.store (RateLimitLayer.redisClient res.2) !! key
                    = st !! key
                    /\ RateLimitLayer.expiry (RateLimitLayer.redisClient res.2) !! key
                       = RateLimitLayer.expiry (RateLimitLayer.redisClient l) !! key)).
    { subst res. unfold RateLimitLayer.resetRateLimit.
      rewrite Hconn. cbn [negb]. cbv zeta. fold prefix.
      unfold RateLimitLayer.keys, RateLimitLayer.command.
      rewrite Hfaults. fold st. rewrite Hks, size_dom.
      destruct (Nat.ltb_spec 0 (size matching)) as [Hpos | Hzero].
      - unfold RateLimitLayer.del, RateLimitLayer.command. cbn.
        rewrite Hfaults. cbn.
        repeat split; try assumption.
        + intros key Hp.
          destruct (st !! key) as [x |] eqn:Hx;
            apply map_lookup_filter_None; [right | left; exact Hx].
          intros y Hy Hnot. cbn in Hnot. apply Hnot, Hin. split; [eauto | exact Hp].
        + destruct (st !! key) as [x |] eqn:Hx.
          * apply map_lookup_filter_Some. split; [exact Hx |].
            cbn. intros Hk. apply Hin in Hk as [_ Hk]. congruence.
          * apply map_lookup_filter_None. left. exact Hx.
        + destruct (RateLimitLayer.expiry (RateLimitLayer.redisClient l) !! key)
            as [x |] eqn:Hx.
          * apply map_lookup_filter_Some. split; [exact Hx |].
            cbn. intros Hk. apply Hin in Hk as [_ Hk]. congruence.
          * apply map_lookup_filter_None. left. exact Hx.
      - cbn. repeat split; try assumption.
        intros key Hp. fold st.
        destruct (st !! key) as [x |] eqn:Hx; [| reflexivity]. exfalso.
        assert (Hempty : matching = ∅) by (apply map_size_empty_iff; lia).
        assert (Hk : key ∈ dom matching) by (apply Hin; split; [eauto | exact Hp]).
        rewrite Hempty, dom_empty_L in Hk. set_solver. }
    destruct Hafter as (Hn & Hc' & Hf' & Hcfg & Hgone & Hkept).
    split; [exact Hn |]. split; [exact Hgone |]. split; [| split; [exact Hkept |]].
    + intros longer rest ws Hid. apply Hgone.
      replace (RateLimitLayer.windowKeyOf longer tierName ws)
        with (prefix +:+ (rest +:+ ":" +:+ pretty ws)).
      * unfold RateLimitLayer.hasPrefix. rewrite stripPrefix_append. reflexivity.
      * subst prefix. rewrite windowKeyOf_flat, Hid, !append_assoc. reflexivity.
    + intros now limit window Hconf Hdate Hlimit.
      assert (Hconf' : configured res.2 tierName limit window).
      { destruct Hconf as [Hconf Hw]. split; [rewrite Hcfg; exact Hconf | exact Hw]. }
      assert (Hreach : reachable res.2).
      { repeat split; [exact Hc' | rewrite Hf'; apply Hfaults
                       | rewrite Hf'; apply Hfaults]. }
      destruct (checkRateLimit_reachable res.2 now ctx tierName limit window
                  Hreach Hconf' (proj1 Hdate)) as [Hcount Hres].
      cbv zeta in Hcount, Hres.
      rewrite (Hgone _ (hasPrefix_windowKey ctx tierName _)) in Hcount.
      rewrite Hcount in Hres. rewrite Hres.
      destruct (Z.leb_spec limit 0); [lia |].
      cbn. do 2 f_equal. lia.
Qed.

Lemma reset_clears_every_window_witness :
  let old := "rate_limit:basic:ip:10.0.0.7:1699999920000" in
  let key := "rate_limit:basic:ip:10.0.0.7:1699999980000" in
  let longer := "rate_limit:basic:ip:10.0.0.7:8080:1699999980000" in
  let other := "rate_limit:basic:ip:10.0.0.8:1699999980000" in
  let l := sampleLimiter true
             (<[old := 100]> (<[key := 100]> (<[longer := 7]> (<[other := 5]> ∅))))
             noFaults in
  let res := RateLimitLayer.resetRateLimit (fun _ _ => false) l "ip:10.0.0.7" "basic" in
  res.1 = Resolved 3%nat
  /\ RateLimitLayer.store (RateLimitLayer.redisClient l) !! longer = Some 7
  /\ RateLimitLayer.store (RateLimitLayer.redisClient res.2) !! longer = None
  /\ RateLimitLayer.store (RateLimitLayer.redisClient res.2) !! other = Some 5
  /\ (RateLimitLayer.checkRateLimit res.2 1700000012345 anonymous "basic").1
     = RateLimitLayer.mkDecision true (RateLimitLayer.Finite 99)
         (RateLimitLayer.Finite 1700000040000) (Some "basic").
Proof.
  intros old key longer other l res.
  destruct (reset_clears_every_window (fun _ _ => false) l anonymous "basic")
    as [_ H].
  destruct H as (Hn & _ & Hlonger & Hkept & Hnext).
  - split; [reflexivity | intros k; reflexivity].
  - reflexivity.
  - split; [etransitivity; [exact Hn | vm_compute; reflexivity] |].
    split; [reflexivity |]. split; [| split].
    + exact (Hlonger (RateLimitLayer.mkContext None "10.0.0.7:8080") "8080"
               1699999980000 eq_refl).
    + destruct (Hkept other) as [Hs _]; [reflexivity |].
      etransitivity; [exact Hs | reflexivity].
    + etransitivity;
        [apply (Hnext 1700000012345 100 60000);
         [split; [reflexivity | lia] | split; reflexivity | lia]
        | vm_compute; reflexivity].
Defined.

(** ** Authentication *)

Lemma handleAuthError_is_401 (now : Z) (error : JsError) (date : JsVal) :
  let e := ErrorHandler.handleAuthError now error date in
  err_statusCode e = Some 401
  /\ (exists code, err_errorCode e = Some code
                   /\ In code authErrorCodes /\ code <> "MISSING_TOKEN").
Proof.
  unfold ErrorHandler.handleAuthError.
  destruct (String.eqb (err_name error) "TokenExpiredError");
    [| destruct (String.eqb (err_name error) "JsonWebTokenError");
       [| destruct (String.eqb (err_name error) "NotBeforeError")]];
    (split; [reflexivity |]); eexists; (split; [reflexivity |]);
    (split; [cbn; tauto | discriminate]).
Qed.

Lemma noToken_false (token : option string) :
  AuthLayer.noToken token = false ->
  exists t, token = Some t /\ t <> "".
Proof.
  destruct token as [t |]; [| discriminate]. cbn. intros H.
  exists t. split; [reflexivity |]. intros ->. discriminate.
Qed.

(** X16. The word [Bearer] is optional: for a token that is not empty and
    does not itself start with [Bearer ], the header [Bearer <token>] and
    the header [<token>] give the same token, and so the same result of
    [requireAuth] and of [optionalAuth]. *)
Theorem bearer_scheme_is_optional
    (jwt_verify : string -> string -> AuthLayer.Claims + JsError * JsVal)
    (jwtSecret : string) (now : Z) (token : string) (ctx : AuthLayer.Context) :
  token <> "" ->
  stripPrefix "Bearer " token = None ->
  AuthLayer.extractToken (Some ("Bearer " +:+ token)) = Some token
  /\ AuthLayer.extractToken (Some token) = Some token
  /\ AuthLayer.requireAuth jwt_verify jwtSecret now (Some ("Bearer " +:+ token)) ctx
     = AuthLayer.requireAuth jwt_verify jwtSecret now (Some token) ctx
  /\ AuthLayer.optionalAuth jwt_verify jwtSecret now (Some ("Bearer " +:+ token)) ctx
     = AuthLayer.optionalAuth jwt_verify jwtSecret now (Some token) ctx.
Proof.
  intros Hne Hbare.
  assert (H1 : AuthLayer.extractToken (Some ("Bearer " +:+ token)) = Some token).
  { unfold AuthLayer.extractToken.
    change (String.eqb ("Bearer " +:+ token) "") with false.
    rewrite stripPrefix_append. reflexivity. }
  assert (H2 : AuthLayer.extractToken (Some token) = Some token).
  { unfold AuthLayer.extractToken. rewrite Hbare.
    destruct (String.eqb_spec token ""); [contradiction | reflexivity]. }
  unfold AuthLayer.requireAuth, AuthLayer.optionalAuth.
  rewrite H1, H2. auto.
Qed.

Lemma bearer_scheme_is_optional_witness :
  AuthLayer.requireAuth sampleVerify "s3cret" 1700000012345 (Some "Bearer good")
    (AuthLayer.mkContext None None)
  = AuthLayer.requireAuth sampleVerify "s3cret" 1700000012345 (Some "good")
      (AuthLayer.mkContext None None).
Proof.
  destruct (bearer_scheme_is_optional sampleVerify "s3cret" 1700000012345 "good"
              (AuthLayer.mkContext None None)) as (_ & _ & H & _).
  - discriminate.
  - reflexivity.
  - exact H.
Defined.

(** X17. [requireAuth] lets a request through only with a token that the
    verifier accepted, and then attaches the user built from its claims.
    In every other case it leaves the context as it was and passes an
    error with status 401 to [next], whose code is one of MISSING_TOKEN,
    TOKEN_EXPIRED, INVALID_TOKEN, TOKEN_NOT_ACTIVE and AUTH_FAILED; the
    code is MISSING_TOKEN exactly when the header gives no token.  The
    error middleware answers such an error with status 401, that code and
    the error's message, in production as in development. *)
Theorem require_auth_outcomes
    (jwt_verify : string -> string -> AuthLayer.Claims + JsError * JsVal)
    (jwtSecret : string) (now : Z) (authorization : option string)
    (ctx : AuthLayer.Context) :
  let res := AuthLayer.requireAuth jwt_verify jwtSecret now authorization ctx in
  (exists token decoded,
      AuthLayer.extractToken authorization = Some token
      /\ token <> ""
      /\ jwt_verify token jwtSecret = inl decoded
      /\ res = (AuthLayer.mkContext (Some (AuthLayer.extractUserContext decoded))
                  (Some true), None))
  \/ (exists e code,
        res = (ctx, Some e)
        /\ err_statusCode e = Some 401
        /\ err_errorCode e = Some code
        /\ In code authErrorCodes
        /\ (code = "MISSING_TOKEN"
            <-> AuthLayer.noToken (AuthLayer.extractToken authorization) = true)
        /\ (forall production later requestId,
              exists body,
                ErrorHandler.middleware false production later requestId e
                = Sent 401 body
                /\ env_error body = code
                /\ env_message body = err_message e
                /\ env_stack body = false)).
Proof.
  intros res. subst res. unfold AuthLayer.requireAuth.
  destruct (AuthLayer.noToken (AuthLayer.extractToken authorization)) eqn:Hno.
  - right. eexists. exists "MISSING_TOKEN".
    split; [reflexivity |]. split; [reflexivity |]. split; [reflexivity |].
    split; [cbn; tauto |]. split; [tauto |].
    intros production later requestId. eexists. split; [reflexivity |]. auto.
  - destruct (noToken_false _ Hno) as (token & Htok & Hne).
    rewrite Htok. change (default "" (Some token)) with token.
    unfold AuthLayer.verifyToken.
    destruct (jwt_verify token jwtSecret) as [decoded | [error date]] eqn:Hv.
    + left. exists token, decoded. auto.
    + right.
      destruct (handleAuthError_is_401 now error date)
        as (Hst & code & Hcode & Hin & Hnot).
      exists (ErrorHandler.handleAuthError now error date), code.
      split; [reflexivity |]. split; [exact Hst |]. split; [exact Hcode |].
      split; [exact Hin |].
      split; [split; [intros ->; contradiction | discriminate] |].
      intros production later requestId.
      destruct (ErrorHandler.handleAuthError now error date)
        as [m st c d ts |]; [| discriminate].
      cbn in Hst, Hcode. injection Hst as ->. injection Hcode as ->.
      eexists. split; [reflexivity |]. auto.
Qed.

(** X18. [optionalAuth] never passes an error to [next].  It attaches a
    user exactly when there is a token that the verifier accepted; a token
    that the verifier rejected leaves the request anonymous and marked as
    not authenticated.  Whenever [requireAuth] lets a request through,
    [optionalAuth] builds the same context for it. *)
Theorem optional_auth_never_rejects
    (jwt_verify : string -> string -> AuthLayer.Claims + JsError * JsVal)
    (jwtSecret : string) (now : Z) (authorization : option string)
    (ctx : AuthLayer.Context) :
  let res := AuthLayer.optionalAuth jwt_verify jwtSecret now authorization ctx in
  res.2 = None
  /\ (forall u,
        AuthLayer.user res.1 = Some u
        <-> exists token decoded,
              AuthLayer.extractToken authorization = Some token
              /\ token <> ""
              /\ jwt_verify token jwtSecret = inl decoded
              /\ u = AuthLayer.extractUserContext decoded)
  /\ (forall token error date,
        AuthLayer.extractToken authorization = Some token ->
        token <> "" ->
        jwt_verify token jwtSecret = inr (error, date) ->
        res.1 = AuthLayer.mkContext None (Some false))
  /\ ((AuthLayer.requireAuth jwt_verify jwtSecret now authorization ctx).2 = None ->
      res = AuthLayer.requireAuth jwt_verify jwtSecret now authorization ctx).
Proof.
  intros res. subst res. unfold AuthLayer.optionalAuth, AuthLayer.requireAuth.
  destruct (AuthLayer.noToken (AuthLayer.extractToken authorization)) eqn:Hno.
  - split; [reflexivity |]. split; [| split].
    + intros u. split; [discriminate |].
      intros (token & decoded & Htok & Hne & _). rewrite Htok in Hno.
      cbn in Hno. apply String.eqb_eq in Hno. contradiction.
    + intros token error date Htok Hne _. rewrite Htok in Hno.
      cbn in Hno. apply String.eqb_eq in Hno. contradiction.
    + discriminate.
  - destruct (noToken_false _ Hno) as (token & Htok & Hne).
    rewrite Htok. change (default "" (Some token)) with token.
    unfold AuthLayer.verifyToken.
    destruct (jwt_verify token jwtSecret) as [decoded | [error date]] eqn:Hv.
    + split; [reflexivity |]. split; [| split].
      * intros u. cbn. split.
        -- intros [= <-]. exists token, decoded. auto.
        -- intros (t & d & [= <-] & _ & Hd & ->). congruence.
      * intros t error date [= <-] _ Hd. congruence.
      * reflexivity.
    + split; [reflexivity |]. split; [| split].
      * intros u. cbn. split; [discriminate |].
        intros (t & d & [= <-] & _ & Hd & _). congruence.
      * reflexivity.
      * discriminate.
Qed.

Lemma someIncluded_spec (required current : list string) :
  AuthLayer.someIncluded required current = true
  <-> exists name, In name required /\ In name current.
Proof.
  unfold AuthLayer.someIncluded. rewrite existsb_exists.
  split; intros (name & Hr & Hc); exists name; (split; [exact Hr |]);
    apply includes_In; exact Hc.
Qed.

(** X19. [requireRole] and [requirePermission] are any-of checks: the
    request goes on exactly when it has a user that holds at least one of
    the required names.  A request without a user is refused with 401
    AUTHENTICATION_REQUIRED, a user that holds none of the names with 403
    INSUFFICIENT_PERMISSIONS; in particular an empty list of required
    names refuses every user. *)
Theorem role_check_is_any_of (now : Z) (required : string + list string)
    (ctx : AuthLayer.Context) :
  (AuthLayer.requireRole now required ctx = None
   <-> exists u name,
         AuthLayer.user ctx = Some u
         /\ In name (AuthLayer.asArray required)
         /\ In name (AuthLayer.roles u))
  /\ (AuthLayer.requirePermission now required ctx = None
      <-> exists u name,
            AuthLayer.user ctx = Some u
            /\ In name (AuthLayer.asArray required)
            /\ In name (AuthLayer.permissions u))
  /\ (forall e,
        AuthLayer.requireRole now required ctx = Some e
        \/ AuthLayer.requirePermission now required ctx = Some e ->
        match AuthLayer.user ctx with
        | None => err_statusCode e = Some 401
                  /\ err_errorCode e = Some "AUTHENTICATION_REQUIRED"
        | Some _ => err_statusCode e = Some 403
                    /\ err_errorCode e = Some "INSUFFICIENT_PERMISSIONS"
        end)
  /\ (AuthLayer.asArray required = [] ->
      AuthLayer.requireRole now required ctx <> None
      /\ AuthLayer.requirePermission now required ctx <> None).
Proof.
  unfold AuthLayer.requireRole, AuthLayer.requirePermission.
  destruct (AuthLayer.user ctx) as [u |].
  - pose proof (someIncluded_spec (AuthLayer.asArray required) (AuthLayer.roles u))
      as Hr.
    pose proof (someIncluded_spec (AuthLayer.asArray required)
                  (AuthLayer.permissions u)) as Hp.
    destruct (AuthLayer.someIncluded (AuthLayer.asArray required) (AuthLayer.roles u));
      destruct (AuthLayer.someIncluded (AuthLayer.asArray required)
                  (AuthLayer.permissions u));
      cbn [negb];
      (split; [split; [intros H; try discriminate H;
                       destruct (proj1 Hr eq_refl) as (name & ? & ?);
                       exists u, name; auto
                      | intros (u' & name & [= <-] & ? & ?); try reflexivity;
                        assert (false = true) by (apply Hr; eauto); discriminate] |]);
      (split; [split; [intros H; try discriminate H;
                       destruct (proj1 Hp eq_refl) as (name & ? & ?);
                       exists u, name; auto
                      | intros (u' & name & [= <-] & ? & ?); try reflexivity;
                        assert (false = true) by (apply Hp; eauto); discriminate] |]);
      (split; [intros e [He | He]; try discriminate He;
               injection He as <-; split; reflexivity |]);
      intros Hempty; rewrite Hempty in Hr, Hp;
      try (destruct (proj1 Hr eq_refl) as (? & [] & _));
      try (destruct (proj1 Hp eq_refl) as (? & [] & _));
      split; discriminate.
  - split; [split; [discriminate | intros (u & name & Hu & _); discriminate] |].
    split; [split; [discriminate | intros (u & name & Hu & _); discriminate] |].
    split; [intros e [He | He]; injection He as <-; split; reflexivity |].
    intros _. split; discriminate.
Qed.

(** ** Authentication followed by rate limiting *)

Section ChainFacts.

Variable jwt_verify : string -> string -> AuthLayer.Claims + JsError * JsVal.
Variable jwtSecret : string.
Variable legalHeaderValue : string -> bool.

Lemma auth_accepts (now : Z) (authorization : option string)
    (ctx : AuthLayer.Context) (token : string) (decoded : AuthLayer.Claims) :
  AuthLayer.extractToken authorization = Some token ->
  token <> "" ->
  jwt_verify token jwtSecret = inl decoded ->
  AuthLayer.requireAuth jwt_verify jwtSecret now authorization ctx
  = (AuthLayer.mkContext (Some (AuthLayer.extractUserContext decoded)) (Some true),
     None)
  /\ AuthLayer.optionalAuth jwt_verify jwtSecret now authorization ctx
     = (AuthLayer.mkContext (Some (AuthLayer.extractUserContext decoded)) (Some true),
        None).
Proof.
  intros Htok Hne Hv.
  unfold AuthLayer.requireAuth, AuthLayer.optionalAuth. rewrite Htok.
  change (default "" (Some token)) with token.
  unfold AuthLayer.verifyToken. rewrite Hv. cbn.
  destruct (String.eqb_spec token ""); [contradiction | auto].
Qed.

Lemma requireAuth_cases (now : Z) (authorization : option string)
    (ctx : AuthLayer.Context) :
  (exists u,
      AuthLayer.requireAuth jwt_verify jwtSecret now authorization ctx
      = (AuthLayer.mkContext (Some u) (Some true), None))
  \/ (exists e,
        AuthLayer.requireAuth jwt_verify jwtSecret now authorization ctx
        = (ctx, Some e)
        /\ err_statusCode e = Some 401).
Proof.
  unfold AuthLayer.requireAuth.
  destruct (AuthLayer.noToken (AuthLayer.extractToken authorization));
    [right; eexists; split; reflexivity |].
  unfold AuthLayer.verifyToken.
  destruct (jwt_verify _ jwtSecret) as [decoded | [error date]].
  - left. eexists. reflexivity.
  - right. eexists. split; [reflexivity |].
    apply (handleAuthError_is_401 now error date).
Qed.

Lemma optionalAuth_passes (now : Z) (authorization : option string)
    (ctx : AuthLayer.Context) :
  (AuthLayer.optionalAuth jwt_verify jwtSecret now authorization ctx).2 = None.
Proof.
  unfold AuthLayer.optionalAuth.
  destruct (AuthLayer.noToken (AuthLayer.extractToken authorization));
    [reflexivity |].
  destruct (AuthLayer.verifyToken _ _ _ _); reflexivity.
Qed.

Lemma middleware_refusal (l : RateLimitLayer.t) (now : Z)
    (ctx : RateLimitLayer.Context) (tierName : string) (e : JsError) :
  RateLimitLayer.next
    (RateLimitLayer.middleware legalHeaderValue l now ctx tierName).1 = Some e ->
  err_statusCode e = Some 429
  /\ err_errorCode e = Some "RATE_LIMIT_EXCEEDED"
  /\ RateLimitLayer.isConnected l = true.
Proof.
  intros He.
  destruct (middleware_next legalHeaderValue l now ctx tierName)
    as (_ & [Hnone | (e' & He' & Hden & Hcode & Hstatus)] & _); [congruence |].
  rewrite He in He'. injection He' as <-.
  destruct (checkRateLimit_denied l now ctx _ Hden) as (Hc & _).
  auto.
Qed.

Lemma tier_never_empty (decoded : AuthLayer.Claims) (fallback : string) :
  RoutingLayer.orStr
    (Some (AuthLayer.tier (AuthLayer.extractUserContext decoded))) fallback
  = AuthLayer.tier (AuthLayer.extractUserContext decoded).
Proof.
  cbn. destruct (AuthLayer.claim_tier decoded) as [s |]; cbn; [| reflexivity].
  destruct (String.eqb s "") eqn:He; cbn; [reflexivity |]. rewrite He. reflexivity.
Qed.

(** X20. What the two gates before forwarding can refuse.  An error out
    of the authentication and rate-limit middlewares is either a 401 or
    a 429 RATE_LIMIT_EXCEEDED.  A 401 arises only on a route that requires
    authentication; it ends the chain before the limiter runs, so the
    request is counted nowhere and gets no user.  A 429 arises only with
    the counter store connected.  A request that passes both gates on a
    route that requires authentication carries a verified user. *)
Theorem gate_rejections (l : RateLimitLayer.t) (now : Z)
    (route : RoutingLayer.Route) (authorization : option string)
    (clientIp : string) :
  let res :=
    ApiGateway.authThenLimit jwt_verify jwtSecret legalHeaderValue l now route
      authorization clientIp in
  (forall e,
     res.1.1 = Some e ->
     (err_statusCode e = Some 401
      /\ RoutingLayer.authRequired route = true
      /\ res.2 = l
      /\ res.1.2 = AuthLayer.mkContext None None)
     \/ (err_statusCode e = Some 429
         /\ err_errorCode e = Some "RATE_LIMIT_EXCEEDED"
         /\ RateLimitLayer.isConnected l = true))
  /\ (RoutingLayer.authRequired route = true ->
      res.1.1 = None ->
      exists u, res.1.2 = AuthLayer.mkContext (Some u) (Some true)).
Proof.
  intros res. subst res.
  unfold ApiGateway.authThenLimit, ApiGateway.conditionalAuth,
    ApiGateway.conditionalRateLimit.
  destruct (RoutingLayer.authRequired route).
  - destruct (requireAuth_cases now authorization (AuthLayer.mkContext None None))
      as [[u Hu] | (e0 & He0 & Hst)].
    + rewrite Hu.
      destruct (RateLimitLayer.middleware legalHeaderValue l now _ _)
        as [passed l'] eqn:Hm.
      cbn [fst snd]. split.
      * intros e He. right.
        apply (middleware_refusal l now
                 (ApiGateway.limiterContext
                    (AuthLayer.mkContext (Some u) (Some true)) clientIp)
                 (RoutingLayer.orStr (Some (RoutingLayer.rateLimitTier route)) "basic")).
        rewrite Hm. exact He.
      * intros _ _. exists u. reflexivity.
    + rewrite He0. cbn [fst snd]. split.
      * intros e [= <-]. left. auto.
      * intros _ H. discriminate H.
  - pose proof (optionalAuth_passes now authorization (AuthLayer.mkContext None None))
      as Hopt.
    destruct (AuthLayer.optionalAuth jwt_verify jwtSecret now authorization
                (AuthLayer.mkContext None None)) as [ctx next].
    cbn in Hopt. subst next.
    destruct (RateLimitLayer.middleware legalHeaderValue l now _ _)
      as [passed l'] eqn:Hm.
    cbn [fst snd]. split; [| discriminate].
    intros e He. right.
    apply (middleware_refusal l now (ApiGateway.limiterContext ctx clientIp)
             (RoutingLayer.orStr (Some (RoutingLayer.rateLimitTier route)) "basic")).
    rewrite Hm. exact He.
Qed.

(** X21. For an authenticated request the tier of the token decides the
    limit, not the tier of the route: the request is counted for the user
    of the token under the token's tier ([basic] when the token names
    none); it passes exactly when that decision allows it or the name of
    the tier cannot be set as a response header, in which case the
    middleware's [catch] lets it on; a tier whose configuration has no
    limit to report, as the names inherited from [Object.prototype] have
    none, always passes; and the outcome is the same on every route,
    whatever its [rateLimitTier] and whether or not it requires
    authentication. *)
Theorem token_tier_overrides_route_tier (l : RateLimitLayer.t) (now : Z)
    (route : RoutingLayer.Route) (authorization : option string)
    (clientIp token : string) (decoded : AuthLayer.Claims) :
  AuthLayer.extractToken authorization = Some token ->
  token <> "" ->
  jwt_verify token jwtSecret = inl decoded ->
  let u := AuthLayer.extractUserContext decoded in
  let tierName := RoutingLayer.orStr (AuthLayer.claim_tier decoded) "basic" in
  let who :=
    RateLimitLayer.mkContext
      (Some (RateLimitLayer.mkUser (default "undefined" (AuthLayer.id u))
               (Some tierName)))
      clientIp in
  let decided := RateLimitLayer.checkRateLimit l now who tierName in
  let res :=
    ApiGateway.authThenLimit jwt_verify jwtSecret legalHeaderValue l now route
      authorization clientIp in
  res.2 = decided.2
  /\ (res.1.1 = None
      <-> RateLimitLayer.allowed decided.1 = true
          \/ legalHeaderValue tierName = false)
  /\ (RateLimitLayer.requests (RateLimitLayer.getTierConfig l tierName)
      = RateLimitLayer.Undefined ->
      res.1.1 = None)
  /\ res.1.2 = AuthLayer.mkContext (Some u) (Some true)
  /\ (forall route',
        ApiGateway.authThenLimit jwt_verify jwtSecret legalHeaderValue l now route'
          authorization clientIp = res).
Proof.
  intros Htok Hne Hv u tierName who decided res.
  assert (Hut : forall fallback, RateLimitLayer.userTierOf who fallback = tierName).
  { intros fallback.
    change (RateLimitLayer.userTierOf who fallback)
      with (RoutingLayer.orStr (Some (AuthLayer.tier u)) fallback).
    unfold u. rewrite tier_never_empty. reflexivity. }
  assert (Hsame : forall fallback,
            RateLimitLayer.middleware legalHeaderValue l now who fallback
            = RateLimitLayer.middleware legalHeaderValue l now who tierName).
  { intros fallback. unfold RateLimitLayer.middleware. rewrite !Hut. reflexivity. }
  assert (Hres : forall r,
            ApiGateway.authThenLimit jwt_verify jwtSecret legalHeaderValue l now r
              authorization clientIp
            = (RateLimitLayer.next
                 (RateLimitLayer.middleware legalHeaderValue l now who tierName).1,
               AuthLayer.mkContext (Some u) (Some true),
               (RateLimitLayer.middleware legalHeaderValue l now who tierName).2)).
  { intros r.
    destruct (auth_accepts now authorization (AuthLayer.mkContext None None)
                token decoded Htok Hne Hv) as [Hreq Hopt].
    unfold ApiGateway.authThenLimit, ApiGateway.conditionalAuth,
      ApiGateway.conditionalRateLimit.
    assert (Hctx : (if RoutingLayer.authRequired r
                    then AuthLayer.requireAuth jwt_verify jwtSecret now authorization
                           (AuthLayer.mkContext None None)
                    else AuthLayer.optionalAuth jwt_verify jwtSecret now authorization
                           (AuthLayer.mkContext None None))
                   = (AuthLayer.mkContext (Some u) (Some true), None))
      by (destruct (RoutingLayer.authRequired r); assumption).
    rewrite Hctx.
    change (ApiGateway.limiterContext (AuthLayer.mkContext (Some u) (Some true))
              clientIp) with who.
    rewrite Hsame.
    destruct (RateLimitLayer.middleware legalHeaderValue l now who tierName);
      reflexivity. }
  destruct (middleware_next legalHeaderValue l now who tierName) as (Hl & _ & _).
  pose proof (middleware_passes_iff legalHeaderValue l now who tierName) as Hiff.
  cbv zeta in Hl, Hiff. rewrite Hut in Hl, Hiff. fold decided in Hl, Hiff.
  subst res. rewrite Hres. cbn [fst snd].
  split; [exact Hl |]. split; [exact Hiff |].
  split; [| split; [reflexivity | intros route'; apply Hres]].
  intros Hundef. apply Hiff. left.
  destruct (RateLimitLayer.allowed decided.1) eqn:Ha; [reflexivity |].
  destruct (checkRateLimit_denied l now who tierName Ha) as (_ & _ & limit & Hlim & _).
  congruence.
Qed.

End ChainFacts.

Lemma token_tier_overrides_route_tier_witness :
  let l := sampleLimiter true
             {[ "rate_limit:premium:user:u1:1699999980000" := 100 ]} noFaults in
  let route :=
    RoutingLayer.normalize (routeTo "/api/users" "http://localhost:3001" None) in
  let res :=
    ApiGateway.authThenLimit sampleVerify "s3cret" printable l 1700000012345 route
      (Some "Bearer good") "10.0.0.7" in
  res.1.1 = None
  /\ RateLimitLayer.store (RateLimitLayer.redisClient res.2)
       !! "rate_limit:premium:user:u1:1699999980000" = Some 101.
Proof.
  intros l route res.
  destruct (token_tier_overrides_route_tier sampleVerify "s3cret" printable l
              1700000012345 route (Some "Bearer good") "10.0.0.7" "good" sampleClaims)
    as (Hl & Hpass & _).
  - reflexivity.
  - discriminate.
  - reflexivity.
  - split.
    + apply Hpass. left. vm_compute. reflexivity.
    + etransitivity; [exact (f_equal (fun x => RateLimitLayer.store
                                                 (RateLimitLayer.redisClient x)
                                               !! "rate_limit:premium:user:u1:1699999980000")
                               Hl) |].
      vm_compute. reflexivity.
Defined.

(** ** The entry layer *)

Lemma find_headerTooLarge (hs : list (string * JsVal)) :
  List.find EntryLayer.headerTooLarge hs = None <-> Forall headerFits hs.
Proof.
  induction hs as [| kv hs IH]; [split; [constructor | reflexivity] |].
  cbn [List.find]. unfold EntryLayer.headerTooLarge at 1.
  destruct (Nat.ltb_spec 256 (String.length kv.1)) as [Hk | Hk]; cbn [orb].
  - split; [discriminate |]. intros H. inversion H as [| ? ? [Hfit _] _]. lia.
  - destruct kv.2 as [| | b | n | | value | l] eqn:Hv;
      try (rewrite IH; split;
           [intros H; constructor; [split; [exact Hk | intros ? ?; congruence] | exact H]
           | intros H; inversion H; assumption]).
    destruct (Nat.ltb_spec 4096 (String.length value)) as [Hl | Hl].
    + split; [discriminate |]. intros H. inversion H as [| ? ? [_ Hfit] _].
      specialize (Hfit value Hv). lia.
    + rewrite IH. split.
      * intros H. constructor; [| exact H].
        split; [exact Hk |]. intros v' Hv'. rewrite Hv in Hv'.
        injection Hv' as <-. exact Hl.
      * intros H. inversion H. assumption.
Qed.

(** X22. [enforceGlobalLimits] lets a request on exactly when its URL has
    at most 2048 characters, it has at most 100 headers, and every header
    has a name of at most 256 characters and, when its value is a string,
    a value of at most 4096 characters (the value of a repeated header,
    an array, is not measured).  A URL that is too long is refused with
    414 before anything else is looked at; every other refusal is a 400. *)
Theorem global_limits_characterised (req : EntryLayer.Inbound) :
  (EntryLayer.enforceGlobalLimits req = EntryLayer.Next
   <-> (String.length (EntryLayer.url req) <= 2048)%nat
       /\ (length (EntryLayer.headers req) <= 100)%nat
       /\ Forall headerFits (EntryLayer.headers req))
  /\ (forall httpStatus error message,
        EntryLayer.enforceGlobalLimits req
        = EntryLayer.Refused httpStatus error message ->
        (httpStatus = 414 /\ (2048 < String.length (EntryLayer.url req))%nat)
        \/ (httpStatus = 400 /\ (String.length (EntryLayer.url req) <= 2048)%nat)).
Proof.
  unfold EntryLayer.enforceGlobalLimits.
  destruct (Nat.ltb_spec 2048 (String.length (EntryLayer.url req))) as [Hu | Hu].
  - split; [split; [discriminate | lia] |].
    intros st e m [= <- _ _]. left. auto.
  - destruct (Nat.ltb_spec 100 (length (EntryLayer.headers req))) as [Hn | Hn].
    + split; [split; [discriminate | lia] |].
      intros st e m [= <- _ _]. right. auto.
    + pose proof (find_headerTooLarge (EntryLayer.headers req)) as Hfind.
      destruct (List.find EntryLayer.headerTooLarge (EntryLayer.headers req))
        as [kv |].
      * split; [split; [discriminate |] |].
        -- intros (_ & _ & Hall). apply Hfind in Hall. discriminate.
        -- intros st e m [= <- _ _]. right. auto.
      * split; [split; [intros _ | reflexivity] | discriminate].
        split; [exact Hu |]. split; [exact Hn |]. apply Hfind. reflexivity.
Qed.

Lemma windowKeyOf_ip_inj (ip ip' tierName : string) (ws : Z) :
  RateLimitLayer.windowKeyOf (RateLimitLayer.mkContext None ip) tierName ws
  = RateLimitLayer.windowKeyOf (RateLimitLayer.mkContext None ip') tierName ws ->
  ip = ip'.
Proof.
  rewrite !windowKeyOf_flat. unfold identityOf. cbn.
  intros H. apply append_cancel_r in H.
  do 3 apply append_cancel_l in H.
  apply append_cancel_r in H. apply append_cancel_l in H. exact H.
Qed.

(** X23. The counter of an anonymous request is chosen by the request
    itself: when the request carries a non-empty [x-forwarded-for] header,
    that text is the client address, whatever the addresses of the
    connection, and the limiter counts the request under it; two requests
    over the same connection that send different values of the header are
    counted under different keys. *)
Theorem forwarded_for_selects_counter (req req' : EntryLayer.Inbound)
    (claimed claimed' tierName : string) (ws : Z) (ctx : AuthLayer.Context) :
  AuthLayer.user ctx = None ->
  EntryLayer.header (EntryLayer.headers req) "x-forwarded-for" = JStr claimed ->
  EntryLayer.header (EntryLayer.headers req') "x-forwarded-for" = JStr claimed' ->
  claimed <> "" ->
  claimed' <> "" ->
  EntryLayer.getClientIp req = claimed
  /\ ApiGateway.limiterContext ctx (EntryLayer.getClientIp req)
     = RateLimitLayer.mkContext None claimed
  /\ (claimed <> claimed' ->
      RateLimitLayer.windowKeyOf
        (ApiGateway.limiterContext ctx (EntryLayer.getClientIp req)) tierName ws
      <> RateLimitLayer.windowKeyOf
           (ApiGateway.limiterContext ctx (EntryLayer.getClientIp req')) tierName ws).
Proof.
  intros Hanon Hh Hh' Hne Hne'.
  assert (Hip : forall r c,
            EntryLayer.header (EntryLayer.headers r) "x-forwarded-for" = JStr c ->
            c <> "" -> EntryLayer.getClientIp r = c).
  { intros r c Hr Hc. unfold EntryLayer.getClientIp. rewrite Hr. cbn.
    destruct (String.eqb_spec c ""); [contradiction | reflexivity]. }
  rewrite (Hip req claimed Hh Hne), (Hip req' claimed' Hh' Hne').
  unfold ApiGateway.limiterContext. rewrite Hanon.
  split; [reflexivity |]. split; [reflexivity |].
  intros Hdiff Hkey. apply Hdiff. exact (windowKeyOf_ip_inj _ _ _ _ Hkey).
Qed.

Lemma forwarded_for_selects_counter_witness :
  let req x :=
    EntryLayer.mkInbound "/api/users"
      [("host", JStr "gw"); ("x-forwarded-for", JStr x)]
      (Some "192.168.1.20") None None in
  EntryLayer.getClientIp (req "10.0.0.7") = "10.0.0.7"
  /\ RateLimitLayer.windowKeyOf
       (ApiGateway.limiterContext (AuthLayer.mkContext None None)
          (EntryLayer.getClientIp (req "10.0.0.7"))) "basic" 1699999980000
     <> RateLimitLayer.windowKeyOf
          (ApiGateway.limiterContext (AuthLayer.mkContext None None)
             (EntryLayer.getClientIp (req "10.0.0.8"))) "basic" 1699999980000.
Proof.
  intros req.
  destruct (forwarded_for_selects_counter (req "10.0.0.7") (req "10.0.0.8")
              "10.0.0.7" "10.0.0.8" "basic" 1699999980000
              (AuthLayer.mkContext None None))
    as (Hip & _ & Hkeys); try reflexivity; try discriminate.
  split; [exact Hip | apply Hkeys; discriminate].
Defined.

(** ** Headers *)

Lemma lookup_foldr_delete (m : gmap string JsVal) (names : list string)
    (name : string) :
  foldr delete m names !! name = if includes names name then None else m !! name.
Proof.
  induction names as [| k names IH]; [reflexivity |].
  cbn [foldr]. unfold includes. cbn [existsb]. fold (includes names name).
  destruct (String.eqb_spec name k) as [-> | Hne]; cbn [orb].
  - apply lookup_delete_eq.
  - rewrite lookup_delete_ne by congruence. exact IH.
Qed.

(** X24. The headers that [buildUpstreamHeaders] sends to the upstream.
    No hop-by-hop header of the client is among them.  [x-forwarded-for],
    [x-forwarded-proto] and [x-request-id] are the gateway's own values,
    whatever the client sent under these names, and [host] is the host of
    the target unless the route preserves the client's.  For an
    authenticated request the [x-user-*] headers describe the user of the
    token; for an anonymous one the client's own [x-user-*] headers, if
    it sent any, go to the upstream unchanged.  Every other header of the
    client is kept as it is. *)
Theorem upstream_headers_are_rewritten (urlHost : string -> option string)
    (reqHeaders : gmap string JsVal) (clientIp protocol requestId : string)
    (user : option AuthLayer.UserContext) (target : string) (preserveHost : bool)
    (sent : gmap string JsVal) :
  ForwardingHeaders.buildUpstreamHeaders urlHost reqHeaders clientIp protocol
    requestId user target preserveHost = Resolved sent ->
  (forall name, In name ForwardingHeaders.hopByHopHeaders -> sent !! name = None)
  /\ sent !! "x-forwarded-for" = Some (JStr clientIp)
  /\ sent !! "x-forwarded-proto" = Some (JStr protocol)
  /\ sent !! "x-request-id" = Some (JStr requestId)
  /\ sent !! "host" = (if preserveHost then reqHeaders !! "host"
                       else JStr <$> urlHost target)
  /\ match user with
     | Some u =>
         sent !! "x-user-id" = Some (ForwardingHeaders.orUndefined (AuthLayer.id u))
         /\ sent !! "x-user-roles" = Some (JStr (joinWith "," (AuthLayer.roles u)))
         /\ sent !! "x-user-tier" = Some (JStr (AuthLayer.tier u))
     | None =>
         forall name, In name ["x-user-id"; "x-user-roles"; "x-user-tier"] ->
                      sent !! name = reqHeaders !! name
     end
  /\ (forall name,
        ~ In name ForwardingHeaders.hopByHopHeaders ->
        ~ In name gatewayHeaders ->
        sent !! name = reqHeaders !! name).
Proof.
  unfold ForwardingHeaders.buildUpstreamHeaders.
  pose proof (lookup_foldr_delete reqHeaders ForwardingHeaders.hopByHopHeaders)
    as Hbase.
  set (base := foldr delete reqHeaders ForwardingHeaders.hopByHopHeaders) in *.
  assert (Hkept : forall name,
            ~ In name ForwardingHeaders.hopByHopHeaders ->
            base !! name = reqHeaders !! name).
  { intros name Hn. rewrite Hbase.
    destruct (includes ForwardingHeaders.hopByHopHeaders name) eqn:Hi;
      [| reflexivity].
    apply includes_In in Hi. contradiction. }
  assert (Hhop : forall name,
            In name ForwardingHeaders.hopByHopHeaders -> base !! name = None).
  { intros name Hn. rewrite Hbase.
    apply includes_In in Hn. rewrite Hn. reflexivity. }
  assert (Hnames : forall name,
            In name ForwardingHeaders.hopByHopHeaders ->
            ~ In name gatewayHeaders).
  { intros name Hn Hg. cbn in Hn, Hg.
    repeat (destruct Hn as [<- | Hn];
            [repeat (destruct Hg as [Hg | Hg]; [discriminate Hg |]); exact Hg |]).
    exact Hn. }
  assert (Hown : forall name,
            In name ["x-user-id"; "x-user-roles"; "x-user-tier"] ->
            ~ In name ForwardingHeaders.hopByHopHeaders).
  { intros name Hn Hh. cbn in Hn, Hh.
    repeat (destruct Hn as [<- | Hn];
            [repeat (destruct Hh as [Hh | Hh]; [discriminate Hh |]); exact Hh |]).
    exact Hn. }
  intros Hsent.
  assert (Hother : forall name,
            ~ In name gatewayHeaders ->
            sent !! name = base !! name).
  { intros name Hg.
    assert (Hne : forall k, In k gatewayHeaders -> k <> name)
      by (intros k Hk ->; contradiction).
    destruct preserveHost; cbn [negb] in Hsent;
      [| destruct (urlHost target); [| discriminate Hsent]];
      destruct user; injection Hsent as <-;
      rewrite ?lookup_insert_ne by (apply Hne; cbn; tauto); reflexivity. }
  split.
  { intros name Hn. rewrite (Hother name (Hnames name Hn)). apply Hhop, Hn. }
  assert (Hhost : ~ In "host" ForwardingHeaders.hopByHopHeaders)
    by (cbn; intuition discriminate).
  destruct preserveHost; cbn [negb] in Hsent;
    [| destruct (urlHost target) as [hostName |]; [| discriminate Hsent]];
    destruct user as [u |]; injection Hsent as <-;
    (split; [rewrite ?lookup_insert_ne by discriminate; apply lookup_insert_eq |]);
    (split; [rewrite ?lookup_insert_ne by discriminate; apply lookup_insert_eq |]);
    (split; [rewrite ?lookup_insert_ne by discriminate; apply lookup_insert_eq |]);
    (split; [rewrite ?lookup_insert_ne by discriminate;
             first [apply lookup_insert_eq | apply Hkept, Hhost] |]);
    (split;
     [first [ split; [| split];
              rewrite ?lookup_insert_ne by discriminate; apply lookup_insert_eq
            | intros name Hn; rewrite <- (Hkept name (Hown name Hn));
              cbn in Hn; destruct Hn as [<- | [<- | [<- | []]]];
              rewrite ?lookup_insert_ne by discriminate; reflexivity ]
     | intros name Hh Hg; rewrite <- (Hkept name Hh);
       assert (Hne : forall k, In k gatewayHeaders -> k <> name)
         by (intros k Hk ->; contradiction);
       rewrite ?lookup_insert_ne by (apply Hne; cbn; tauto); reflexivity ]).
Qed.

Lemma upstream_headers_are_rewritten_witness :
  let reqHeaders : gmap string JsVal :=
    <["connection" := JStr "keep-alive"]>
      (<["x-user-id" := JStr "root"]>
         (<["x-request-id" := JStr "client-chosen"]>
            (<["accept" := JStr "*/*"]> ∅))) in
  exists sent,
    ForwardingHeaders.buildUpstreamHeaders (fun _ => Some "localhost:3001")
      reqHeaders "10.0.0.7" "http" "r-1" None "http://localhost:3001" false
    = Resolved sent
    /\ sent !! "connection" = None
    /\ sent !! "x-request-id" = Some (JStr "r-1")
    /\ sent !! "x-user-id" = Some (JStr "root")
    /\ sent !! "accept" = Some (JStr "*/*").
Proof.
  intros reqHeaders. eexists. split; [reflexivity |].
  match goal with
  | |- ?s !! _ = _ /\ _ =>
      destruct (upstream_headers_are_rewritten (fun _ => Some "localhost:3001")
                  reqHeaders "10.0.0.7" "http" "r-1" None "http://localhost:3001"
                  false s eq_refl)
        as (Hhop & _ & _ & Hid & _ & Huser & Hrest)
  end.
  split; [apply Hhop; cbn; tauto |].
  split; [exact Hid |].
  split; [rewrite Huser by (cbn; tauto); reflexivity |].
  rewrite Hrest; [reflexivity | cbn; intuition discriminate
                 | cbn; intuition discriminate].
Defined.

(** X25. The headers that [forwardResponse] sets on the client's response.
    No header of the upstream whose name is, in any letter case, a
    hop-by-hop name is set; every other header of the upstream is set with
    its value; and the last header set under the names [X-Request-ID] and
    [X-Gateway-Service], in any letter case, is the gateway's own: it
    comes after whatever the upstream sent under these names. *)
Theorem response_headers_are_filtered (upstreamHeaders : list (string * JsVal))
    (requestId : string) :
  let calls := ForwardingHeaders.responseHeaders upstreamHeaders requestId in
  (forall kv, In kv calls ->
     includes ForwardingHeaders.hopByHopHeaders
       (ForwardingHeaders.toLowerCase kv.1) = false)
  /\ (forall kv, In kv upstreamHeaders ->
        includes ForwardingHeaders.hopByHopHeaders
          (ForwardingHeaders.toLowerCase kv.1) = false ->
        In kv calls)
  /\ List.find (fun kv => String.eqb (ForwardingHeaders.toLowerCase kv.1)
                            "x-request-id") (rev calls)
     = Some ("X-Request-ID", JStr requestId)
  /\ List.find (fun kv => String.eqb (ForwardingHeaders.toLowerCase kv.1)
                            "x-gateway-service") (rev calls)
     = Some ("X-Gateway-Service", JStr "api-gateway").
Proof.
  intros calls. subst calls. unfold ForwardingHeaders.responseHeaders.
  split; [| split; [| split]].
  - intros kv Hin. apply in_app_or in Hin as [Hin | Hin].
    + apply filter_In in Hin as [_ Hk]. apply negb_true_iff in Hk. exact Hk.
    + cbn in Hin. destruct Hin as [<- | [<- | []]]; reflexivity.
  - intros kv Hin Hk. apply in_or_app. left. apply filter_In.
    split; [exact Hin | rewrite Hk; reflexivity].
  - rewrite rev_app_distr. reflexivity.
  - rewrite rev_app_distr. reflexivity.
Qed.

(** ** Mapping of upstream errors *)

